(** * Maker-Checker decision engine: a shallow embedding

    The TypeScript sources under [scripts/] (types.ts, quality-analyzer.ts,
    merge-decider.ts, convergence-detector.ts with the iteration limiter,
    state-manager.ts and the orchestrator loop of index.ts) are transcribed
    as Rocq functions, class by class, one [Module] per class.

    Conventions of the embedding:
    - a JavaScript [number] that carries a score, a cost or a threshold is a
      rational [Q] with exact arithmetic (IEEE rounding, NaN and the
      infinities are not represented); counters (iteration numbers, issue
      counts) are integers [Z];
    - string-literal unions are inductive types, interfaces are records,
      optional fields are [option];
    - methods that mutate the state object they receive become functions
      returning the new state; the clock read by [new Date()] is an
      explicit argument [now];
    - the collaborators of the orchestrator (Checker, Maker, CI) are
      functions of the iteration number, and the calls made are logged in
      a trace of events; a collaborator that throws instead of answering
      is handled by the caller of the loop and is not part of it. *)

From Stdlib Require Import QArith ZArith List Ascii String Bool Lia Lqa.
From Stdlib Require Import Qround Qminmax Qabs DecimalString.
From Stdlib Require Import Permutation.
Import ListNotations.

Open Scope Q_scope.

(* ================================================================= *)
(** ** JavaScript numbers, comparisons and rendering *)

(** [a >= b], [a < b] and [a > b] on numbers. *)
Definition Qgeb (a b : Q) : bool := Qle_bool b a.
Definition Qltb (a b : Q) : bool := negb (Qle_bool b a).
Definition Qgtb (a b : Q) : bool := negb (Qle_bool a b).

(** Truthiness of a number: [0] is falsy. *)
Definition truthy (q : Q) : bool := negb (Qeq_bool q 0).

(** [x || d] where [x] may be [undefined]. *)
Definition orElse (x : option Q) (d : Q) : Q :=
  match x with
  | Some q => if truthy q then q else d
  | None => d
  end.

(** A counter seen as a number. *)
Definition Qn (n : nat) : Q := inject_Z (Z.of_nat n).

(** [`${n}`] for an integer. *)
Definition showZ (z : Z) : string := NilZero.string_of_int (Z.to_int z).

Fixpoint zeros (n : nat) : string :=
  match n with
  | O => EmptyString
  | S k => String "0"%char (zeros k)
  end.

(** [x.toFixed(digits)]: the integer [n] with [n / 10^digits] closest to
    [|x|] (the larger one on a tie), printed with [digits] decimals and
    the sign of [x]; magnitudes from 10^21 on, which JavaScript prints in
    exponent form, are not distinguished. *)
Definition toFixed (x : Q) (digits : nat) : string :=
  let scale := (10 ^ Z.of_nat digits)%Z in
  let n := Qfloor (Qabs x * inject_Z scale + (1 # 2)) in
  let whole := showZ (n / scale) in
  let frac := showZ (n mod scale) in
  ((if Qltb x 0 then "-" else "")
   ++ whole
   ++ (match digits with
       | O => ""
       | _ => "." ++ zeros (digits - String.length frac) ++ frac
       end))%string.

(** [(x * 100).toFixed(1)], the percentage rendering used in messages. *)
Definition pct (x : Q) : string := toFixed (x * 100) 1.

Definition nl : string := String "010"%char EmptyString.

(** [parts.join(sep)]. *)
Fixpoint join (sep : string) (parts : list string) : string :=
  match parts with
  | [] => EmptyString
  | [p] => p
  | p :: rest => (p ++ sep ++ join sep rest)%string
  end.

(** [arr.slice(start)]: a negative [start] counts from the end. *)
Definition slice_from {A : Type} (start : Z) (l : list A) : list A :=
  let len := Z.of_nat (List.length l) in
  let k := if (start <? 0)%Z then Z.max (len + start) 0 else Z.min start len in
  skipn (Z.to_nat k) l.

(* ================================================================= *)
(** ** types.ts *)

Inductive IssueType : Set :=
  security | performance | type_safety | code_quality | best_practice.

Inductive Severity : Set := sev_error | sev_warning | sev_info.

Inductive SecuritySeverity : Set :=
  sec_critical | sec_high | sec_medium | sec_low.

Inductive Impact : Set := impact_high | impact_medium | impact_low.

Inductive Status : Set := status_success | status_error.

Inductive CIStatus : Set := ci_success | ci_pending | ci_failure | ci_error.

Inductive Phase : Set :=
  waiting | codex_review | claude_response | re_review | complete | failed.

Inductive ConvergenceStatus : Set :=
  conv_improving | conv_stagnant | conv_complete.

Scheme Equality for IssueType.
Scheme Equality for Severity.
Scheme Equality for SecuritySeverity.
Scheme Equality for Impact.
Scheme Equality for Status.
Scheme Equality for CIStatus.
Scheme Equality for Phase.
Scheme Equality for ConvergenceStatus.

Record Issue : Set := mkIssue {
  issue_type : IssueType;
  issue_severity : Severity;
  issue_file : string;
  issue_line : Z;
  issue_message : string
}.

Record SecurityIssue : Set := mkSecurityIssue {
  sec_type : string;
  sec_severity : SecuritySeverity;
  sec_description : string;
  sec_file : string;
  sec_line : Z;
  sec_recommendation : string
}.

Record PerformanceIssue : Set := mkPerformanceIssue {
  perf_type : string;
  perf_impact : Impact;
  perf_description : string;
  perf_file : string;
  perf_line : Z;
  perf_suggestion : string
}.

Record CodexReviewResult : Set := mkCodexReviewResult {
  review_status : Status;
  issuesFound : list Issue;
  overallQuality : Q;
  recommendations : list string;
  securityIssues : list SecurityIssue;
  performanceIssues : list PerformanceIssue;
  rawResponse : string;
  review_cost : Q;
  review_timestamp : string
}.

Record ClaudeResponseResult : Set := mkClaudeResponseResult {
  response_status : Status;
  commitSha : string;
  filesModified : list string;
  issuesAddressed : Z;
  explanation : string;
  response_cost : Q;
  response_timestamp : string
}.

Record IterationRecord : Set := mkIterationRecord {
  iteration : Z;
  codexReview : option CodexReviewResult;
  claudeResponse : option ClaudeResponseResult;
  record_issuesFound : Z;
  issuesFixed : Z;
  qualityDelta : Q;
  cost : Q;
  timestamp : string;
  durationSeconds : Q
}.

Record IterationState : Set := mkIterationState {
  prNumber : Z;
  repository : string;
  currentIteration : Z;
  maxIterations : Z;
  history : list IterationRecord;
  currentPhase : Phase;
  qualityScore : Q;
  convergenceStatus : ConvergenceStatus;
  totalCost : Q;
  createdAt : string;
  updatedAt : string
}.

(** [requireHumanApprovalIf]. The interface declares four rules; the
    decider also reads [tests_failing], which the default configuration
    sets (an absent flag is falsy, i.e. [false]). *)
Record ApprovalRules : Set := mkApprovalRules {
  qualityScoreBelow : Q;
  securityIssuesFound : bool;
  iterationsExceeded : bool;
  costExceeded : bool;
  tests_failing : bool
}.

Record MakerCheckerConfig : Set := mkMakerCheckerConfig {
  cfg_maxIterations : Z;
  qualityThreshold : Q;
  autoMergeThreshold : Q;
  autoMergeEnabled : bool;
  maxCostPerPR : Q;
  monthlyCostCap : Q;
  requireHumanApprovalIf : ApprovalRules
}.

Record QualityMetrics : Set := mkQualityMetrics {
  overallScore : Q;
  codeQuality : Q;
  metric_security : Q;
  metric_performance : Q;
  typeSafety : Q;
  bestPractices : Q
}.

Record MergeDecision : Set := mkMergeDecision {
  decision_shouldMerge : bool;
  decision_reason : string;
  decision_requiresHumanApproval : bool;
  blockingIssues : list Issue;
  decision_qualityScore : Q;
  iterationsUsed : Z;
  decision_totalCost : Q
}.

Definition phaseName (p : Phase) : string :=
  match p with
  | waiting => "waiting"
  | codex_review => "codex_review"
  | claude_response => "claude_response"
  | re_review => "re_review"
  | complete => "complete"
  | failed => "failed"
  end.

Definition ciName (c : CIStatus) : string :=
  match c with
  | ci_success => "success"
  | ci_pending => "pending"
  | ci_failure => "failure"
  | ci_error => "error"
  end.

(** The record the orchestrator hands to [recordIteration]:
    [Omit<IterationRecord, 'timestamp' | 'durationSeconds'>]. *)
Record RecordInput : Set := mkRecordInput {
  in_iteration : Z;
  in_codexReview : option CodexReviewResult;
  in_claudeResponse : option ClaudeResponseResult;
  in_issuesFound : Z;
  in_issuesFixed : Z;
  in_qualityDelta : Q;
  in_cost : Q
}.

(* ================================================================= *)
(** ** quality-analyzer.ts *)

Record QualityGrade : Set := mkQualityGrade {
  grade : string;
  grade_label : string;
  grade_emoji : string
}.

Module QualityAnalyzer.

(** The three [forEach] loops of [calculatePenalties], each adding to
    the running [totalPenalty]. *)
Definition issuePenalty (totalPenalty : Q) (issue : Issue) : Q :=
  match issue_severity issue with
  | sev_error => totalPenalty + (1 # 10)
  | sev_warning => totalPenalty + (5 # 100)
  | sev_info => totalPenalty + (2 # 100)
  end.

Definition securityPenalty (totalPenalty : Q) (issue : SecurityIssue) : Q :=
  match sec_severity issue with
  | sec_critical => totalPenalty + (2 # 10)
  | sec_high => totalPenalty + (15 # 100)
  | _ => totalPenalty
  end.

Definition performancePenalty (totalPenalty : Q) (issue : PerformanceIssue) : Q :=
  match perf_impact issue with
  | impact_high => totalPenalty + (1 # 10)
  | _ => totalPenalty
  end.

Definition calculatePenalties (review : CodexReviewResult) : Q :=
  let totalPenalty := 0 in
  let totalPenalty := fold_left issuePenalty (issuesFound review) totalPenalty in
  let totalPenalty := fold_left securityPenalty (securityIssues review) totalPenalty in
  let totalPenalty := fold_left performancePenalty (performanceIssues review) totalPenalty in
  totalPenalty.

Definition calculateQualityScore (review : CodexReviewResult) : Q :=
  match review_status review with
  | status_error => 0
  | status_success =>
      let score := overallQuality review in
      let penalties := calculatePenalties review in
      let score := Qmax 0 (score - penalties) in
      Qmin 1 (Qmax 0 score)
  end.

Definition categoryPenalty (penalty : Q) (issue : Issue) : Q :=
  match issue_severity issue with
  | sev_error => penalty + (15 # 100)
  | sev_warning => penalty + (8 # 100)
  | sev_info => penalty + (3 # 100)
  end.

Definition calculateCategoryScore (issues : list Issue) : Q :=
  match issues with
  | [] => 1
  | _ => let penalty := fold_left categoryPenalty issues 0 in
         Qmax 0 (1 - penalty)
  end.

Definition ofType (t : IssueType) (i : Issue) : bool :=
  IssueType_beq (issue_type i) t.

Definition calculateMetrics (review : CodexReviewResult) : QualityMetrics :=
  let issues := issuesFound review in
  let securityIssues := filter (ofType security) issues in
  let performanceIssues := filter (ofType performance) issues in
  let typeSafetyIssues := filter (ofType type_safety) issues in
  let codeQualityIssues := filter (ofType code_quality) issues in
  let bestPracticeIssues := filter (ofType best_practice) issues in
  let security := calculateCategoryScore securityIssues in
  let performance := calculateCategoryScore performanceIssues in
  let typeSafety := calculateCategoryScore typeSafetyIssues in
  let codeQuality := calculateCategoryScore codeQualityIssues in
  let bestPractices := calculateCategoryScore bestPracticeIssues in
  let overallScore :=
    security * (25 # 100) + performance * (2 # 10) + typeSafety * (2 # 10)
    + codeQuality * (2 # 10) + bestPractices * (15 # 100) in
  {| overallScore := overallScore;
     codeQuality := codeQuality;
     metric_security := security;
     metric_performance := performance;
     typeSafety := typeSafety;
     bestPractices := bestPractices |}.

Definition meetsThreshold (score threshold : Q) : bool := Qgeb score threshold.

(** [isImproving(history: Array<{ qualityScore: number }>)]. An element
    without the property reads [undefined], and every comparison with
    [undefined] is false. *)
Definition gtUndef (a b : option Q) : bool :=
  match a, b with
  | Some x, Some y => Qgtb x y
  | _, _ => false
  end.

Fixpoint countImprovements (prev : option Q) (rest : list (option Q)) : nat :=
  match rest with
  | [] => O
  | cur :: tl =>
      ((if gtUndef cur prev then 1 else 0) + countImprovements cur tl)%nat
  end.

Definition isImproving (history : list (option Q)) : bool :=
  if (List.length history <? 2)%nat then true
  else
    let recentHistory := slice_from (-3) history in
    let improvementCount :=
      match recentHistory with
      | [] => O
      | first :: tl => countImprovements first tl
      end in
    (* Math.ceil(recentHistory.length / 2) *)
    (Nat.div (List.length recentHistory + 1) 2 <=? improvementCount)%nat.

Definition calculateImprovement (previousScore currentScore : Q) : Q :=
  currentScore - previousScore.

Definition getQualityGrade (score : Q) : QualityGrade :=
  if Qgeb score (95 # 100) then
    {| grade := "A+"; grade_label := "Excellent"; grade_emoji := "🌟" |}
  else if Qgeb score (9 # 10) then
    {| grade := "A"; grade_label := "Great"; grade_emoji := "✨" |}
  else if Qgeb score (85 # 100) then
    {| grade := "B+"; grade_label := "Good"; grade_emoji := "👍" |}
  else if Qgeb score (8 # 10) then
    {| grade := "B"; grade_label := "Acceptable"; grade_emoji := "👌" |}
  else if Qgeb score (7 # 10) then
    {| grade := "C"; grade_label := "Needs Work"; grade_emoji := "⚠️" |}
  else if Qgeb score (6 # 10) then
    {| grade := "D"; grade_label := "Poor"; grade_emoji := "❌" |}
  else
    {| grade := "F"; grade_label := "Failing"; grade_emoji := "🔴" |}.

End QualityAnalyzer.

(* ================================================================= *)
(** ** merge-decider.ts *)

Module MergeDecider.

Definition requiresHumanApproval
    (config : MakerCheckerConfig) (state : IterationState)
    (review : CodexReviewResult) (qualityMet : bool) (ciStatus : CIStatus)
    : bool :=
  let rules := requireHumanApprovalIf config in
  if truthy (qualityScoreBelow rules)
     && Qltb (qualityScore state) (qualityScoreBelow rules) then true
  else if securityIssuesFound rules
          && (0 <? List.length (securityIssues review))%nat then true
  else if iterationsExceeded rules
          && (currentIteration state >=? maxIterations state)%Z then true
  else if costExceeded rules
          && Qgeb (totalCost state) (maxCostPerPR config) then true
  else if tests_failing rules
          && negb (CIStatus_beq ciStatus ci_success) then true
  else false.

Definition generateApprovalMessage (state : IterationState) (autoMerge : bool)
    : string :=
  let parts :=
    [ ("Quality threshold met: " ++ pct (qualityScore state) ++ "%")%string;
      ("Iterations used: " ++ showZ (currentIteration state) ++ "/"
         ++ showZ (maxIterations state))%string;
      ("Total cost: $" ++ toFixed (totalCost state) 2)%string;
      "All checks passed ✅"%string ] in
  let parts :=
    if autoMerge
    then parts ++ ["**Auto-merge enabled** - PR will be merged automatically"%string]
    else parts ++ ["**Ready for your review** - Manual merge approval required"%string] in
  join " | " parts.

Definition generateBlockingMessage (reasons : list string) : string :=
  ("**Cannot merge yet**:" ++ nl ++ nl
     ++ join nl (map (fun r => "- " ++ r) reasons))%string.

Definition isBlocking (i : Issue) : bool :=
  IssueType_beq (issue_type i) security
  && Severity_beq (issue_severity i) sev_error.

(** [push] on the [reasons] array when the guard holds. *)
Definition pushIf (guard : bool) (reasons : list string) (r : string)
    : list string :=
  if guard then reasons ++ [r] else reasons.

Definition shouldMerge
    (config : MakerCheckerConfig) (state : IterationState)
    (latestReview : CodexReviewResult) (ciStatus : CIStatus)
    : MergeDecision :=
  let blockingIssues : list Issue := [] in
  let reasons : list string := [] in
  (* Check quality threshold *)
  let qualityMet := Qgeb (qualityScore state) (qualityThreshold config) in
  let reasons :=
    pushIf (negb qualityMet) reasons
      ("Quality score " ++ pct (qualityScore state) ++ "% below threshold "
         ++ pct (qualityThreshold config) ++ "%")%string in
  (* Check for blocking issues *)
  let securityIssues := filter isBlocking (issuesFound latestReview) in
  let hasSecurity := (0 <? List.length securityIssues)%nat in
  let blockingIssues :=
    if hasSecurity then blockingIssues ++ securityIssues else blockingIssues in
  let reasons :=
    pushIf hasSecurity reasons
      (showZ (Z.of_nat (List.length securityIssues))
         ++ " critical security issue(s) found")%string in
  (* Check CI status *)
  let reasons :=
    pushIf (negb (CIStatus_beq ciStatus ci_success)) reasons
      ("CI status: " ++ ciName ciStatus ++ " (must be success)")%string in
  (* Check if iterations exceeded *)
  let iterationsExceeded :=
    (currentIteration state >=? maxIterations state)%Z in
  let reasons :=
    pushIf (iterationsExceeded && negb qualityMet) reasons
      ("Reached max iterations (" ++ showZ (maxIterations state)
         ++ ") without meeting quality threshold")%string in
  (* Check cost limit *)
  let costExceeded := Qgeb (totalCost state) (maxCostPerPR config) in
  let reasons :=
    pushIf costExceeded reasons
      ("Cost exceeded limit: $" ++ toFixed (totalCost state) 2 ++ " / $"
         ++ toFixed (maxCostPerPR config) 2)%string in
  (* Check convergence *)
  let isStagnant :=
    ConvergenceStatus_beq (convergenceStatus state) conv_stagnant in
  let reasons :=
    pushIf (isStagnant && negb qualityMet) reasons
      "No improvement detected in recent iterations"%string in
  (* Determine if merge is possible *)
  let canAutoMerge :=
    autoMergeEnabled config
    && qualityMet
    && Qgeb (qualityScore state) (autoMergeThreshold config)
    && (List.length blockingIssues =? 0)%nat
    && CIStatus_beq ciStatus ci_success
    && negb costExceeded in
  (* Check if human approval is required *)
  let requiresHumanApproval :=
    requiresHumanApproval config state latestReview qualityMet ciStatus in
  (* Make final decision *)
  let shouldMerge :=
    canAutoMerge
    || (qualityMet && (List.length blockingIssues =? 0)%nat
        && CIStatus_beq ciStatus ci_success && negb requiresHumanApproval) in
  {| decision_shouldMerge := shouldMerge;
     decision_reason :=
       if shouldMerge
       then generateApprovalMessage state canAutoMerge
       else generateBlockingMessage reasons;
     decision_requiresHumanApproval := requiresHumanApproval || negb canAutoMerge;
     blockingIssues := blockingIssues;
     decision_qualityScore := qualityScore state;
     iterationsUsed := currentIteration state;
     decision_totalCost := totalCost state |}.

Definition getRecommendedAction (decision : MergeDecision) (state : IterationState)
    : string :=
  if decision_shouldMerge decision && negb (decision_requiresHumanApproval decision)
  then "✅ **Action**: Auto-merging (quality gates passed)"
  else if decision_shouldMerge decision && decision_requiresHumanApproval decision
  then "👀 **Action**: Ready for your review and manual merge"
  else if (currentIteration state >=? maxIterations state)%Z
  then "⚠️ **Action**: Max iterations reached - manual review required"
  else if ConvergenceStatus_beq (convergenceStatus state) conv_stagnant
  then "⚠️ **Action**: Not improving - consider manual fixes or closing PR"
  else if (0 <? List.length (blockingIssues decision))%nat
  then ("🔴 **Action**: Fix "
          ++ showZ (Z.of_nat (List.length (blockingIssues decision)))
          ++ " blocking issue(s) before merge")%string
  else "🔄 **Action**: Continue iterations (quality not met yet)".


End MergeDecider.

(* ================================================================= *)
(** ** convergence-detector.ts: ConvergenceDetector *)

Inductive Trend : Set := improving | stagnant | regressing.

Record Detection : Set := mkDetection {
  detection_status : Trend;
  detection_confidence : Q;
  detection_reason : string
}.


Record QualityTrend : Set := mkQualityTrend {
  qt_improving : bool;
  qt_stagnant : bool;
  qt_regressing : bool
}.

Record IssueTrend : Set := mkIssueTrend {
  it_decreasing : bool;
  it_stagnant : bool;
  it_increasing : bool
}.

(** The three counters kept by the trend loops. *)
Record Counts : Set := mkCounts { up : nat; down : nat; same : nat }.

Module ConvergenceDetector.

(** [h.codexReview?.overallQuality || 0]. *)
Definition qualityOf (h : IterationRecord) : Q :=
  orElse (option_map overallQuality (codexReview h)) 0.

(** [for (let i = 1; i < qualities.length; i++)] over adjacent pairs,
    [prev] being [qualities[i - 1]]. *)
Fixpoint qualitySteps (prev : Q) (rest : list Q) (c : Counts) : Counts :=
  match rest with
  | [] => c
  | cur :: tl =>
      let delta := cur - prev in
      let c :=
        if Qgtb delta (2 # 100)
        then {| up := S (up c); down := down c; same := same c |}
        else if Qltb delta (- (2 # 100))
        then {| up := up c; down := S (down c); same := same c |}
        else {| up := up c; down := down c; same := S (same c) |} in
      qualitySteps cur tl c
  end.

Definition analyzeQualityTrend (history : list IterationRecord) : QualityTrend :=
  let qualities := map qualityOf history in
  let c :=
    match qualities with
    | [] => mkCounts 0 0 0
    | q0 :: tl => qualitySteps q0 tl (mkCounts 0 0 0)
    end in
  let improvingCount := up c in
  let regressingCount := down c in
  let sameCount := same c in
  {| qt_improving :=
       (regressingCount <? improvingCount)%nat && (0 <? improvingCount)%nat;
     qt_stagnant :=
       (Z.of_nat sameCount >=? Z.of_nat (List.length qualities) - 1)%Z;
     qt_regressing := (improvingCount <? regressingCount)%nat |}.

Fixpoint issueSteps (prev : Z) (rest : list Z) (c : Counts) : Counts :=
  match rest with
  | [] => c
  | cur :: tl =>
      let c :=
        if (cur <? prev)%Z
        then {| up := up c; down := S (down c); same := same c |}
        else if (cur >? prev)%Z
        then {| up := S (up c); down := down c; same := same c |}
        else {| up := up c; down := down c; same := S (same c) |} in
      issueSteps cur tl c
  end.

Definition analyzeIssueTrend (history : list IterationRecord) : IssueTrend :=
  let issueCounts := map record_issuesFound history in
  let c :=
    match issueCounts with
    | [] => mkCounts 0 0 0
    | n0 :: tl => issueSteps n0 tl (mkCounts 0 0 0)
    end in
  let decreasingCount := down c in
  let increasingCount := up c in
  let sameCount := same c in
  {| it_decreasing := (increasingCount <? decreasingCount)%nat;
     it_stagnant :=
       (Z.of_nat sameCount >=? Z.of_nat (List.length issueCounts) - 1)%Z;
     it_increasing := (decreasingCount <? increasingCount)%nat |}.

Definition calculateOverallTrend (history : list IterationRecord) : Q :=
  match history with
  | [] => 0
  | [_] => 0
  | h0 :: _ =>
      let firstQuality := qualityOf h0 in
      let lastQuality := qualityOf (last history h0) in
      (lastQuality - firstQuality) / Qn (List.length history)
  end.

Definition sum (values : list Q) : Q :=
  fold_left (fun sum val => sum + val) values 0.


(** The [improvements] array: [currQuality - prevQuality] for
    [i = 1 .. history.length - 1]. *)
Fixpoint deltas (prev : Q) (rest : list Q) : list Q :=
  match rest with
  | [] => []
  | cur :: tl => (cur - prev) :: deltas cur tl
  end.


Definition detectConvergence (stagnationThreshold : Z) (state : IterationState)
    : Detection :=
  if (List.length (history state) <? 2)%nat then
    {| detection_status := improving;
       detection_confidence := 5 # 10;
       detection_reason := "Not enough iterations to determine trend" |}
  else
    let recentHistory := slice_from (- stagnationThreshold) (history state) in
    let qualityTrend := analyzeQualityTrend recentHistory in
    let issueTrend := analyzeIssueTrend recentHistory in
    if qt_improving qualityTrend && it_decreasing issueTrend then
      {| detection_status := improving;
         detection_confidence := 9 # 10;
         detection_reason := "Quality increasing and issues decreasing" |}
    else if qt_stagnant qualityTrend && it_stagnant issueTrend then
      {| detection_status := stagnant;
         detection_confidence := 85 # 100;
         detection_reason :=
           "No improvement in quality or issue count for multiple iterations" |}
    else if qt_regressing qualityTrend || it_increasing issueTrend then
      {| detection_status := regressing;
         detection_confidence := 8 # 10;
         detection_reason :=
           "Quality decreasing or new issues being introduced" |}
    else
      let overallTrend := calculateOverallTrend recentHistory in
      if Qgtb overallTrend (5 # 100) then
        {| detection_status := improving;
           detection_confidence := 6 # 10;
           detection_reason := "Slow but steady improvement" |}
      else if Qle_bool (Qabs overallTrend) (5 # 100) then
        {| detection_status := stagnant;
           detection_confidence := 7 # 10;
           detection_reason := "Minimal change in recent iterations" |}
      else
        {| detection_status := regressing;
           detection_confidence := 7 # 10;
           detection_reason := "Overall negative trend" |}.


End ConvergenceDetector.

(* ================================================================= *)
(** ** convergence-detector.ts: IterationLimiter *)

Record StartCheck : Set := mkStartCheck {
  allowed : bool;
  reason : option string
}.

Record Suspicion : Set := mkSuspicion {
  suspicious : bool;
  warnings : list string
}.

Module IterationLimiter.

Definition isTerminal (p : Phase) : bool :=
  Phase_beq p complete || Phase_beq p failed.

Definition canStartIteration (config : MakerCheckerConfig) (state : IterationState)
    : StartCheck :=
  (* Check max iterations *)
  if (currentIteration state >=? maxIterations state)%Z then
    {| allowed := false;
       reason := Some ("Maximum iterations reached ("
                         ++ showZ (maxIterations state) ++ ")")%string |}
  (* Check if already in terminal state *)
  else if isTerminal (currentPhase state) then
    {| allowed := false;
       reason := Some ("PR already in terminal state: "
                         ++ phaseName (currentPhase state))%string |}
  (* Check cost limit *)
  else if Qgeb (totalCost state) (maxCostPerPR config) then
    {| allowed := false;
       reason := Some ("Cost limit exceeded: $" ++ toFixed (totalCost state) 2
                         ++ " / $" ++ toFixed (maxCostPerPR config) 2)%string |}
  else {| allowed := true; reason := None |}.

Definition getIterationsRemaining (state : IterationState) : Z :=
  Z.max 0 (maxIterations state - currentIteration state).

Definition getProgressPercentage (state : IterationState) : Q :=
  (inject_Z (currentIteration state) / inject_Z (maxIterations state)) * 100.



(** The loop [for (let i = 1; i < recentQuality.length - 1; i++)]:
    [curr] is a peak or a valley between [prev] and [next]. *)
Fixpoint countOscillations (recentQuality : list Q) : nat :=
  match recentQuality with
  | prev :: ((curr :: next :: _) as rest) =>
      ((if (Qgtb curr prev && Qgtb curr next)
           || (Qltb curr prev && Qltb curr next)
        then 1 else 0)
       + countOscillations rest)%nat
  | _ => O
  end.

(** [detectSuspiciousPatterns]; [getTime] stands for
    [new Date(timestamp).getTime()], in milliseconds. *)
Definition detectSuspiciousPatterns
    (getTime : string -> Q) (state : IterationState) : Suspicion :=
  let warnings : list string := [] in
  (* Check for same issues repeating *)
  let warnings :=
    if (3 <=? List.length (history state))%nat then
      let recentIssues :=
        map record_issuesFound (slice_from (-3) (history state)) in
      let allSame :=
        forallb (fun count => (count =? nth 0 recentIssues 0)%Z) recentIssues in
      MergeDecider.pushIf (allSame && (nth 0 recentIssues 0 >? 0)%Z) warnings
        "Same number of issues for 3+ iterations - possible stagnation"
    else warnings in
  (* Check for quality oscillation *)
  let warnings :=
    if (4 <=? List.length (history state))%nat then
      let recentQuality :=
        map ConvergenceDetector.qualityOf (slice_from (-4) (history state)) in
      let oscillations := countOscillations recentQuality in
      MergeDecider.pushIf (2 <=? oscillations)%nat warnings
        "Quality score oscillating - fixes may be introducing new issues"
    else warnings in
  (* Check for rapid iterations *)
  let warnings :=
    if (5 <=? List.length (history state))%nat then
      let recentTimestamps :=
        map (fun h => getTime (timestamp h)) (slice_from (-5) (history state)) in
      let intervals :=
        match recentTimestamps with
        | [] => []
        | t0 :: rest => ConvergenceDetector.deltas t0 rest
        end in
      let avgInterval :=
        ConvergenceDetector.sum intervals / Qn (List.length intervals) in
      MergeDecider.pushIf (Qltb avgInterval 30000) warnings
        "Iterations happening very rapidly - check for automation issues"
    else warnings in
  {| suspicious := (0 <? List.length warnings)%nat; warnings := warnings |}.

End IterationLimiter.

(* ================================================================= *)
(** ** convergence-detector.ts: QualityGates *)

Record GateCheck : Set := mkGateCheck {
  passed : bool;
  failedGates : list string;
  gate_warnings : list string
}.

Inductive Effort : Set := effort_low | effort_medium | effort_high.

Record EffortEstimate : Set := mkEffortEstimate {
  effort : Effort;
  effort_description : string
}.

Module QualityGates.

Definition isCriticalOrHigh (issue : SecurityIssue) : bool :=
  SecuritySeverity_beq (sec_severity issue) sec_critical
  || SecuritySeverity_beq (sec_severity issue) sec_high.

Definition isError (issue : Issue) : bool :=
  Severity_beq (issue_severity issue) sev_error.

Definition isWarning (issue : Issue) : bool :=
  Severity_beq (issue_severity issue) sev_warning.

Definition checkGates
    (config : MakerCheckerConfig) (review : CodexReviewResult)
    (metrics : QualityMetrics) (ciStatus : CIStatus) : GateCheck :=
  let failedGates : list string := [] in
  let warnings : list string := [] in
  (* Gate 1: Overall quality threshold *)
  let failedGates :=
    MergeDecider.pushIf (Qltb (overallScore metrics) (qualityThreshold config))
      failedGates
      ("Overall quality " ++ pct (overallScore metrics) ++ "% below threshold "
         ++ pct (qualityThreshold config) ++ "%")%string in
  (* Gate 2: Security - no critical security issues *)
  let criticalSecurity := filter isCriticalOrHigh (securityIssues review) in
  let failedGates :=
    MergeDecider.pushIf (0 <? List.length criticalSecurity)%nat failedGates
      (showZ (Z.of_nat (List.length criticalSecurity))
         ++ " critical/high security issue(s) found")%string in
  (* Gate 3: Security score minimum *)
  let failedGates :=
    MergeDecider.pushIf (Qltb (metric_security metrics) (7 # 10)) failedGates
      ("Security score " ++ pct (metric_security metrics)
         ++ "% below minimum 70%")%string in
  (* Gate 4: No error-level issues *)
  let errorIssues := filter isError (issuesFound review) in
  let failedGates :=
    MergeDecider.pushIf (0 <? List.length errorIssues)%nat failedGates
      (showZ (Z.of_nat (List.length errorIssues))
         ++ " error-level issue(s) must be fixed")%string in
  (* Gate 5: CI must pass *)
  let failedGates :=
    MergeDecider.pushIf (negb (CIStatus_beq ciStatus ci_success)) failedGates
      ("CI status is '" ++ ciName ciStatus ++ "', must be 'success'")%string in
  (* Warnings (not blocking) *)
  let warnings :=
    MergeDecider.pushIf (Qltb (metric_performance metrics) (7 # 10)) warnings
      ("Performance score " ++ pct (metric_performance metrics)
         ++ "% is below recommended 70%")%string in
  let warnings :=
    MergeDecider.pushIf (Qltb (typeSafety metrics) (8 # 10)) warnings
      ("Type safety " ++ pct (typeSafety metrics)
         ++ "% is below recommended 80%")%string in
  let warnings :=
    MergeDecider.pushIf (Qltb (codeQuality metrics) (75 # 100)) warnings
      ("Code quality " ++ pct (codeQuality metrics)
         ++ "% is below recommended 75%")%string in
  let warningIssues := filter isWarning (issuesFound review) in
  let warnings :=
    MergeDecider.pushIf (10 <? List.length warningIssues)%nat warnings
      (showZ (Z.of_nat (List.length warningIssues))
         ++ " warning-level issues found (recommended to address)")%string in
  {| passed := (List.length failedGates =? 0)%nat;
     failedGates := failedGates;
     gate_warnings := warnings |}.

Definition isAutoMergeSafe
    (config : MakerCheckerConfig) (review : CodexReviewResult)
    (metrics : QualityMetrics) (ciStatus : CIStatus) : bool :=
  let autoMergeThreshold := autoMergeThreshold config in
  Qgeb (overallScore metrics) autoMergeThreshold
  && Qgeb (metric_security metrics) (9 # 10)
  && (List.length (securityIssues review) =? 0)%nat
  && (List.length (filter isError (issuesFound review)) =? 0)%nat
  && CIStatus_beq ciStatus ci_success.

Definition estimateEffortToPass
    (config : MakerCheckerConfig) (metrics : QualityMetrics)
    (review : CodexReviewResult) : EffortEstimate :=
  let overallGap := qualityThreshold config - overallScore metrics in
  let errorCount := List.length (filter isError (issuesFound review)) in
  let securityCount := List.length (securityIssues review) in
  (* High effort scenarios *)
  if Qgtb overallGap (2 # 10) || (10 <? errorCount)%nat || (3 <? securityCount)%nat
  then {| effort := effort_high;
          effort_description :=
            "Significant work needed - many issues or large quality gap" |}
  (* Medium effort scenarios *)
  else if Qgtb overallGap (1 # 10) || (5 <? errorCount)%nat
          || (1 <? securityCount)%nat
  then {| effort := effort_medium;
          effort_description :=
            "Moderate work needed - several issues to address" |}
  (* Low effort scenarios *)
  else {| effort := effort_low;
          effort_description :=
            "Minor fixes needed - close to passing all gates" |}.

End QualityGates.

(* ================================================================= *)
(** ** security-checker.ts *)

Record SecurityCheck : Set := mkSecurityCheck {
  hasCriticalIssues : bool;
  hasHighIssues : bool;
  criticalIssues : list SecurityIssue;
  highIssues : list SecurityIssue;
  allSecurityIssues : list SecurityIssue;
  blockingCount : nat
}.

Module SecurityChecker.

Definition checkSecurity (review : CodexReviewResult) : SecurityCheck :=
  let criticalIssues :=
    filter (fun i => SecuritySeverity_beq (sec_severity i) sec_critical)
      (securityIssues review) in
  let highIssues :=
    filter (fun i => SecuritySeverity_beq (sec_severity i) sec_high)
      (securityIssues review) in
  {| hasCriticalIssues := (0 <? List.length criticalIssues)%nat;
     hasHighIssues := (0 <? List.length highIssues)%nat;
     criticalIssues := criticalIssues;
     highIssues := highIssues;
     allSecurityIssues := securityIssues review;
     blockingCount := (List.length criticalIssues + List.length highIssues)%nat |}.

Definition shouldBlockMerge (review : CodexReviewResult) : bool :=
  let check := checkSecurity review in
  hasCriticalIssues check || hasHighIssues check.

(** [s.toLowerCase()] on the letters A-Z; the patterns searched for
    below are lower-case ASCII. *)
Definition lowerChar (c : ascii) : ascii :=
  let n := nat_of_ascii c in
  if ((65 <=? n) && (n <=? 90))%nat then ascii_of_nat (n + 32) else c.

Fixpoint toLowerCase (s : string) : string :=
  match s with
  | EmptyString => EmptyString
  | String c rest => String (lowerChar c) (toLowerCase rest)
  end.

(** [s.includes(pattern)]. *)
Fixpoint includes (s pattern : string) : bool :=
  String.prefix pattern s
  || match s with
     | EmptyString => false
     | String _ rest => includes rest pattern
     end.

(** [Object.entries(categoryPatterns)], in the order of the literal. *)
Definition categoryPatterns : list (string * list string) :=
  [ ("Authentication & Authorization"%string,
     ["auth"; "permission"; "access control"; "jwt"; "token"]%string);
    ("Input Validation"%string,
     ["injection"; "xss"; "input"; "sanitize"; "validate"]%string);
    ("Data Protection"%string,
     ["encrypt"; "password"; "secret"; "credential"; "api key"]%string);
    ("Configuration"%string,
     ["hardcoded"; "config"; "environment"; "cors"; "csrf"]%string);
    ("Dependencies"%string,
     ["dependency"; "package"; "vulnerability"; "outdated"]%string) ].

Definition matchesPattern (issue : SecurityIssue) (patterns : list string) : bool :=
  existsb (fun pattern =>
             includes (toLowerCase (sec_type issue)) pattern
             || includes (toLowerCase (sec_description issue)) pattern)
          patterns.

(** The first category one of whose patterns matches, else ['Other']. *)
Definition categoryOf (issue : SecurityIssue) : string :=
  match find (fun entry => matchesPattern issue (snd entry)) categoryPatterns with
  | Some entry => fst entry
  | None => "Other"%string
  end.

(** [categories.get(category).push(issue)] on a [Map], which keeps its
    keys in insertion order; a missing key is first set to [[]]. *)
Fixpoint pushTo (category : string) (issue : SecurityIssue)
    (categories : list (string * list SecurityIssue))
    : list (string * list SecurityIssue) :=
  match categories with
  | [] => [(category, [issue])]
  | (key, issues) :: rest =>
      if String.eqb key category
      then (key, issues ++ [issue]) :: rest
      else (key, issues) :: pushTo category issue rest
  end.

(** The [categories] map built by [categorizeSecurityIssues]. *)
Definition categorize (issues : list SecurityIssue)
    : list (string * list SecurityIssue) :=
  fold_left (fun categories issue => pushTo (categoryOf issue) issue categories)
    issues [].

(** The [summary] of [categorizeSecurityIssues]. *)
Definition categorySummary (categories : list (string * list SecurityIssue))
    : string :=
  join ", "
    (map (fun entry =>
            (fst entry ++ ": " ++ showZ (Z.of_nat (List.length (snd entry))))%string)
         categories).

Definition categorizeSecurityIssues (issues : list SecurityIssue)
    : list (string * list SecurityIssue) * string :=
  let categories := categorize issues in
  (categories, categorySummary categories).

End SecurityChecker.

(* ================================================================= *)
(** ** Files *)

(** The JSON files of one directory, by file name. The content [Some x]
    is the JSON text of [x]; [None] is a content that [JSON.parse]
    rejects. *)
Definition Directory (A : Type) : Type := list (string * option A).

(** [fs.existsSync] and [fs.readFileSync]: [None] when there is no such
    file. *)
Fixpoint readFile {A : Type} (name : string) (dir : Directory A)
    : option (option A) :=
  match dir with
  | [] => None
  | (file, content) :: rest =>
      if String.eqb file name then Some content else readFile name rest
  end.

(** [fs.writeFileSync]: replaces the file or creates it. *)
Fixpoint writeFile {A : Type} (name : string) (content : option A)
    (dir : Directory A) : Directory A :=
  match dir with
  | [] => [(name, content)]
  | (file, old) :: rest =>
      if String.eqb file name then (file, content) :: rest
      else (file, old) :: writeFile name content rest
  end.

(** [fs.unlinkSync]. *)
Fixpoint unlink {A : Type} (name : string) (dir : Directory A) : Directory A :=
  match dir with
  | [] => []
  | (file, content) :: rest =>
      if String.eqb file name then unlink name rest
      else (file, content) :: unlink name rest
  end.

(** [s.endsWith(suffix)]. *)
Fixpoint endsWith (s suffix : string) : bool :=
  String.eqb s suffix
  || match s with
     | EmptyString => false
     | String _ rest => endsWith rest suffix
     end.

(** [/[a-zA-Z0-9-]/]. *)
Definition isSafeChar (c : ascii) : bool :=
  let n := nat_of_ascii c in
  (((97 <=? n) && (n <=? 122)) || ((65 <=? n) && (n <=? 90))
   || ((48 <=? n) && (n <=? 57)) || (n =? 45))%nat.

(** [repository.replace(/[^a-zA-Z0-9-]/g, '_')]. *)
Fixpoint safeRepo (repository : string) : string :=
  match repository with
  | EmptyString => EmptyString
  | String c rest =>
      String (if isSafeChar c then c else "_"%char) (safeRepo rest)
  end.

(* ================================================================= *)
(** ** state-manager.ts *)

(** [phase !== 'complete' && phase !== 'failed']. *)
Definition isActivePhase (phase : Phase) : bool :=
  negb (Phase_beq phase complete) && negb (Phase_beq phase failed).


Module StateManager.

(** [saveState] stamps [updatedAt] and writes the JSON file; the file
    itself is outside the model. *)
Definition saveState (state : IterationState) (now : string) : IterationState :=
  {| prNumber := prNumber state;
     repository := repository state;
     currentIteration := currentIteration state;
     maxIterations := maxIterations state;
     history := history state;
     currentPhase := currentPhase state;
     qualityScore := qualityScore state;
     convergenceStatus := convergenceStatus state;
     totalCost := totalCost state;
     createdAt := createdAt state;
     updatedAt := now |}.

Definition initializeState
    (prNumber : Z) (repository : string) (config : MakerCheckerConfig)
    (now : string) : IterationState :=
  let state :=
    {| prNumber := prNumber;
       repository := repository;
       currentIteration := 0;
       maxIterations := cfg_maxIterations config;
       history := [];
       currentPhase := waiting;
       qualityScore := 0;
       convergenceStatus := conv_improving;
       totalCost := 0;
       createdAt := now;
       updatedAt := now |} in
  saveState state now.

(** Assignment to [state.currentPhase]. *)
Definition setPhase (state : IterationState) (phase : Phase) : IterationState :=
  {| prNumber := prNumber state;
     repository := repository state;
     currentIteration := currentIteration state;
     maxIterations := maxIterations state;
     history := history state;
     currentPhase := phase;
     qualityScore := qualityScore state;
     convergenceStatus := convergenceStatus state;
     totalCost := totalCost state;
     createdAt := createdAt state;
     updatedAt := updatedAt state |}.

(** Assignment to [state.qualityScore]. *)
Definition setQualityScore (state : IterationState) (score : Q) : IterationState :=
  {| prNumber := prNumber state;
     repository := repository state;
     currentIteration := currentIteration state;
     maxIterations := maxIterations state;
     history := history state;
     currentPhase := currentPhase state;
     qualityScore := score;
     convergenceStatus := convergenceStatus state;
     totalCost := totalCost state;
     createdAt := createdAt state;
     updatedAt := updatedAt state |}.

Definition updatePhase (state : IterationState) (phase : Phase) (now : string)
    : IterationState :=
  saveState (setPhase state phase) now.

Definition startIteration (state : IterationState) (now : string)
    : IterationState :=
  let state :=
    {| prNumber := prNumber state;
       repository := repository state;
       currentIteration := (currentIteration state + 1)%Z;
       maxIterations := maxIterations state;
       history := history state;
       currentPhase := codex_review;
       qualityScore := qualityScore state;
       convergenceStatus := convergenceStatus state;
       totalCost := totalCost state;
       createdAt := createdAt state;
       updatedAt := updatedAt state |} in
  saveState state now.

Definition recordIteration
    (state : IterationState) (record : RecordInput) (now : string)
    : IterationState :=
  let fullRecord :=
    {| iteration := in_iteration record;
       codexReview := in_codexReview record;
       claudeResponse := in_claudeResponse record;
       record_issuesFound := in_issuesFound record;
       issuesFixed := in_issuesFixed record;
       qualityDelta := in_qualityDelta record;
       cost := in_cost record;
       timestamp := now;
       durationSeconds := 0 |} in
  let state :=
    {| prNumber := prNumber state;
       repository := repository state;
       currentIteration := currentIteration state;
       maxIterations := maxIterations state;
       history := history state ++ [fullRecord];
       currentPhase := currentPhase state;
       qualityScore :=
         orElse (option_map overallQuality (in_codexReview record))
                (qualityScore state);
       convergenceStatus := convergenceStatus state;
       totalCost := totalCost state + in_cost record;
       createdAt := createdAt state;
       updatedAt := updatedAt state |} in
  saveState state now.

Definition updateConvergence
    (state : IterationState) (status : ConvergenceStatus) (now : string)
    : IterationState :=
  let state :=
    {| prNumber := prNumber state;
       repository := repository state;
       currentIteration := currentIteration state;
       maxIterations := maxIterations state;
       history := history state;
       currentPhase := currentPhase state;
       qualityScore := qualityScore state;
       convergenceStatus := status;
       totalCost := totalCost state;
       createdAt := createdAt state;
       updatedAt := updatedAt state |} in
  saveState state now.

Definition complete (state : IterationState) (success : bool) (now : string)
    : IterationState :=
  saveState (setPhase state (if success then complete else failed)) now.

Definition hasReachedMaxIterations (state : IterationState) : bool :=
  (currentIteration state >=? maxIterations state)%Z.


(** The name of the state file inside the state directory. *)
Definition getStateFileName (prNumber : Z) (repository : string) : string :=
  (safeRepo repository ++ "_pr_" ++ showZ prNumber ++ ".json")%string.

(** [getState] on the state directory [dir]. *)
Definition getState (dir : Directory IterationState)
    (prNumber : Z) (repository : string) : option IterationState :=
  match readFile (getStateFileName prNumber repository) dir with
  | None => None
  | Some None => None
  | Some (Some state) => Some state
  end.

(** [saveState] with the file it writes: the stamped state and the new
    directory. *)
Definition saveStateFile (dir : Directory IterationState)
    (state : IterationState) (now : string)
    : Directory IterationState * IterationState :=
  let state := saveState state now in
  (writeFile (getStateFileName (prNumber state) (repository state))
     (Some state) dir,
   state).

Definition deleteState (dir : Directory IterationState)
    (prNumber : Z) (repository : string) : Directory IterationState :=
  match readFile (getStateFileName prNumber repository) dir with
  | Some _ => unlink (getStateFileName prNumber repository) dir
  | None => dir
  end.

Fixpoint listActiveStates (dir : Directory IterationState) : list IterationState :=
  match dir with
  | [] => []
  | (file, content) :: rest =>
      if endsWith file ".json" then
        match content with
        | Some state =>
            if isActivePhase (currentPhase state)
            then state :: listActiveStates rest
            else listActiveStates rest
        | None => listActiveStates rest
        end
      else listActiveStates rest
  end.

End StateManager.

(* ================================================================= *)
(** ** cost-tracker.ts *)

Record CostTracking : Set := mkCostTracking {
  ct_prNumber : Z;
  ct_repository : string;
  ct_totalCost : Q;
  claudeCost : Q;
  codexCost : Q;
  ct_iterations : Z;
  ct_timestamp : string
}.

(** The cost directory: the per-PR files and the monthly logs, one list
    of lines per month key; a line that does not parse is [None]. *)
Record CostFiles : Type := mkCostFiles {
  prFiles : Directory CostTracking;
  monthlyLogs : list (string * list (option CostTracking))
}.

Record MonthlyLimit : Set := mkMonthlyLimit {
  exceeded : bool;
  limit_warning : bool;
  limit_totalCost : Q;
  limit : Q;
  percentage : Q
}.

Module CostTracker.

Section WithCalendar.

(** The key [YYYY-MM] of the local month of a timestamp. *)
Variable monthKey : string -> string.

Definition getPRTrackingPath (prNumber : Z) (repository : string) : string :=
  ("pr_" ++ safeRepo repository ++ "_" ++ showZ prNumber ++ ".json")%string.

Definition getPRTracking (files : CostFiles) (prNumber : Z) (repository : string)
    : option CostTracking :=
  match readFile (getPRTrackingPath prNumber repository) (prFiles files) with
  | None => None
  | Some None => None
  | Some (Some tracking) => Some tracking
  end.

(** [fs.appendFileSync(logFile, line)]. *)
Fixpoint appendLine (logFile : string) (line : option CostTracking)
    (logs : list (string * list (option CostTracking)))
    : list (string * list (option CostTracking)) :=
  match logs with
  | [] => [(logFile, [line])]
  | (file, lines) :: rest =>
      if String.eqb file logFile then (file, lines ++ [line]) :: rest
      else (file, lines) :: appendLine logFile line rest
  end.

Definition appendToDailyLog (files : CostFiles) (tracking : CostTracking)
    : CostFiles :=
  {| prFiles := prFiles files;
     monthlyLogs :=
       appendLine (monthKey (ct_timestamp tracking)) (Some tracking)
         (monthlyLogs files) |}.

Definition updatePRTracking (files : CostFiles) (tracking : CostTracking)
    : CostFiles :=
  let filePath :=
    getPRTrackingPath (ct_prNumber tracking) (ct_repository tracking) in
  let existing :=
    match readFile filePath (prFiles files) with
    | Some (Some e) => Some e
    | _ => None
    end in
  let written :=
    match existing with
    | Some existing =>
        {| ct_prNumber := ct_prNumber existing;
           ct_repository := ct_repository existing;
           ct_totalCost := ct_totalCost existing + ct_totalCost tracking;
           claudeCost := claudeCost existing + claudeCost tracking;
           codexCost := codexCost existing + codexCost tracking;
           ct_iterations := (ct_iterations existing + 1)%Z;
           ct_timestamp := ct_timestamp tracking |}
    | None => tracking
    end in
  {| prFiles := writeFile filePath (Some written) (prFiles files);
     monthlyLogs := monthlyLogs files |}.

Definition recordCost (files : CostFiles) (prNumber : Z) (repository : string)
    (claudeCost codexCost : Q) (now : string) : CostFiles :=
  let tracking :=
    {| ct_prNumber := prNumber;
       ct_repository := repository;
       ct_totalCost := claudeCost + codexCost;
       claudeCost := claudeCost;
       codexCost := codexCost;
       ct_iterations := 1;
       ct_timestamp := now |} in
  let files := appendToDailyLog files tracking in
  updatePRTracking files tracking.

Definition hasExceededPRLimit (config : MakerCheckerConfig) (files : CostFiles)
    (prNumber : Z) (repository : string) : bool :=
  match getPRTracking files prNumber repository with
  | None => false
  | Some tracking => Qgeb (ct_totalCost tracking) (maxCostPerPR config)
  end.

Definition getPRCost (files : CostFiles) (prNumber : Z) (repository : string) : Q :=
  orElse (option_map ct_totalCost (getPRTracking files prNumber repository)) 0.

Fixpoint readLog (logFile : string)
    (logs : list (string * list (option CostTracking)))
    : option (list (option CostTracking)) :=
  match logs with
  | [] => None
  | (file, lines) :: rest =>
      if String.eqb file logFile then Some lines else readLog logFile rest
  end.

(** The loop over the lines of the log; a line that does not parse is
    skipped. *)
Definition addLine (total : Q) (line : option CostTracking) : Q :=
  match line with
  | Some tracking => total + ct_totalCost tracking
  | None => total
  end.

Definition getMonthlyCost (files : CostFiles) (now : string) : Q :=
  match readLog (monthKey now) (monthlyLogs files) with
  | None => 0
  | Some lines => fold_left addLine lines 0
  end.

Definition checkMonthlyLimit (config : MakerCheckerConfig) (files : CostFiles)
    (now : string) : MonthlyLimit :=
  let monthlyCost := getMonthlyCost files now in
  let percentage := (monthlyCost / monthlyCostCap config) * 100 in
  {| exceeded := Qgeb monthlyCost (monthlyCostCap config);
     limit_warning := Qgeb percentage 75;
     limit_totalCost := monthlyCost;
     limit := monthlyCostCap config;
     percentage := percentage |}.

End WithCalendar.

End CostTracker.

(* ================================================================= *)
(** ** index.ts: the orchestrator loop *)

Inductive CommentKind : Set :=
  | StatusComment        (* postStatusComment / updateStatusComment *)
  | ReviewComment        (* postCodexReview *)
  | DecisionComment      (* postMergeDecision *)
  | AutoMergedComment    (* autoMerge *)
  | ClaudeComment        (* postClaudeResponse *)
  | StagnationComment
  | CostLimitComment
  | MaxIterationsComment.

Inductive Label : Set := ReadyLabel | AttentionLabel.

(** What the loop asks of the outside world, in order. *)
Inductive Event : Set :=
  | CommentPosted (iter : Z) (kind : CommentKind)
  | CodexReviewCalled (iter : Z)
  | CIStatusQueried (iter : Z)
  | ClaudeFixCalled (iter : Z) (previousAttempts : Z)
  | LabelAdded (label : Label)
  | PRMerged
  | ContextRefreshed (iter : Z).

(** The collaborators. Their answers depend on the outside world; each
    is given as a function of the iteration in which it is called. *)
Record Collaborators : Type := mkCollaborators {
  reviewCode : Z -> CodexReviewResult;
  respondToFeedback : Z -> list Issue -> Z -> ClaudeResponseResult;
  getCIStatus : Z -> CIStatus;
  clock : Z -> string
}.

(** How one pass through the body of the [while] loop ends. *)
Inductive Outcome : Type :=
  | Break (state : IterationState) (events : list Event)
  | Continue (state : IterationState) (events : list Event).

Module MakerCheckerOrchestrator.

Definition getDefaultConfig : MakerCheckerConfig :=
  {| cfg_maxIterations := 5;
     qualityThreshold := 85 # 100;
     autoMergeThreshold := 9 # 10;
     autoMergeEnabled := false;
     maxCostPerPR := 5;
     monthlyCostCap := 100;
     requireHumanApprovalIf :=
       {| qualityScoreBelow := 85 # 100;
          securityIssuesFound := true;
          iterationsExceeded := true;
          costExceeded := true;
          tests_failing := true |} |}.

Section Loop.

Variable config : MakerCheckerConfig.
Variable env : Collaborators.

(** The body of [while (state.currentIteration < state.maxIterations)]. *)
Definition iterationBody (state : IterationState) : Outcome :=
  let now := clock env (currentIteration state + 1) in
  (* Start new iteration *)
  let state := StateManager.startIteration state now in
  let k := currentIteration state in
  let events := [CommentPosted k StatusComment] in
  (* Step 1: Codex reviews the code *)
  let codexReview := reviewCode env k in
  let events := events ++ [CodexReviewCalled k] in
  match review_status codexReview with
  | status_error =>
      let state := StateManager.setPhase state failed in
      Break (StateManager.saveState state now) events
  | status_success =>
      (* Calculate quality *)
      let qualityScore := QualityAnalyzer.calculateQualityScore codexReview in
      (* Update state *)
      let state := StateManager.setQualityScore state qualityScore in
      (* Post Codex review *)
      let events := events ++ [CommentPosted k ReviewComment] in
      (* Check if quality threshold met *)
      if QualityAnalyzer.meetsThreshold qualityScore (qualityThreshold config)
      then
        let ciStatus := getCIStatus env k in
        let events := events ++ [CIStatusQueried k] in
        let decision :=
          MergeDecider.shouldMerge config state codexReview ciStatus in
        let state :=
          StateManager.recordIteration state
            {| in_iteration := currentIteration state;
               in_codexReview := Some codexReview;
               in_claudeResponse := None;
               in_issuesFound := Z.of_nat (List.length (issuesFound codexReview));
               in_issuesFixed := 0;
               in_qualityDelta := 0;
               in_cost := review_cost codexReview |} now in
        let events := events ++ [CommentPosted k DecisionComment] in
        let events :=
          if decision_shouldMerge decision then
            if negb (decision_requiresHumanApproval decision)
               && autoMergeEnabled config
            then events ++ [PRMerged; CommentPosted k AutoMergedComment]
            else events ++ [LabelAdded ReadyLabel]
          else events in
        Break (StateManager.complete state true now) events
      else if (List.length (issuesFound codexReview) =? 0)%nat then
        Break (StateManager.complete state true now) events
      else
        (* Step 2: Claude fixes the issues *)
        let state := StateManager.updatePhase state claude_response now in
        let events := events ++ [CommentPosted k StatusComment] in
        let claudeResponse :=
          respondToFeedback env k (issuesFound codexReview)
            (currentIteration state - 1) in
        let events :=
          events ++ [ClaudeFixCalled k (currentIteration state - 1)] in
        match response_status claudeResponse with
        | status_error =>
            let state := StateManager.setPhase state failed in
            Break (StateManager.saveState state now) events
        | status_success =>
            let events := events ++ [CommentPosted k ClaudeComment] in
            let state :=
              StateManager.recordIteration state
                {| in_iteration := currentIteration state;
                   in_codexReview := Some codexReview;
                   in_claudeResponse := Some claudeResponse;
                   in_issuesFound :=
                     Z.of_nat (List.length (issuesFound codexReview));
                   in_issuesFixed := issuesAddressed claudeResponse;
                   in_qualityDelta := 0;
                   in_cost :=
                     review_cost codexReview + response_cost claudeResponse |}
                now in
            (* Update convergence status; a history record has no
               [qualityScore] property, so each one reads [undefined] *)
            let isImproving :=
              QualityAnalyzer.isImproving
                (map (fun _ : IterationRecord => @None Q) (history state)) in
            let state :=
              StateManager.updateConvergence state
                (if isImproving then conv_improving else conv_stagnant) now in
            (* Check for stagnation *)
            if negb isImproving && (currentIteration state >=? 3)%Z then
              Break state (events ++ [CommentPosted k StagnationComment])
            (* Cost check *)
            else if Qgeb (totalCost state) (maxCostPerPR config) then
              Break state (events ++ [CommentPosted k CostLimitComment])
            else
              Continue state (events ++ [ContextRefreshed k])
        end
  end.

(** The code after the loop. *)
Definition finalState (state : IterationState) (trace : list Event)
    : IterationState * list Event :=
  if (currentIteration state >=? maxIterations state)%Z then
    (state,
     trace ++ [CommentPosted (currentIteration state) MaxIterationsComment;
               LabelAdded AttentionLabel])
  else (state, trace).

(** [runIterations]; [None] when [fuel] passes are not enough to
    leave the loop. *)
Fixpoint runIterations (fuel : nat) (state : IterationState)
    (trace : list Event) : option (IterationState * list Event) :=
  if (currentIteration state <? maxIterations state)%Z then
    match fuel with
    | O => None
    | S fuel' =>
        match iterationBody state with
        | Break state' events => Some (finalState state' (trace ++ events))
        | Continue state' events =>
            runIterations fuel' state' (trace ++ events)
        end
    end
  else Some (finalState state trace).

(** The loop with as many passes as iterations remain. *)
Definition run (state : IterationState) : option (IterationState * list Event) :=
  runIterations
    (Z.to_nat (maxIterations state - currentIteration state)) state [].

End Loop.

End MakerCheckerOrchestrator.

(* ================================================================= *)
(** * Vocabulary of the statements and sample data *)

(** ** Scores and penalties *)

(** Number of elements of [l] that satisfy [p]. *)
Definition count {A : Type} (p : A -> bool) (l : list A) : nat :=
  List.length (filter p l).

Definition hasSeverity (s : Severity) (i : Issue) : bool :=
  Severity_beq (issue_severity i) s.

Definition hasSecSeverity (s : SecuritySeverity) (i : SecurityIssue) : bool :=
  SecuritySeverity_beq (sec_severity i) s.

Definition hasImpact (s : Impact) (i : PerformanceIssue) : bool :=
  Impact_beq (perf_impact i) s.

(** Clamp to the interval [0,1]. *)
Definition clamp01 (x : Q) : Q := Qmin 1 (Qmax 0 x).

(** Sum of the weights [w x] over [l]. *)
Fixpoint weighted {A : Type} (w : A -> Q) (l : list A) : Q :=
  match l with
  | [] => 0
  | x :: tl => w x + weighted w tl
  end.

(** The penalty as the specification words it: a fixed amount per issue
    of each kind. *)
Definition penaltyPerIssue (review : CodexReviewResult) : Q :=
  (10 # 100) * Qn (count (hasSeverity sev_error) (issuesFound review))
  + (5 # 100) * Qn (count (hasSeverity sev_warning) (issuesFound review))
  + (2 # 100) * Qn (count (hasSeverity sev_info) (issuesFound review))
  + (20 # 100) * Qn (count (hasSecSeverity sec_critical) (securityIssues review))
  + (15 # 100) * Qn (count (hasSecSeverity sec_high) (securityIssues review))
  + (10 # 100) * Qn (count (hasImpact impact_high) (performanceIssues review)).

(** The category score as the specification words it. *)
Definition categoryScorePerIssue (t : IssueType) (issues : list Issue) : Q :=
  let mine := filter (QualityAnalyzer.ofType t) issues in
  Qmax 0 (1 - ((15 # 100) * Qn (count (hasSeverity sev_error) mine)
               + (8 # 100) * Qn (count (hasSeverity sev_warning) mine)
               + (3 # 100) * Qn (count (hasSeverity sev_info) mine))).

Definition issueWeight (i : Issue) : Q :=
  match issue_severity i with
  | sev_error => 1 # 10
  | sev_warning => 5 # 100
  | sev_info => 2 # 100
  end.

Definition securityWeight (i : SecurityIssue) : Q :=
  match sec_severity i with
  | sec_critical => 2 # 10
  | sec_high => 15 # 100
  | _ => 0
  end.

Definition performanceWeight (i : PerformanceIssue) : Q :=
  match perf_impact i with
  | impact_high => 1 # 10
  | _ => 0
  end.

Definition categoryWeight (i : Issue) : Q :=
  match issue_severity i with
  | sev_error => 15 # 100
  | sev_warning => 8 # 100
  | sev_info => 3 # 100
  end.

(** The category score of a [QualityMetrics] by issue type. *)
Definition metricOf (m : QualityMetrics) (t : IssueType) : Q :=
  match t with
  | security => metric_security m
  | performance => metric_performance m
  | type_safety => typeSafety m
  | code_quality => codeQuality m
  | best_practice => bestPractices m
  end.

(** ** Sample reviews, states and configurations *)

Definition sampleIssue (t : IssueType) (s : Severity) : Issue :=
  {| issue_type := t; issue_severity := s; issue_file := "src/app.ts";
     issue_line := 10; issue_message := "finding" |}.

Definition sampleSecurityIssue (s : SecuritySeverity) : SecurityIssue :=
  {| sec_type := "injection"; sec_severity := s; sec_description := "finding";
     sec_file := "src/app.ts"; sec_line := 10; sec_recommendation := "fix" |}.

Definition sampleReview (st : Status) (issues : list Issue) (q : Q)
    (secs : list SecurityIssue) : CodexReviewResult :=
  {| review_status := st; issuesFound := issues; overallQuality := q;
     recommendations := []; securityIssues := secs; performanceIssues := [];
     rawResponse := ""; review_cost := 1 # 10; review_timestamp := "t" |}.

Definition sampleState (iter : Z) (score cost : Q) : IterationState :=
  {| prNumber := 42; repository := "acme/widgets";
     currentIteration := iter; maxIterations := 5; history := [];
     currentPhase := codex_review; qualityScore := score;
     convergenceStatus := conv_improving; totalCost := cost;
     createdAt := "t0"; updatedAt := "t1" |}.

(** The default configuration with auto-merge switched on. *)
Definition autoMergeConfig : MakerCheckerConfig :=
  {| cfg_maxIterations := 5;
     qualityThreshold := 85 # 100;
     autoMergeThreshold := 9 # 10;
     autoMergeEnabled := true;
     maxCostPerPR := 5;
     monthlyCostCap := 100;
     requireHumanApprovalIf :=
       requireHumanApprovalIf MakerCheckerOrchestrator.getDefaultConfig |}.

(** The default configuration with the cost rule of
    [requireHumanApprovalIf] switched off. *)
Definition noCostRuleConfig : MakerCheckerConfig :=
  {| cfg_maxIterations := 5;
     qualityThreshold := 85 # 100;
     autoMergeThreshold := 9 # 10;
     autoMergeEnabled := false;
     maxCostPerPR := 5;
     monthlyCostCap := 100;
     requireHumanApprovalIf :=
       {| qualityScoreBelow := 85 # 100;
          securityIssuesFound := true;
          iterationsExceeded := true;
          costExceeded := false;
          tests_failing := true |} |}.

(** ** Iteration limiter *)

(** The three grounds for refusing a new iteration, in the order the
    limiter checks them. *)
Inductive DenialCause : Set :=
  MaxIterationsReached | TerminalPhase | CostCapReached.

Definition terminal (p : Phase) : Prop := p = complete \/ p = failed.

Definition denialCause (config : MakerCheckerConfig) (state : IterationState)
    : option DenialCause :=
  if (currentIteration state >=? maxIterations state)%Z
  then Some MaxIterationsReached
  else if IterationLimiter.isTerminal (currentPhase state)
  then Some TerminalPhase
  else if Qgeb (totalCost state) (maxCostPerPR config)
  then Some CostCapReached
  else None.

(** ** State manager: operations and reachable states *)

(** The operations that change a state once it exists. *)
Inductive Operation : Set :=
  | OpStartIteration
  | OpRecordIteration (record : RecordInput)
  | OpUpdatePhase (phase : Phase)
  | OpUpdateConvergence (status : ConvergenceStatus)
  | OpComplete (success : bool).

Definition perform (op : Operation) (state : IterationState) (now : string)
    : IterationState :=
  match op with
  | OpStartIteration => StateManager.startIteration state now
  | OpRecordIteration record => StateManager.recordIteration state record now
  | OpUpdatePhase phase => StateManager.updatePhase state phase now
  | OpUpdateConvergence status => StateManager.updateConvergence state status now
  | OpComplete success => StateManager.complete state success now
  end.

(** States produced by [initializeState] followed by any operations. *)
Inductive reachable : IterationState -> Prop :=
  | reachable_init (pr : Z) (repo : string) (config : MakerCheckerConfig)
      (now : string) :
      reachable (StateManager.initializeState pr repo config now)
  | reachable_step (state : IterationState) (op : Operation) (now : string) :
      reachable state -> reachable (perform op state now).

(** The cost an operation records. *)
Definition recordedCost (op : Operation) : Q :=
  match op with
  | OpRecordIteration record => in_cost record
  | _ => 0
  end.

(** Sum of [history[i].cost], accumulated from the first record on. *)
Definition sumCosts (records : list IterationRecord) : Q :=
  fold_left (fun sum r => sum + cost r) records 0.

Definition sampleRecord (q c : Q) : RecordInput :=
  {| in_iteration := 1;
     in_codexReview := Some (sampleReview status_success [] q []);
     in_claudeResponse := None;
     in_issuesFound := 0; in_issuesFixed := 0; in_qualityDelta := 0;
     in_cost := c |}.

Definition sampleRun : IterationState :=
  perform (OpRecordIteration (sampleRecord (7 # 10) (3 # 10)))
    (perform OpStartIteration
       (StateManager.initializeState 42 "acme/widgets"
          MakerCheckerOrchestrator.getDefaultConfig "t0") "t1") "t2".

(** ** Convergence: steps of a sequence, projection *)

(** [R] holds between every element and its successor. *)
Fixpoint adjacentFrom {A : Type} (R : A -> A -> Prop) (prev : A) (rest : list A)
    : Prop :=
  match rest with
  | [] => True
  | cur :: tl => R prev cur /\ adjacentFrom R cur tl
  end.

Definition adjacent {A : Type} (R : A -> A -> Prop) (l : list A) : Prop :=
  match l with
  | [] => True
  | x :: tl => adjacentFrom R x tl
  end.


Definition sampleHistoryRecord (k : Z) (q : Q) (n : Z) : IterationRecord :=
  {| iteration := k;
     codexReview := Some (sampleReview status_success [] q []);
     claudeResponse := None;
     record_issuesFound := n; issuesFixed := 0; qualityDelta := 0;
     cost := 1 # 10; timestamp := "t"; durationSeconds := 0 |}.

(** A state after three recorded iterations with the given overall
    qualities and issue counts; [qualityScore] is the last quality. *)
Definition stateAfter (q1 q2 q3 : Q) (n1 n2 n3 : Z) (maxIter : Z)
    : IterationState :=
  {| prNumber := 42; repository := "acme/widgets";
     currentIteration := 3; maxIterations := maxIter;
     history := [sampleHistoryRecord 1 q1 n1; sampleHistoryRecord 2 q2 n2;
                 sampleHistoryRecord 3 q3 n3];
     currentPhase := claude_response; qualityScore := q3;
     convergenceStatus := conv_improving; totalCost := 3 # 10;
     createdAt := "t0"; updatedAt := "t3" |}.



(** ** Orchestrator: events of one iteration, a sample run *)

(** What an event of iteration [k] may be: the Checker is called for
    [k] only, and the Maker only for [k] and after a successful
    review. *)
Definition eventOfIteration (env : Collaborators) (k : Z) (e : Event) : Prop :=
  match e with
  | CodexReviewCalled j => j = k
  | ClaudeFixCalled j _ =>
      j = k /\ review_status (reviewCode env j) = status_success
  | _ => True
  end.

(** A run of two iterations: the first review finds issues below the
    threshold and the Maker answers; the second review fails. *)
Definition sampleEnv : Collaborators :=
  {| reviewCode := fun k =>
       if (k =? 2)%Z
       then sampleReview status_error [] 0 []
       else sampleReview status_success [sampleIssue code_quality sev_warning]
              (7 # 10) [];
     respondToFeedback := fun _ _ _ =>
       {| response_status := status_success; commitSha := "abc";
          filesModified := ["src/app.ts"%string]; issuesAddressed := 1;
          explanation := "fixed"; response_cost := 2 # 10;
          response_timestamp := "t" |};
     getCIStatus := fun _ => ci_success;
     clock := fun _ => "t"%string |}.

Definition sampleOutcome : IterationState * list Event :=
  match MakerCheckerOrchestrator.run MakerCheckerOrchestrator.getDefaultConfig
          sampleEnv
          (StateManager.initializeState 42 "acme/widgets"
             MakerCheckerOrchestrator.getDefaultConfig "t0") with
  | Some result => result
  | None => (sampleState 0 0 0, [])
  end.

(** ** Further vocabulary: findings, grades *)

(** A review with further findings appended to its three lists. *)
Definition addFindings (review : CodexReviewResult) (issues : list Issue)
    (secs : list SecurityIssue) (perfs : list PerformanceIssue)
    : CodexReviewResult :=
  {| review_status := review_status review;
     issuesFound := issuesFound review ++ issues;
     overallQuality := overallQuality review;
     recommendations := recommendations review;
     securityIssues := securityIssues review ++ secs;
     performanceIssues := performanceIssues review ++ perfs;
     rawResponse := rawResponse review;
     review_cost := review_cost review;
     review_timestamp := review_timestamp review |}.

(** The grades from worst to best. *)
Definition gradeRank (g : string) : nat :=
  if String.eqb g "A+" then 6
  else if String.eqb g "A" then 5
  else if String.eqb g "B+" then 4
  else if String.eqb g "B" then 3
  else if String.eqb g "C" then 2
  else if String.eqb g "D" then 1
  else 0.


(** The three warnings of [detectSuspiciousPatterns]. *)
Definition stagnationWarning : string :=
  "Same number of issues for 3+ iterations - possible stagnation".

Definition oscillationWarning : string :=
  "Quality score oscillating - fixes may be introducing new issues".

Definition rapidWarning : string :=
  "Iterations happening very rapidly - check for automation issues".

(** ** Further sample data *)

(** Three iterations with the same issue count and quality within 0.02. *)
Definition suspiciousSample : IterationState :=
  stateAfter (60 # 100) (62 # 100) (61 # 100) 8 8 8 5.

(** Metrics that pass every gate of the default configuration. *)
Definition passingMetrics : QualityMetrics :=
  {| overallScore := 9 # 10; codeQuality := 9 # 10; metric_security := 1;
     metric_performance := 9 # 10; typeSafety := 9 # 10;
     bestPractices := 9 # 10 |}.

(** A run in which the first review is clean and CI is green. *)
Definition mergingEnv : Collaborators :=
  {| reviewCode := fun _ => sampleReview status_success [] (95 # 100) [];
     respondToFeedback := respondToFeedback sampleEnv;
     getCIStatus := fun _ => ci_success;
     clock := fun _ => "t"%string |}.

Definition mergedOutcome : IterationState * list Event :=
  match MakerCheckerOrchestrator.run autoMergeConfig mergingEnv
          (StateManager.initializeState 42 "acme/widgets" autoMergeConfig "t0") with
  | Some result => result
  | None => (sampleState 0 0 0, [])
  end.

(** A run in which every review finds the same issue and the Maker
    always answers. *)
Definition stubbornEnv : Collaborators :=
  {| reviewCode := fun _ =>
       sampleReview status_success [sampleIssue code_quality sev_warning]
         (7 # 10) [];
     respondToFeedback := respondToFeedback sampleEnv;
     getCIStatus := fun _ => ci_success;
     clock := fun _ => "t"%string |}.

Definition stubbornOutcome : IterationState * list Event :=
  match MakerCheckerOrchestrator.run MakerCheckerOrchestrator.getDefaultConfig
          stubbornEnv
          (StateManager.initializeState 42 "acme/widgets"
             MakerCheckerOrchestrator.getDefaultConfig "t0") with
  | Some result => result
  | None => (sampleState 0 0 0, [])
  end.

(** The month of an ISO timestamp, read off its first seven characters. *)
Definition sampleMonthKey (timestamp : string) : string :=
  substring 0 7 timestamp.

(** A cost directory after one recorded cost of 80 in January. *)
Definition sampleCostFiles : CostFiles :=
  CostTracker.recordCost sampleMonthKey
    {| prFiles := []; monthlyLogs := [] |} 42 "acme/widgets" 50 30
    "2025-01-15T10:00:00.000Z".

(** The efforts from least to most. *)
Definition effortRank (e : Effort) : nat :=
  match e with
  | effort_low => 0
  | effort_medium => 1
  | effort_high => 2
  end.

(* ================================================================= *)
(** * Properties *)

(** ** Counting, sums and clamping *)

Lemma Qn_S (n : nat) : Qn (S n) == Qn n + 1.
Proof.
  unfold Qn. rewrite Nat2Z.inj_succ, <- Z.add_1_r, inject_Z_plus. reflexivity.
Qed.

Lemma Qn_nonneg (n : nat) : 0 <= Qn n.
Proof.
  unfold Qn. change 0 with (inject_Z 0). rewrite <- Zle_Qle. lia.
Qed.

Lemma fold_left_weighted {A : Type} (f : Q -> A -> Q) (w : A -> Q) :
  (forall acc x, f acc x == acc + w x) ->
  forall l acc, fold_left f l acc == acc + weighted w l.
Proof.
  intros Hf l. induction l as [|x tl IH]; intros acc; simpl.
  - lra.
  - rewrite IH, Hf. lra.
Qed.

Lemma count_cons {A : Type} (p : A -> bool) (x : A) (l : list A) :
  count p (x :: l) = if p x then S (count p l) else count p l.
Proof. unfold count. simpl. destruct (p x); reflexivity. Qed.

Lemma weighted_issues (l : list Issue) :
  weighted issueWeight l
  == (10 # 100) * Qn (count (hasSeverity sev_error) l)
     + (5 # 100) * Qn (count (hasSeverity sev_warning) l)
     + (2 # 100) * Qn (count (hasSeverity sev_info) l).
Proof.
  induction l as [|i tl IH]; [reflexivity|].
  simpl weighted. rewrite IH, !count_cons.
  unfold issueWeight, hasSeverity.
  destruct (issue_severity i); simpl; rewrite Qn_S; lra.
Qed.

Lemma weighted_category (l : list Issue) :
  weighted categoryWeight l
  == (15 # 100) * Qn (count (hasSeverity sev_error) l)
     + (8 # 100) * Qn (count (hasSeverity sev_warning) l)
     + (3 # 100) * Qn (count (hasSeverity sev_info) l).
Proof.
  induction l as [|i tl IH]; [reflexivity|].
  simpl weighted. rewrite IH, !count_cons.
  unfold categoryWeight, hasSeverity.
  destruct (issue_severity i); simpl; rewrite Qn_S; lra.
Qed.

Lemma weighted_security (l : list SecurityIssue) :
  weighted securityWeight l
  == (20 # 100) * Qn (count (hasSecSeverity sec_critical) l)
     + (15 # 100) * Qn (count (hasSecSeverity sec_high) l).
Proof.
  induction l as [|i tl IH]; [reflexivity|].
  simpl weighted. rewrite IH, !count_cons.
  unfold securityWeight, hasSecSeverity.
  destruct (sec_severity i); simpl; rewrite ?Qn_S; lra.
Qed.

Lemma weighted_performance (l : list PerformanceIssue) :
  weighted performanceWeight l
  == (10 # 100) * Qn (count (hasImpact impact_high) l).
Proof.
  induction l as [|i tl IH]; [reflexivity|].
  simpl weighted. rewrite IH, !count_cons.
  unfold performanceWeight, hasImpact.
  destruct (perf_impact i); simpl; rewrite ?Qn_S; lra.
Qed.

Lemma calculatePenalties_per_issue (review : CodexReviewResult) :
  QualityAnalyzer.calculatePenalties review == penaltyPerIssue review.
Proof.
  unfold QualityAnalyzer.calculatePenalties, penaltyPerIssue.
  rewrite (fold_left_weighted _ performanceWeight),
          (fold_left_weighted _ securityWeight),
          (fold_left_weighted _ issueWeight).
  - rewrite weighted_issues, weighted_security, weighted_performance. lra.
  - intros acc x. unfold QualityAnalyzer.issuePenalty, issueWeight.
    destruct (issue_severity x); lra.
  - intros acc x. unfold QualityAnalyzer.securityPenalty, securityWeight.
    destruct (sec_severity x); lra.
  - intros acc x. unfold QualityAnalyzer.performancePenalty, performanceWeight.
    destruct (perf_impact x); lra.
Qed.

Lemma clamp01_bounds (x : Q) : 0 <= clamp01 x /\ clamp01 x <= 1.
Proof.
  unfold clamp01.
  destruct (Q.min_spec 1 (Qmax 0 x)) as [[H1 H2]|[H1 H2]];
    destruct (Q.max_spec 0 x) as [[H3 H4]|[H3 H4]];
    rewrite H2; try rewrite H4; split; lra.
Qed.

Lemma clamp01_compat (x y : Q) : x == y -> clamp01 x == clamp01 y.
Proof. intros H. unfold clamp01. rewrite H. reflexivity. Qed.

Lemma clamp01_max0 (x : Q) : Qmin 1 (Qmax 0 (Qmax 0 x)) == clamp01 x.
Proof.
  unfold clamp01.
  assert (H : Qmax 0 (Qmax 0 x) == Qmax 0 x).
  { destruct (Q.max_spec 0 (Qmax 0 x)) as [[H1 H2]|[H1 H2]]; rewrite H2.
    - reflexivity.
    - destruct (Q.max_spec 0 x) as [[H3 H4]|[H3 H4]]; rewrite H4 in *; lra. }
  rewrite H. reflexivity.
Qed.

(** ** QualityAnalyzer *)

Lemma calculateCategoryScore_per_issue (issues : list Issue) :
  QualityAnalyzer.calculateCategoryScore issues
  == Qmax 0 (1 - ((15 # 100) * Qn (count (hasSeverity sev_error) issues)
                  + (8 # 100) * Qn (count (hasSeverity sev_warning) issues)
                  + (3 # 100) * Qn (count (hasSeverity sev_info) issues))).
Proof.
  destruct issues as [|i tl].
  - vm_compute. reflexivity.
  - unfold QualityAnalyzer.calculateCategoryScore.
    rewrite (fold_left_weighted _ categoryWeight).
    + rewrite weighted_category. apply Q.max_compat; [reflexivity | lra].
    + intros acc x. unfold QualityAnalyzer.categoryPenalty, categoryWeight.
      destruct (issue_severity x); lra.
Qed.

Lemma calculateCategoryScore_bounds (issues : list Issue) :
  0 <= QualityAnalyzer.calculateCategoryScore issues <= 1.
Proof.
  rewrite calculateCategoryScore_per_issue.
  pose proof (Qn_nonneg (count (hasSeverity sev_error) issues)).
  pose proof (Qn_nonneg (count (hasSeverity sev_warning) issues)).
  pose proof (Qn_nonneg (count (hasSeverity sev_info) issues)).
  match goal with
  | |- 0 <= Qmax 0 ?x <= 1 =>
      destruct (Q.max_spec 0 x) as [[H2 H3]|[H2 H3]]; rewrite H3; split; lra
  end.
Qed.

(** C4. [calculateQualityScore] is exactly 0 on a review whose status is
    error; on any other review it is the Checker's overall score minus
    0.10 per error, 0.05 per warning, 0.02 per info issue, 0.20 per
    critical and 0.15 per high security issue and 0.10 per high-impact
    performance issue, clamped to [0,1]; the result always lies in
    [0,1]. *)
Theorem calculateQualityScore_spec (review : CodexReviewResult) :
  (review_status review = status_error ->
   QualityAnalyzer.calculateQualityScore review = 0)
  /\ (review_status review <> status_error ->
      QualityAnalyzer.calculateQualityScore review
      == clamp01 (overallQuality review - penaltyPerIssue review))
  /\ 0 <= QualityAnalyzer.calculateQualityScore review <= 1.
Proof.
  unfold QualityAnalyzer.calculateQualityScore.
  destruct (review_status review); repeat split; try congruence; try lra.
  - intros _. rewrite clamp01_max0. apply clamp01_compat.
    rewrite calculatePenalties_per_issue. reflexivity.
  - rewrite clamp01_max0. apply clamp01_bounds.
  - rewrite clamp01_max0. apply clamp01_bounds.
Qed.

Lemma calculateQualityScore_spec_witness :
  QualityAnalyzer.calculateQualityScore
    (sampleReview status_error [sampleIssue security sev_error] (9 # 10) []) = 0
  /\ QualityAnalyzer.calculateQualityScore
       (sampleReview status_success
          [sampleIssue security sev_error; sampleIssue performance sev_warning]
          (9 # 10) [sampleSecurityIssue sec_critical])
     == 55 # 100.
Proof.
  split.
  - apply (calculateQualityScore_spec
             (sampleReview status_error [sampleIssue security sev_error] (9 # 10) []));
      reflexivity.
  - rewrite (proj1 (proj2 (calculateQualityScore_spec _))); [|discriminate].
    vm_compute. reflexivity.
Defined.

(** C5. [calculateMetrics] gives every category 1.0 minus 0.15 per error,
    0.08 per warning and 0.03 per info issue of that category, floored at
    0 (exactly 1 when the category has no issue), and the overall score is
    0.25 security + 0.20 performance + 0.20 type safety + 0.20 code
    quality + 0.15 best practices. *)
Theorem calculateMetrics_spec (review : CodexReviewResult) :
  let m := QualityAnalyzer.calculateMetrics review in
  (forall t : IssueType,
      metricOf m t == categoryScorePerIssue t (issuesFound review)
      /\ (count (QualityAnalyzer.ofType t) (issuesFound review) = O ->
          metricOf m t = 1)
      /\ 0 <= metricOf m t <= 1)
  /\ overallScore m
     == (25 # 100) * metricOf m security + (20 # 100) * metricOf m performance
        + (20 # 100) * metricOf m type_safety + (20 # 100) * metricOf m code_quality
        + (15 # 100) * metricOf m best_practice.
Proof.
  intros m. split.
  - intros t.
    assert (E : metricOf m t
                = QualityAnalyzer.calculateCategoryScore
                    (filter (QualityAnalyzer.ofType t) (issuesFound review))).
    { destruct t; reflexivity. }
    rewrite E. split; [|split].
    + unfold categoryScorePerIssue. apply calculateCategoryScore_per_issue.
    + unfold count. intros H.
      destruct (filter (QualityAnalyzer.ofType t) (issuesFound review));
        [reflexivity | discriminate].
    + apply calculateCategoryScore_bounds.
  - unfold m, QualityAnalyzer.calculateMetrics, metricOf. simpl. lra.
Qed.

Lemma calculateMetrics_spec_witness :
  metricOf (QualityAnalyzer.calculateMetrics
              (sampleReview status_success [sampleIssue security sev_error]
                 (9 # 10) [])) performance = 1
  /\ metricOf (QualityAnalyzer.calculateMetrics
                 (sampleReview status_success [sampleIssue security sev_error]
                    (9 # 10) [])) security == 85 # 100.
Proof.
  split.
  - apply (calculateMetrics_spec
             (sampleReview status_success [sampleIssue security sev_error]
                (9 # 10) [])). reflexivity.
  - vm_compute. reflexivity.
Defined.

(** ** MergeDecider *)

Lemma Qgeb_true (a b : Q) : Qgeb a b = true <-> b <= a.
Proof. unfold Qgeb. apply Qle_bool_iff. Qed.

Lemma Qgeb_false (a b : Q) : Qgeb a b = false <-> a < b.
Proof.
  unfold Qgeb. split; intros H.
  - apply Qnot_le_lt. intros Hle. apply Qle_bool_iff in Hle. congruence.
  - destruct (Qle_bool b a) eqn:E; [|reflexivity].
    apply Qle_bool_iff in E. lra.
Qed.


Lemma Qgtb_true (a b : Q) : Qgtb a b = true <-> b < a.
Proof.
  unfold Qgtb. rewrite negb_true_iff. apply (Qgeb_false b a).
Qed.

Lemma Qgtb_false (a b : Q) : Qgtb a b = false <-> a <= b.
Proof.
  unfold Qgtb. rewrite negb_false_iff. apply Qle_bool_iff.
Qed.

Lemma Qltb_false (a b : Q) : Qltb a b = false <-> b <= a.
Proof.
  unfold Qltb. rewrite negb_false_iff. apply Qle_bool_iff.
Qed.

(** The array of blocking issues the decider ends up with. *)
Lemma blockingIssues_filter
    (config : MakerCheckerConfig) (state : IterationState)
    (review : CodexReviewResult) (ci : CIStatus) :
  blockingIssues (MergeDecider.shouldMerge config state review ci)
  = filter MergeDecider.isBlocking (issuesFound review).
Proof.
  unfold MergeDecider.shouldMerge. simpl.
  destruct (filter MergeDecider.isBlocking (issuesFound review)); reflexivity.
Qed.

(** The final decision as the boolean formula of the source. *)
Lemma decision_shouldMerge_eq
    (config : MakerCheckerConfig) (state : IterationState)
    (review : CodexReviewResult) (ci : CIStatus) :
  let qualityMet := Qgeb (qualityScore state) (qualityThreshold config) in
  let noBlocking :=
    (List.length (filter MergeDecider.isBlocking (issuesFound review)) =? 0)%nat in
  let ciOk := CIStatus_beq ci ci_success in
  decision_shouldMerge (MergeDecider.shouldMerge config state review ci)
  = (autoMergeEnabled config && qualityMet
     && Qgeb (qualityScore state) (autoMergeThreshold config)
     && noBlocking && ciOk
     && negb (Qgeb (totalCost state) (maxCostPerPR config)))
    || (qualityMet && noBlocking && ciOk
        && negb (MergeDecider.requiresHumanApproval config state review
                   qualityMet ci)).
Proof.
  unfold MergeDecider.shouldMerge. simpl.
  destruct (filter MergeDecider.isBlocking (issuesFound review)); reflexivity.
Qed.

Lemma isBlocking_true (i : Issue) :
  MergeDecider.isBlocking i = true
  <-> issue_type i = security /\ issue_severity i = sev_error.
Proof.
  unfold MergeDecider.isBlocking. rewrite andb_true_iff.
  destruct (issue_type i), (issue_severity i); simpl; intuition congruence.
Qed.

(** C1, as stated, fails. With the default configuration a review that
    carries an error-severity performance issue is approved; with
    auto-merge enabled a review that lists a critical security issue
    (score 0.95, iteration 2) is approved and nothing is blocking. *)
Lemma shouldMerge_approves_outstanding_issues :
  decision_shouldMerge
    (MergeDecider.shouldMerge MakerCheckerOrchestrator.getDefaultConfig
       (sampleState 2 (95 # 100) 1)
       (sampleReview status_success [sampleIssue performance sev_error]
          (95 # 100) [])
       ci_success) = true
  /\ decision_shouldMerge
       (MergeDecider.shouldMerge autoMergeConfig
          (sampleState 2 (95 # 100) 1)
          (sampleReview status_success [] (95 # 100)
             [sampleSecurityIssue sec_critical])
          ci_success) = true
  /\ blockingIssues
       (MergeDecider.shouldMerge autoMergeConfig
          (sampleState 2 (95 # 100) 1)
          (sampleReview status_success [] (95 # 100)
             [sampleSecurityIssue sec_critical])
          ci_success) = [].
Proof. repeat split; vm_compute; reflexivity. Qed.

(** C1, amended. The blocking issues of a decision are exactly the
    issues of type security and severity error of the review; while the
    review has such an issue the decision never approves, whatever the
    score, and the issue is among the blocking issues. Entries of
    [securityIssues] block only through the human-approval rule: with
    that rule on and auto-merge off, a review that lists any security
    issue is not approved. *)
Theorem shouldMerge_blocks_security_errors
    (config : MakerCheckerConfig) (state : IterationState)
    (review : CodexReviewResult) (ci : CIStatus) :
  let d := MergeDecider.shouldMerge config state review ci in
  blockingIssues d = filter MergeDecider.isBlocking (issuesFound review)
  /\ (forall i : Issue,
         In i (issuesFound review) ->
         issue_type i = security -> issue_severity i = sev_error ->
         decision_shouldMerge d = false /\ In i (blockingIssues d))
  /\ (autoMergeEnabled config = false ->
      securityIssuesFound (requireHumanApprovalIf config) = true ->
      securityIssues review <> [] ->
      decision_shouldMerge d = false).
Proof.
  intros d. unfold d. split; [apply blockingIssues_filter|]. split.
  - intros i Hin Ht Hs.
    assert (Hf : In i (filter MergeDecider.isBlocking (issuesFound review))).
    { apply filter_In. split; [exact Hin|]. apply isBlocking_true. auto. }
    split.
    + rewrite decision_shouldMerge_eq. cbv zeta.
      destruct (filter MergeDecider.isBlocking (issuesFound review));
        [destruct Hf|].
      simpl. rewrite !andb_false_r. reflexivity.
    + rewrite blockingIssues_filter. exact Hf.
  - intros Hauto Hrule Hsec.
    rewrite decision_shouldMerge_eq. cbv zeta. rewrite Hauto. simpl.
    unfold MergeDecider.requiresHumanApproval. rewrite Hrule.
    destruct (securityIssues review) as [|s tl]; [congruence|]. simpl.
    destruct (truthy _ && Qltb _ _); simpl; rewrite !andb_false_r; reflexivity.
Qed.

Lemma shouldMerge_blocks_security_errors_witness :
  decision_shouldMerge
    (MergeDecider.shouldMerge autoMergeConfig (sampleState 2 (95 # 100) 1)
       (sampleReview status_success [sampleIssue security sev_error]
          (95 # 100) [])
       ci_success) = false
  /\ In (sampleIssue security sev_error)
       (blockingIssues
          (MergeDecider.shouldMerge autoMergeConfig (sampleState 2 (95 # 100) 1)
             (sampleReview status_success [sampleIssue security sev_error]
                (95 # 100) [])
             ci_success)).
Proof.
  apply (shouldMerge_blocks_security_errors autoMergeConfig
           (sampleState 2 (95 # 100) 1)
           (sampleReview status_success [sampleIssue security sev_error]
              (95 # 100) [])
           ci_success).
  - simpl. left. reflexivity.
  - reflexivity.
  - reflexivity.
Defined.

(** C2, as stated, fails. With the cost rule of [requireHumanApprovalIf]
    off, a clean review is approved although the cumulative cost (6) has
    passed the cap (5). *)
Lemma shouldMerge_approves_over_cost_cap :
  decision_shouldMerge
    (MergeDecider.shouldMerge noCostRuleConfig (sampleState 2 (95 # 100) 6)
       (sampleReview status_success [] (95 # 100) []) ci_success) = true
  /\ Qgeb (totalCost (sampleState 2 (95 # 100) 6))
          (maxCostPerPR noCostRuleConfig) = true.
Proof. split; vm_compute; reflexivity. Qed.

(** C2, amended. A decision approves only if the cumulative cost is
    strictly below the per-change cap whenever the cost rule of
    [requireHumanApprovalIf] is enabled (the default) or the decision
    does not require human approval (the auto-merge path). *)
Theorem shouldMerge_cost_gate
    (config : MakerCheckerConfig) (state : IterationState)
    (review : CodexReviewResult) (ci : CIStatus) :
  let d := MergeDecider.shouldMerge config state review ci in
  decision_shouldMerge d = true ->
  costExceeded (requireHumanApprovalIf config) = true
  \/ decision_requiresHumanApproval d = false ->
  totalCost state < maxCostPerPR config.
Proof.
  intros d Hm Hc. apply Qgeb_false.
  unfold d in *. rewrite decision_shouldMerge_eq in Hm. cbv zeta in Hm.
  destruct (Qgeb (totalCost state) (maxCostPerPR config)) eqn:Ecost;
    [exfalso|reflexivity].
  rewrite !andb_false_r in Hm. simpl in Hm.
  destruct Hc as [Hrule|Hnh].
  - unfold MergeDecider.requiresHumanApproval in Hm.
    rewrite Hrule, Ecost in Hm. simpl in Hm.
    repeat match type of Hm with
           | context [if ?b then true else _] => destruct b
           end; simpl in Hm; rewrite ?andb_false_r in Hm; discriminate.
  - unfold MergeDecider.shouldMerge in Hnh. simpl in Hnh.
    rewrite Ecost in Hnh. simpl in Hnh.
    rewrite !andb_false_r in Hnh. simpl in Hnh.
    rewrite orb_true_r in Hnh. discriminate.
Qed.

Lemma shouldMerge_cost_gate_witness :
  totalCost (sampleState 1 (9 # 10) 1)
  < maxCostPerPR MakerCheckerOrchestrator.getDefaultConfig.
Proof.
  apply (shouldMerge_cost_gate MakerCheckerOrchestrator.getDefaultConfig
           (sampleState 1 (9 # 10) 1)
           (sampleReview status_success [] (9 # 10) []) ci_success).
  - vm_compute. reflexivity.
  - left. reflexivity.
Defined.

(** ** IterationLimiter *)

Lemma isTerminal_true (p : Phase) :
  IterationLimiter.isTerminal p = true <-> terminal p.
Proof.
  unfold IterationLimiter.isTerminal, terminal.
  destruct p; simpl; intuition congruence.
Qed.

(** Case analysis on the answer the limiter gives for a second state. *)
Ltac other_state c s :=
  destruct (currentIteration s >=? maxIterations s)%Z;
  [| destruct (IterationLimiter.isTerminal (currentPhase s));
     [| destruct (Qgeb (totalCost s) (maxCostPerPR c))]];
  simpl; solve [discriminate | congruence].

(** C3. [canStartIteration] refuses exactly when the iteration counter
    has reached the maximum, or the phase is terminal, or the cumulative
    cost has reached the per-change cap; otherwise it allows, with no
    reason. Each ground of refusal has its own reason text, and two
    refusals on different grounds never carry the same reason. *)
Theorem canStartIteration_spec
    (config : MakerCheckerConfig) (state : IterationState) :
  let r := IterationLimiter.canStartIteration config state in
  (allowed r = false
   <-> ((currentIteration state >= maxIterations state)%Z
        \/ terminal (currentPhase state)
        \/ totalCost state >= maxCostPerPR config))
  /\ (allowed r = true <-> reason r = None)
  /\ (denialCause config state = Some MaxIterationsReached ->
      reason r = Some ("Maximum iterations reached ("
                         ++ showZ (maxIterations state) ++ ")")%string)
  /\ (denialCause config state = Some TerminalPhase ->
      reason r = Some ("PR already in terminal state: "
                         ++ phaseName (currentPhase state))%string)
  /\ (denialCause config state = Some CostCapReached ->
      reason r = Some ("Cost limit exceeded: $" ++ toFixed (totalCost state) 2
                         ++ " / $" ++ toFixed (maxCostPerPR config) 2)%string)
  /\ (forall (config' : MakerCheckerConfig) (state' : IterationState),
         denialCause config state <> denialCause config' state' ->
         reason r <> reason (IterationLimiter.canStartIteration config' state')).
Proof.
  intros r. subst r. unfold IterationLimiter.canStartIteration, denialCause.
  destruct (currentIteration state >=? maxIterations state)%Z eqn:E1;
    [apply Z.geb_le in E1
    |assert (N1 : ~ (currentIteration state >= maxIterations state)%Z)
       by (intros H; apply Z.ge_le, Z.geb_le in H; congruence);
     destruct (IterationLimiter.isTerminal (currentPhase state)) eqn:E2;
     [apply isTerminal_true in E2
     |assert (N2 : ~ terminal (currentPhase state))
        by (intros H; apply isTerminal_true in H; congruence);
      destruct (Qgeb (totalCost state) (maxCostPerPR config)) eqn:E3;
      [apply Qgeb_true in E3 | apply Qgeb_false in E3]]];
    simpl; repeat split;
    try discriminate;
    try (intros config' state' Hne; other_state config' state');
    intros; try reflexivity; try tauto; try lia;
    try (right; right; exact E3);
    match goal with
    | H : _ \/ _ \/ _ |- _ =>
        destruct H as [H|[H|H]];
        [tauto | tauto | exfalso; exact (Qlt_not_le _ _ E3 H)]
    end.
Qed.

Lemma canStartIteration_spec_witness :
  reason (IterationLimiter.canStartIteration
            MakerCheckerOrchestrator.getDefaultConfig (sampleState 5 (7 # 10) 1))
  = Some "Maximum iterations reached (5)"%string
  /\ reason (IterationLimiter.canStartIteration
               MakerCheckerOrchestrator.getDefaultConfig
               (sampleState 2 (7 # 10) 5))
     = Some "Cost limit exceeded: $5.00 / $5.00"%string
  /\ allowed (IterationLimiter.canStartIteration
                MakerCheckerOrchestrator.getDefaultConfig
                (sampleState 2 (7 # 10) 1)) = true.
Proof.
  split; [|split].
  - apply (canStartIteration_spec MakerCheckerOrchestrator.getDefaultConfig
             (sampleState 5 (7 # 10) 1)). reflexivity.
  - apply (canStartIteration_spec MakerCheckerOrchestrator.getDefaultConfig
             (sampleState 2 (7 # 10) 5)). reflexivity.
  - apply (canStartIteration_spec MakerCheckerOrchestrator.getDefaultConfig
             (sampleState 2 (7 # 10) 1)). reflexivity.
Defined.

(** ** StateManager *)

Lemma sumCosts_snoc (records : list IterationRecord) (r : IterationRecord) :
  sumCosts (records ++ [r]) = sumCosts records + cost r.
Proof. unfold sumCosts. rewrite fold_left_app. reflexivity. Qed.

Lemma perform_keeps_sum (op : Operation) (state : IterationState) (now : string) :
  totalCost state = sumCosts (history state) ->
  totalCost (perform op state now) = sumCosts (history (perform op state now)).
Proof.
  intros H. destruct op; simpl; try exact H.
  rewrite sumCosts_snoc, H. reflexivity.
Qed.

Lemma reachable_sum (state : IterationState) :
  reachable state -> totalCost state = sumCosts (history state).
Proof.
  induction 1 as [pr repo config now | state op now Hr IH].
  - reflexivity.
  - apply perform_keeps_sum, IH.
Qed.

(** C8. In every state reached from [initializeState] by the StateManager
    operations, [totalCost] is the sum of the costs of the history
    records, and an operation that records a non-negative cost never
    lowers [totalCost]. *)
Theorem totalCost_is_sum_and_monotone (state : IterationState) :
  reachable state ->
  totalCost state = sumCosts (history state)
  /\ (forall (op : Operation) (now : string),
         0 <= recordedCost op ->
         totalCost state <= totalCost (perform op state now)).
Proof.
  intros Hr. split.
  - apply reachable_sum, Hr.
  - intros op now Hc. destruct op; simpl in *; lra.
Qed.

Lemma sampleRun_reachable : reachable sampleRun.
Proof. unfold sampleRun. do 2 apply reachable_step. apply reachable_init. Defined.

Lemma totalCost_is_sum_and_monotone_witness :
  totalCost sampleRun = sumCosts (history sampleRun)
  /\ totalCost sampleRun
     <= totalCost (perform (OpRecordIteration (sampleRecord (8 # 10) (1 # 4)))
                     sampleRun "t3").
Proof.
  destruct (totalCost_is_sum_and_monotone sampleRun sampleRun_reachable)
    as [Hsum Hmono].
  split.
  - exact Hsum.
  - apply Hmono. vm_compute. discriminate.
Defined.

(** C10. [recordIteration] replaces [qualityScore] by the overall quality
    of the record's review when the review is present and its overall
    quality is not zero; with no review, or with an overall quality of
    zero, the previous [qualityScore] is kept, so a zero-quality review
    never lowers the stored score. *)
Theorem recordIteration_qualityScore
    (state : IterationState) (record : RecordInput) (now : string) :
  let state' := StateManager.recordIteration state record now in
  (forall review : CodexReviewResult,
      in_codexReview record = Some review ->
      ~ overallQuality review == 0 ->
      qualityScore state' = overallQuality review)
  /\ (in_codexReview record = None -> qualityScore state' = qualityScore state)
  /\ (forall review : CodexReviewResult,
         in_codexReview record = Some review ->
         overallQuality review == 0 ->
         qualityScore state' = qualityScore state).
Proof.
  intros state'. subst state'. simpl. repeat split.
  - intros review E Hnz. rewrite E. simpl. unfold truthy.
    destruct (Qeq_bool (overallQuality review) 0) eqn:Ez; [|reflexivity].
    apply Qeq_bool_iff in Ez. contradiction.
  - intros E. rewrite E. reflexivity.
  - intros review E Hz. rewrite E. simpl. unfold truthy.
    apply Qeq_bool_iff in Hz. rewrite Hz. reflexivity.
Qed.

Lemma recordIteration_qualityScore_witness :
  qualityScore (StateManager.recordIteration (sampleState 2 (6 # 10) 1)
                  (sampleRecord 0 (1 # 10)) "t")
  = 6 # 10
  /\ qualityScore (StateManager.recordIteration (sampleState 2 (6 # 10) 1)
                     (sampleRecord (3 # 10) (1 # 10)) "t")
     = 3 # 10.
Proof.
  split.
  - apply (proj2 (proj2 (recordIteration_qualityScore
                           (sampleState 2 (6 # 10) 1)
                           (sampleRecord 0 (1 # 10)) "t"))
             (sampleReview status_success [] 0 []));
      reflexivity.
  - apply (proj1 (recordIteration_qualityScore
                    (sampleState 2 (6 # 10) 1)
                    (sampleRecord (3 # 10) (1 # 10)) "t")
             (sampleReview status_success [] (3 # 10) [])).
    + reflexivity.
    + vm_compute. discriminate.
Defined.

(** ** ConvergenceDetector: trend classification *)


















(** ** ConvergenceDetector: projection *)













(** ** Orchestrator loop *)

Section OrchestratorLoop.

Variable config : MakerCheckerConfig.
Variable env : Collaborators.

Ltac each_event :=
  let e := fresh "e" in
  let He := fresh "He" in
  intros e He; simpl in He;
  repeat (destruct He as [He|He]; [subst e; simpl; auto|]);
  try contradiction.

Lemma iterationBody_inv (state : IterationState) :
  let k := (currentIteration state + 1)%Z in
  match MakerCheckerOrchestrator.iterationBody config env state with
  | Break state' events =>
      currentIteration state' = k
      /\ maxIterations state' = maxIterations state
      /\ (forall e, In e events -> eventOfIteration env k e)
      /\ (review_status (reviewCode env k) = status_error ->
          currentPhase state' = failed
          /\ events = [CommentPosted k StatusComment; CodexReviewCalled k])
  | Continue state' events =>
      currentIteration state' = k
      /\ maxIterations state' = maxIterations state
      /\ (forall e, In e events -> eventOfIteration env k e)
      /\ review_status (reviewCode env k) = status_success
  end.
Proof.
  intros k.
  unfold MakerCheckerOrchestrator.iterationBody. cbv zeta.
  cbn [StateManager.startIteration StateManager.saveState currentIteration].
  fold k.
  destruct (review_status (reviewCode env k)) eqn:Ereview.
  2:{ simpl. repeat split; auto. each_event. }
  destruct (QualityAnalyzer.meetsThreshold _ _).
  { destruct (decision_shouldMerge _);
      [destruct (negb _ && _)|];
      simpl; repeat split; try discriminate; each_event. }
  destruct (List.length (issuesFound (reviewCode env k)) =? 0)%nat.
  { simpl. repeat split; try discriminate. each_event. }
  cbn [StateManager.updatePhase StateManager.setPhase StateManager.saveState
         currentIteration].
  destruct (response_status _) eqn:Eresponse.
  2:{ simpl. repeat split; try discriminate. each_event. }
  destruct (negb _ && _).
  { simpl. repeat split; try discriminate. each_event. }
  destruct (Qgeb _ _).
  { simpl. repeat split; try discriminate. each_event. }
  simpl. repeat split; auto. each_event.
Qed.

Lemma finalState_fst (state : IterationState) (trace : list Event) :
  fst (MakerCheckerOrchestrator.finalState state trace) = state.
Proof.
  unfold MakerCheckerOrchestrator.finalState.
  destruct (_ >=? _)%Z; reflexivity.
Qed.

(** The code after the loop only appends the max-iterations notice. *)
Lemma finalState_snd (state : IterationState) (trace : list Event) :
  exists tail,
    snd (MakerCheckerOrchestrator.finalState state trace) = trace ++ tail
    /\ (forall e, In e tail ->
          e = CommentPosted (currentIteration state) MaxIterationsComment
          \/ e = LabelAdded AttentionLabel).
Proof.
  unfold MakerCheckerOrchestrator.finalState.
  destruct (_ >=? _)%Z; simpl.
  - eexists. split; [reflexivity|]. simpl. intuition.
  - exists []. rewrite app_nil_r. split; [reflexivity|]. simpl. intuition.
Qed.

(** The loop leaves when given one pass per remaining iteration. *)
Lemma runIterations_returns (fuel : nat) :
  forall (state : IterationState) (trace : list Event),
    (maxIterations state - currentIteration state <= Z.of_nat fuel)%Z ->
    exists result, MakerCheckerOrchestrator.runIterations config env fuel state trace = Some result.
Proof.
  induction fuel as [|fuel IH]; intros state trace Hfuel; simpl.
  - assert (E : (currentIteration state <? maxIterations state)%Z = false)
      by (apply Z.ltb_ge; lia).
    rewrite E. eexists. reflexivity.
  - destruct (currentIteration state <? maxIterations state)%Z;
      [|eexists; reflexivity].
    pose proof (iterationBody_inv state) as Hbody.
    cbv zeta in Hbody.
    destruct (MakerCheckerOrchestrator.iterationBody config env state)
      as [state' events | state' events].
    + eexists. reflexivity.
    + destruct Hbody as (Hcur & Hmax & _).
      apply IH. rewrite Hcur, Hmax. lia.
Qed.

(** Events of a run, from a state whose counter is [currentIteration]:
    every Maker call belongs to an iteration whose review succeeded,
    and a review that reported an error leaves the phase failed. *)
Lemma runIterations_trace (fuel : nat) :
  forall (state state' : IterationState) (trace trace' : list Event),
    MakerCheckerOrchestrator.runIterations config env fuel state trace = Some (state', trace') ->
    exists events,
      trace' = trace ++ events
      /\ (forall j a, In (ClaudeFixCalled j a) events ->
            (currentIteration state < j)%Z
            /\ review_status (reviewCode env j) = status_success)
      /\ (forall j, In (CodexReviewCalled j) events ->
            (currentIteration state < j)%Z
            /\ (review_status (reviewCode env j) = status_error ->
                currentPhase state' = failed)).
Proof.
  induction fuel as [|fuel IH]; intros state state' trace trace' Hrun;
    simpl in Hrun;
    (destruct (currentIteration state <? maxIterations state)%Z;
     [| destruct (finalState_snd state trace) as (tail & Etail & Htail);
        rewrite (surjective_pairing
          (MakerCheckerOrchestrator.finalState state trace)) in Hrun;
        injection Hrun as _ Etr; rewrite Etail in Etr; subst trace';
        exists tail; split; [reflexivity|];
        split; intros; match goal with
                       | H : In _ tail |- _ =>
                           apply Htail in H; destruct H; discriminate
                       end ]).
  - discriminate.
  - pose proof (iterationBody_inv state) as Hbody.
    cbv zeta in Hbody.
    destruct (MakerCheckerOrchestrator.iterationBody config env state)
      as [state1 events | state1 events].
    + destruct Hbody as (Hcur & Hmax & Hev & Herr).
      destruct (finalState_snd state1 (trace ++ events))
        as (tail & Etail & Htail).
      pose proof (finalState_fst state1 (trace ++ events)) as Efst.
      rewrite (surjective_pairing
                 (MakerCheckerOrchestrator.finalState state1 (trace ++ events)))
        in Hrun.
      injection Hrun as Est Etr. rewrite Efst in Est. rewrite Etail in Etr.
      subst state1 trace'.
      exists (events ++ tail). split; [rewrite app_assoc; reflexivity|].
      split.
      * intros j a Hin. apply in_app_or in Hin. destruct Hin as [Hin|Hin].
        -- apply Hev in Hin. simpl in Hin. destruct Hin as [-> Hs].
           split; [lia|exact Hs].
        -- apply Htail in Hin. destruct Hin; discriminate.
      * intros j Hin. apply in_app_or in Hin. destruct Hin as [Hin|Hin].
        -- apply Hev in Hin. simpl in Hin. subst j.
           split; [lia|]. intros Hs. apply Herr, Hs.
        -- apply Htail in Hin. destruct Hin; discriminate.
    + destruct Hbody as (Hcur & Hmax & Hev & Hok).
      apply IH in Hrun. destruct Hrun as (rest & Etr & Hfix & Hrev).
      exists (events ++ rest). split; [rewrite app_assoc; exact Etr|].
      split.
      * intros j a Hin. apply in_app_or in Hin. destruct Hin as [Hin|Hin].
        -- apply Hev in Hin. simpl in Hin. destruct Hin as [-> Hs].
           split; [lia|exact Hs].
        -- apply Hfix in Hin. destruct Hin as [Hlt Hs]. split; [lia|exact Hs].
      * intros j Hin. apply in_app_or in Hin. destruct Hin as [Hin|Hin].
        -- apply Hev in Hin. simpl in Hin. subst j.
           split; [lia|]. intros Hs. congruence.
        -- apply Hrev in Hin. destruct Hin as [Hlt Hs]. split; [lia|exact Hs].
Qed.

(** C9. When the Checker's review of an iteration has status error, the
    pass posts the status comment, calls the Checker, sets the phase to
    failed and leaves the loop at once: nothing but the closing notice
    follows, and the Maker is not called. Over a whole run, which
    always returns, an iteration whose review reported an error has no
    Maker call and the run ends in phase failed. *)
Theorem checker_error_fails_fast :
  (forall (state : IterationState) (fuel : nat) (trace : list Event),
      let k := (currentIteration state + 1)%Z in
      (currentIteration state < maxIterations state)%Z ->
      review_status (reviewCode env k) = status_error ->
      exists state' tail,
        MakerCheckerOrchestrator.runIterations config env (S fuel) state trace
        = Some (state',
                trace ++ [CommentPosted k StatusComment; CodexReviewCalled k]
                      ++ tail)
        /\ currentPhase state' = failed
        /\ currentIteration state' = k
        /\ (forall e, In e tail ->
              e = CommentPosted k MaxIterationsComment
              \/ e = LabelAdded AttentionLabel))
  /\ (forall state : IterationState,
         exists result, MakerCheckerOrchestrator.run config env state = Some result)
  /\ (forall (state state' : IterationState) (trace' : list Event),
         MakerCheckerOrchestrator.run config env state = Some (state', trace') ->
         forall k : Z,
           In (CodexReviewCalled k) trace' ->
           review_status (reviewCode env k) = status_error ->
           currentPhase state' = failed
           /\ (forall a : Z, ~ In (ClaudeFixCalled k a) trace')).
Proof.
  split; [|split].
  - intros state fuel trace k Hlt Herr.
    cbn [MakerCheckerOrchestrator.runIterations].
    apply Z.ltb_lt in Hlt. rewrite Hlt.
    pose proof (iterationBody_inv state) as Hbody. cbv zeta in Hbody.
    fold k in Hbody.
    destruct (MakerCheckerOrchestrator.iterationBody config env state)
      as [state1 events | state1 events].
    + destruct Hbody as (Hcur & Hmax & Hev & Hfail).
      destruct (Hfail Herr) as [Hphase Hevents]. subst events.
      destruct (finalState_snd state1
                  (trace ++ [CommentPosted k StatusComment; CodexReviewCalled k]))
        as (tail & Etail & Htail).
      exists state1, tail. split; [|split; [exact Hphase|split; [exact Hcur|]]].
      * rewrite (surjective_pairing (MakerCheckerOrchestrator.finalState state1 _)).
        rewrite finalState_fst, Etail, <- app_assoc. reflexivity.
      * intros e He. rewrite <- Hcur. apply Htail, He.
    + destruct Hbody as (_ & _ & _ & Hok). congruence.
  - intros state. unfold MakerCheckerOrchestrator.run.
    apply runIterations_returns. lia.
  - intros state state' trace' Hrun k Hin Herr.
    unfold MakerCheckerOrchestrator.run in Hrun.
    apply runIterations_trace in Hrun.
    destruct Hrun as (events & Etr & Hfix & Hrev).
    simpl in Etr. subst trace'. split.
    + apply (proj2 (Hrev k Hin) Herr).
    + intros a Ha. apply Hfix in Ha. destruct Ha as [_ Hs]. congruence.
Qed.

End OrchestratorLoop.

Lemma checker_error_fails_fast_witness :
  currentPhase (fst sampleOutcome) = failed
  /\ (forall a : Z, ~ In (ClaudeFixCalled 2 a) (snd sampleOutcome))
  /\ In (ClaudeFixCalled 1 0) (snd sampleOutcome).
Proof.
  split; [|split].
  - apply (proj2 (proj2 (checker_error_fails_fast
                           MakerCheckerOrchestrator.getDefaultConfig sampleEnv))
             (StateManager.initializeState 42 "acme/widgets"
                MakerCheckerOrchestrator.getDefaultConfig "t0")
             (fst sampleOutcome) (snd sampleOutcome)
             ltac:(vm_compute; reflexivity) 2%Z);
      [vm_compute; intuition | reflexivity].
  - apply (proj2 (proj2 (checker_error_fails_fast
                           MakerCheckerOrchestrator.getDefaultConfig sampleEnv))
             (StateManager.initializeState 42 "acme/widgets"
                MakerCheckerOrchestrator.getDefaultConfig "t0")
             (fst sampleOutcome) (snd sampleOutcome)
             ltac:(vm_compute; reflexivity) 2%Z);
      [vm_compute; intuition | reflexivity].
  - vm_compute. intuition.
Defined.


(* ================================================================= *)
(** * Further properties of the code *)

(** ** QualityAnalyzer: scores *)

Lemma weighted_app {A : Type} (w : A -> Q) (l1 l2 : list A) :
  weighted w (l1 ++ l2) == weighted w l1 + weighted w l2.
Proof.
  induction l1 as [|x tl IH]; simpl; [lra | rewrite IH; lra].
Qed.

Lemma weighted_nonneg {A : Type} (w : A -> Q) (l : list A) :
  (forall x, 0 <= w x) -> 0 <= weighted w l.
Proof.
  intros Hw. induction l as [|x tl IH]; simpl; [lra|].
  specialize (Hw x). lra.
Qed.

Lemma issueWeight_nonneg (i : Issue) : 0 <= issueWeight i.
Proof. unfold issueWeight. destruct (issue_severity i); lra. Qed.

Lemma securityWeight_nonneg (i : SecurityIssue) : 0 <= securityWeight i.
Proof. unfold securityWeight. destruct (sec_severity i); lra. Qed.

Lemma performanceWeight_nonneg (i : PerformanceIssue) : 0 <= performanceWeight i.
Proof. unfold performanceWeight. destruct (perf_impact i); lra. Qed.

Lemma categoryWeight_nonneg (i : Issue) : 0 <= categoryWeight i.
Proof. unfold categoryWeight. destruct (issue_severity i); lra. Qed.

Lemma calculatePenalties_weighted (review : CodexReviewResult) :
  QualityAnalyzer.calculatePenalties review
  == weighted issueWeight (issuesFound review)
     + weighted securityWeight (securityIssues review)
     + weighted performanceWeight (performanceIssues review).
Proof.
  unfold QualityAnalyzer.calculatePenalties.
  rewrite (fold_left_weighted _ performanceWeight),
          (fold_left_weighted _ securityWeight),
          (fold_left_weighted _ issueWeight).
  - lra.
  - intros acc x. unfold QualityAnalyzer.issuePenalty, issueWeight.
    destruct (issue_severity x); lra.
  - intros acc x. unfold QualityAnalyzer.securityPenalty, securityWeight.
    destruct (sec_severity x); lra.
  - intros acc x. unfold QualityAnalyzer.performancePenalty, performanceWeight.
    destruct (perf_impact x); lra.
Qed.

Lemma calculatePenalties_nonneg (review : CodexReviewResult) :
  0 <= QualityAnalyzer.calculatePenalties review.
Proof.
  rewrite calculatePenalties_weighted.
  pose proof (weighted_nonneg issueWeight (issuesFound review) issueWeight_nonneg).
  pose proof (weighted_nonneg securityWeight (securityIssues review)
                securityWeight_nonneg).
  pose proof (weighted_nonneg performanceWeight (performanceIssues review)
                performanceWeight_nonneg).
  lra.
Qed.

Lemma clamp01_monotone (x y : Q) : x <= y -> clamp01 x <= clamp01 y.
Proof.
  intros H. unfold clamp01.
  apply Q.min_le_compat_l. apply Q.max_le_compat_l. exact H.
Qed.

Lemma calculateQualityScore_success (review : CodexReviewResult) :
  review_status review = status_success ->
  QualityAnalyzer.calculateQualityScore review
  == clamp01 (overallQuality review - QualityAnalyzer.calculatePenalties review).
Proof.
  intros H. unfold QualityAnalyzer.calculateQualityScore. rewrite H.
  apply clamp01_max0.
Qed.

(** X1. Findings only lower the score: appending issues, security issues
    or performance issues to a review never raises
    [calculateQualityScore]. *)
Theorem calculateQualityScore_antitone
    (review : CodexReviewResult) (issues : list Issue)
    (secs : list SecurityIssue) (perfs : list PerformanceIssue) :
  QualityAnalyzer.calculateQualityScore (addFindings review issues secs perfs)
  <= QualityAnalyzer.calculateQualityScore review.
Proof.
  destruct (review_status review) eqn:Es.
  - rewrite (calculateQualityScore_success review Es).
    rewrite (calculateQualityScore_success (addFindings review issues secs perfs) Es).
    apply clamp01_monotone.
    rewrite !calculatePenalties_weighted. simpl.
    rewrite !weighted_app.
    pose proof (weighted_nonneg issueWeight issues issueWeight_nonneg).
    pose proof (weighted_nonneg securityWeight secs securityWeight_nonneg).
    pose proof (weighted_nonneg performanceWeight perfs performanceWeight_nonneg).
    lra.
  - unfold QualityAnalyzer.calculateQualityScore. simpl. rewrite Es. lra.
Qed.

(** X2. The score never exceeds the Checker's own overall quality
    clamped to [0,1], and on a successful review without any finding it
    is that clamped value. *)
Theorem calculateQualityScore_upper (review : CodexReviewResult) :
  QualityAnalyzer.calculateQualityScore review <= clamp01 (overallQuality review)
  /\ (review_status review = status_success ->
      issuesFound review = [] -> securityIssues review = [] ->
      performanceIssues review = [] ->
      QualityAnalyzer.calculateQualityScore review
      == clamp01 (overallQuality review)).
Proof.
  split.
  - destruct (review_status review) eqn:Es.
    + rewrite (calculateQualityScore_success review Es).
      apply clamp01_monotone.
      pose proof (calculatePenalties_nonneg review). lra.
    + unfold QualityAnalyzer.calculateQualityScore. rewrite Es.
      apply clamp01_bounds.
  - intros Es Hi Hs Hp. rewrite (calculateQualityScore_success review Es).
    apply clamp01_compat. rewrite calculatePenalties_weighted, Hi, Hs, Hp.
    simpl. lra.
Qed.

Lemma calculateQualityScore_upper_witness :
  QualityAnalyzer.calculateQualityScore
    (sampleReview status_success [] (12 # 10) []) == 1.
Proof.
  rewrite (proj2 (calculateQualityScore_upper
                    (sampleReview status_success [] (12 # 10) []))
             eq_refl eq_refl eq_refl eq_refl).
  vm_compute. reflexivity.
Defined.

(** X3. The weighted overall score of [calculateMetrics] lies in [0,1],
    and it is 1 for a review without issues. *)
Theorem calculateMetrics_overall_bounds (review : CodexReviewResult) :
  0 <= overallScore (QualityAnalyzer.calculateMetrics review) <= 1
  /\ (issuesFound review = [] ->
      overallScore (QualityAnalyzer.calculateMetrics review) == 1).
Proof.
  split.
  - unfold QualityAnalyzer.calculateMetrics. simpl.
    pose proof (calculateCategoryScore_bounds
                  (filter (QualityAnalyzer.ofType security) (issuesFound review))).
    pose proof (calculateCategoryScore_bounds
                  (filter (QualityAnalyzer.ofType performance) (issuesFound review))).
    pose proof (calculateCategoryScore_bounds
                  (filter (QualityAnalyzer.ofType type_safety) (issuesFound review))).
    pose proof (calculateCategoryScore_bounds
                  (filter (QualityAnalyzer.ofType code_quality) (issuesFound review))).
    pose proof (calculateCategoryScore_bounds
                  (filter (QualityAnalyzer.ofType best_practice) (issuesFound review))).
    lra.
  - intros H. unfold QualityAnalyzer.calculateMetrics. rewrite H.
    vm_compute. reflexivity.
Qed.

Lemma calculateMetrics_overall_bounds_witness :
  overallScore (QualityAnalyzer.calculateMetrics
                  (sampleReview status_success [] (9 # 10) [])) == 1.
Proof.
  apply (calculateMetrics_overall_bounds
           (sampleReview status_success [] (9 # 10) [])).
  reflexivity.
Defined.

(** X4. [getQualityGrade] is monotone: a higher score never gets a worse
    grade. *)
Theorem getQualityGrade_monotone (s1 s2 : Q) :
  s1 <= s2 ->
  (gradeRank (grade (QualityAnalyzer.getQualityGrade s1))
   <= gradeRank (grade (QualityAnalyzer.getQualityGrade s2)))%nat.
Proof.
  intros H. unfold QualityAnalyzer.getQualityGrade.
  repeat match goal with
         | |- context [Qgeb ?a ?b] =>
             let E := fresh "E" in
             destruct (Qgeb a b) eqn:E;
             [apply Qgeb_true in E | apply Qgeb_false in E]
         end;
    simpl; try (vm_compute; lia); exfalso; lra.
Qed.

Lemma getQualityGrade_monotone_witness :
  (gradeRank (grade (QualityAnalyzer.getQualityGrade (7 # 10)))
   <= gradeRank (grade (QualityAnalyzer.getQualityGrade (92 # 100))))%nat.
Proof.
  apply (getQualityGrade_monotone (7 # 10) (92 # 100)).
  vm_compute. discriminate.
Defined.

(** ** QualityAnalyzer: isImproving *)

Lemma slice_from_map {A B : Type} (f : A -> B) (n : Z) (l : list A) :
  slice_from n (map f l) = map f (slice_from n l).
Proof. unfold slice_from. rewrite length_map, skipn_map. reflexivity. Qed.

Lemma slice_from_window {A : Type} (n : Z) (l : list A) :
  (0 < n)%Z ->
  List.length (slice_from (- n) l) = Nat.min (List.length l) (Z.to_nat n).
Proof.
  intros Hn. unfold slice_from.
  assert (E : (- n <? 0)%Z = true) by (apply Z.ltb_lt; lia).
  rewrite E, length_skipn. lia.
Qed.

Lemma countImprovements_none (rest : list IterationRecord) (prev : option Q) :
  QualityAnalyzer.countImprovements prev
    (map (fun _ : IterationRecord => @None Q) rest) = O.
Proof.
  revert prev. induction rest as [|r tl IH]; intros prev; simpl; [reflexivity|].
  rewrite IH. reflexivity.
Qed.

(** Records read through a property they do not have: from the second
    record on there is never an improvement. *)
Lemma isImproving_without_scores (records : list IterationRecord) :
  QualityAnalyzer.isImproving (map (fun _ : IterationRecord => @None Q) records)
  = (List.length records <? 2)%nat.
Proof.
  unfold QualityAnalyzer.isImproving. rewrite length_map.
  destruct (List.length records <? 2)%nat eqn:E; [reflexivity|].
  apply Nat.ltb_ge in E.
  rewrite slice_from_map.
  pose proof (slice_from_window 3 records ltac:(lia)) as Hw.
  cbn [Z.opp] in Hw.
  destruct (slice_from (-3) records) as [|r0 [|r1 tl]]; simpl in Hw; try lia.
  change (map (fun _ : IterationRecord => @None Q) (r0 :: r1 :: tl))
    with (@None Q :: map (fun _ : IterationRecord => @None Q) (r1 :: tl)).
  cbv iota. rewrite countImprovements_none.
  apply Nat.leb_gt. cbn [List.length].
  apply Nat.div_str_pos. lia.
Qed.

(** X5. [isImproving] answers true on fewer than two entries. On two or
    more entries with scores it looks at the last three only: when they
    rise strictly the answer is true, when they never rise it is
    false. *)
Theorem isImproving_window (scores : list Q) :
  ((List.length scores < 2)%nat ->
   QualityAnalyzer.isImproving (map Some scores) = true)
  /\ ((2 <= List.length scores)%nat ->
      adjacent Qlt (slice_from (-3) scores) ->
      QualityAnalyzer.isImproving (map Some scores) = true)
  /\ ((2 <= List.length scores)%nat ->
      adjacent (fun a b => b <= a) (slice_from (-3) scores) ->
      QualityAnalyzer.isImproving (map Some scores) = false).
Proof.
  unfold QualityAnalyzer.isImproving. rewrite length_map, slice_from_map.
  split; [|split].
  - intros H. apply Nat.ltb_lt in H. rewrite H. reflexivity.
  - intros H Hadj. apply Nat.ltb_ge in H. rewrite H.
    pose proof (slice_from_window 3 scores ltac:(lia)) as Hw.
    cbn [Z.opp] in Hw.
    apply Nat.ltb_ge in H.
    destruct (slice_from (-3) scores) as [|a [|b [|c [|d tl]]]];
      simpl in Hw; try lia; simpl in Hadj; simpl.
    + destruct Hadj as [Hab _]. apply Qgtb_true in Hab. rewrite Hab. reflexivity.
    + destruct Hadj as [Hab [Hbc _]].
      apply Qgtb_true in Hab. apply Qgtb_true in Hbc. rewrite Hab, Hbc.
      reflexivity.
  - intros H Hadj. apply Nat.ltb_ge in H. rewrite H.
    pose proof (slice_from_window 3 scores ltac:(lia)) as Hw.
    cbn [Z.opp] in Hw.
    apply Nat.ltb_ge in H.
    destruct (slice_from (-3) scores) as [|a [|b [|c [|d tl]]]];
      simpl in Hw; try lia; simpl in Hadj; simpl.
    + destruct Hadj as [Hab _]. apply Qgtb_false in Hab. rewrite Hab. reflexivity.
    + destruct Hadj as [Hab [Hbc _]].
      apply Qgtb_false in Hab. apply Qgtb_false in Hbc. rewrite Hab, Hbc.
      reflexivity.
Qed.

Lemma isImproving_window_witness :
  QualityAnalyzer.isImproving
    (map Some [9 # 10; 5 # 10; 6 # 10; 7 # 10]) = true
  /\ QualityAnalyzer.isImproving
       (map Some [5 # 10; 6 # 10; 6 # 10; 6 # 10]) = false.
Proof.
  split.
  - apply (isImproving_window [9 # 10; 5 # 10; 6 # 10; 7 # 10]).
    + simpl. lia.
    + vm_compute. auto.
  - apply (isImproving_window [5 # 10; 6 # 10; 6 # 10; 6 # 10]).
    + simpl. lia.
    + vm_compute. intuition discriminate.
Defined.

(** ** MergeDecider: what an approval implies *)

(** X6. An approving decision always has the quality score at or above
    the quality threshold and a CI status of success. *)
Theorem shouldMerge_requires_quality_and_ci
    (config : MakerCheckerConfig) (state : IterationState)
    (review : CodexReviewResult) (ci : CIStatus) :
  decision_shouldMerge (MergeDecider.shouldMerge config state review ci) = true ->
  qualityThreshold config <= qualityScore state /\ ci = ci_success.
Proof.
  intros H. rewrite decision_shouldMerge_eq in H. cbv zeta in H.
  destruct (Qgeb (qualityScore state) (qualityThreshold config)) eqn:Eq.
  - split; [apply Qgeb_true, Eq|].
    destruct ci; try reflexivity; simpl in H;
      rewrite ?andb_false_r in H; simpl in H;
      rewrite ?andb_false_r in H; discriminate.
  - rewrite ?andb_false_r in H. simpl in H. discriminate.
Qed.

Lemma shouldMerge_requires_quality_and_ci_witness :
  qualityThreshold autoMergeConfig <= qualityScore (sampleState 1 (95 # 100) 1)
  /\ ci_success = ci_success.
Proof.
  apply (shouldMerge_requires_quality_and_ci autoMergeConfig
           (sampleState 1 (95 # 100) 1)
           (sampleReview status_success [] (95 # 100) []) ci_success).
  vm_compute. reflexivity.
Defined.

(** What a decision that requires no human approval has checked. *)
Lemma auto_merge_conditions
    (config : MakerCheckerConfig) (state : IterationState)
    (review : CodexReviewResult) (ci : CIStatus) :
  decision_requiresHumanApproval
    (MergeDecider.shouldMerge config state review ci) = false ->
  decision_shouldMerge (MergeDecider.shouldMerge config state review ci) = true
  /\ autoMergeEnabled config = true
  /\ qualityThreshold config <= qualityScore state
  /\ autoMergeThreshold config <= qualityScore state
  /\ totalCost state < maxCostPerPR config
  /\ filter MergeDecider.isBlocking (issuesFound review) = []
  /\ ci = ci_success
  /\ MergeDecider.requiresHumanApproval config state review
       (Qgeb (qualityScore state) (qualityThreshold config)) ci = false.
Proof.
  rewrite decision_shouldMerge_eq.
  unfold MergeDecider.shouldMerge. cbn [decision_requiresHumanApproval].
  intros H. apply orb_false_iff in H. destruct H as [Hr Hc].
  apply negb_false_iff in Hc.
  destruct (filter MergeDecider.isBlocking (issuesFound review)) as [|b bl];
    [|simpl in Hc; rewrite ?andb_false_r in Hc; simpl in Hc; discriminate].
  simpl in Hc.
  apply andb_true_iff in Hc. destruct Hc as [Hc Hcost].
  apply andb_true_iff in Hc. destruct Hc as [Hc Hci].
  apply andb_true_iff in Hc. destruct Hc as [Hc _].
  apply andb_true_iff in Hc. destruct Hc as [Hc Hauto].
  apply andb_true_iff in Hc. destruct Hc as [Henabled Hq].
  cbv zeta. simpl. rewrite Henabled, Hq, Hauto, Hci, Hcost.
  repeat split; auto.
  - apply Qgeb_true. exact Hq.
  - apply Qgeb_true. exact Hauto.
  - apply Qgeb_false. apply negb_true_iff. exact Hcost.
  - destruct ci; try reflexivity; discriminate.
Qed.

(** X7. A decision says that no human approval is required only on the
    auto-merge path: it then approves, auto-merge is enabled, the score
    reaches the auto-merge threshold, the cost is below the cap and no
    human-approval rule fires; and the recommended action is the
    auto-merge one exactly for those decisions. *)
Theorem no_human_approval_is_auto_merge
    (config : MakerCheckerConfig) (state : IterationState)
    (review : CodexReviewResult) (ci : CIStatus) :
  let d := MergeDecider.shouldMerge config state review ci in
  (decision_requiresHumanApproval d = false ->
   decision_shouldMerge d = true
   /\ autoMergeEnabled config = true
   /\ autoMergeThreshold config <= qualityScore state
   /\ totalCost state < maxCostPerPR config
   /\ blockingIssues d = []
   /\ MergeDecider.requiresHumanApproval config state review
        (Qgeb (qualityScore state) (qualityThreshold config)) ci = false)
  /\ (MergeDecider.getRecommendedAction d state
      = "✅ **Action**: Auto-merging (quality gates passed)"%string
      <-> decision_requiresHumanApproval d = false).
Proof.
  intros d. split.
  - intros H. subst d.
    destruct (auto_merge_conditions config state review ci H)
      as (Hm & He & _ & Ha & Hc & Hb & _ & Hr).
    rewrite blockingIssues_filter. repeat split; assumption.
  - unfold MergeDecider.getRecommendedAction. split.
    + intros H.
      destruct (decision_requiresHumanApproval d); [|reflexivity].
      exfalso. rewrite andb_false_r in H. simpl in H.
      repeat match type of H with
             | (if ?b then _ else _) = _ => destruct b
             end; discriminate.
    + intros H. subst d.
      destruct (auto_merge_conditions config state review ci H) as [Hm _].
      rewrite Hm, H. reflexivity.
Qed.

Lemma no_human_approval_is_auto_merge_witness :
  MergeDecider.getRecommendedAction
    (MergeDecider.shouldMerge autoMergeConfig (sampleState 1 (95 # 100) 1)
       (sampleReview status_success [] (95 # 100) []) ci_success)
    (sampleState 1 (95 # 100) 1)
  = "✅ **Action**: Auto-merging (quality gates passed)"%string.
Proof.
  apply (no_human_approval_is_auto_merge autoMergeConfig
           (sampleState 1 (95 # 100) 1)
           (sampleReview status_success [] (95 # 100) []) ci_success).
  vm_compute. reflexivity.
Defined.

(** ** Estimates by rounding up *)





(** ** IterationLimiter: budget, projection, suspicious patterns *)

(** X9. The remaining iterations are never negative, are 0 exactly when
    the maximum has been reached, and are at least 1 whenever
    [canStartIteration] allows an iteration; with a positive maximum and
    a counter within it the progress lies between 0 and 100 percent. *)
Theorem iteration_budget (config : MakerCheckerConfig) (state : IterationState) :
  (0 <= IterationLimiter.getIterationsRemaining state)%Z
  /\ (IterationLimiter.getIterationsRemaining state = 0%Z
      <-> StateManager.hasReachedMaxIterations state = true)
  /\ (allowed (IterationLimiter.canStartIteration config state) = true ->
      (1 <= IterationLimiter.getIterationsRemaining state)%Z)
  /\ ((0 < maxIterations state)%Z ->
      (0 <= currentIteration state <= maxIterations state)%Z ->
      0 <= IterationLimiter.getProgressPercentage state <= 100).
Proof.
  unfold IterationLimiter.getIterationsRemaining,
    StateManager.hasReachedMaxIterations.
  split; [lia|]. split; [|split].
  - rewrite Z.geb_le. lia.
  - unfold IterationLimiter.canStartIteration.
    destruct (currentIteration state >=? maxIterations state)%Z eqn:E;
      [discriminate|].
    intros _. rewrite Z.geb_leb in E. apply Z.leb_gt in E. lia.
  - intros Hmax [H0 H1]. unfold IterationLimiter.getProgressPercentage.
    assert (Hm : 0 < inject_Z (maxIterations state)).
    { change 0 with (inject_Z 0). rewrite <- Zlt_Qlt. exact Hmax. }
    assert (Hc0 : 0 <= inject_Z (currentIteration state)).
    { change 0 with (inject_Z 0). rewrite <- Zle_Qle. exact H0. }
    assert (Hc1 : inject_Z (currentIteration state)
                  <= inject_Z (maxIterations state)).
    { rewrite <- Zle_Qle. exact H1. }
    assert (Hd0 : 0 <= inject_Z (currentIteration state)
                       / inject_Z (maxIterations state)).
    { apply Qle_shift_div_l; [exact Hm | lra]. }
    assert (Hd1 : inject_Z (currentIteration state)
                  / inject_Z (maxIterations state) <= 1).
    { apply Qle_shift_div_r; [exact Hm | lra]. }
    lra.
Qed.

Lemma iteration_budget_witness :
  (1 <= IterationLimiter.getIterationsRemaining (sampleState 2 (7 # 10) 1))%Z
  /\ IterationLimiter.getProgressPercentage (sampleState 2 (7 # 10) 1) <= 100.
Proof.
  destruct (iteration_budget MakerCheckerOrchestrator.getDefaultConfig
              (sampleState 2 (7 # 10) 1)) as (_ & _ & Hallowed & Hprogress).
  split.
  - apply Hallowed. reflexivity.
  - apply Hprogress; simpl; lia.
Defined.





Lemma in_pushIf (guard : bool) (l : list string) (r x : string) :
  In x (MergeDecider.pushIf guard l r) <-> In x l \/ (guard = true /\ x = r).
Proof.
  unfold MergeDecider.pushIf. destruct guard.
  - rewrite in_app_iff. simpl. intuition.
  - intuition discriminate.
Qed.

Lemma in_pushIf_guarded (c guard : bool) (l : list string) (r x : string) :
  In x (if c then MergeDecider.pushIf guard l r else l)
  <-> In x l \/ (c = true /\ guard = true /\ x = r).
Proof.
  destruct c; [rewrite in_pushIf; intuition | intuition discriminate].
Qed.

Lemma stagnation_guard (l : list Z) :
  List.length l = 3%nat ->
  (forallb (fun count => (count =? nth 0 l 0)%Z) l && (nth 0 l 0 >? 0)%Z = true
   <-> exists n : Z, (0 < n)%Z /\ l = [n; n; n]).
Proof.
  destruct l as [|a [|b [|c [|d tl]]]]; intros H; try discriminate H.
  cbn [forallb nth].
  rewrite !andb_true_iff, !Z.eqb_eq, Z.gtb_ltb, Z.ltb_lt. split.
  - intros [(_ & Hb & Hc & _) Hpos]. exists a. subst. auto.
  - intros (n & Hpos & E). injection E as -> -> ->. auto.
Qed.

Lemma countOscillations_nondecreasing (l : list Q) : forall a : Q,
  adjacentFrom (fun x y => x <= y) a l ->
  IterationLimiter.countOscillations (a :: l) = O.
Proof.
  induction l as [|b l' IH]; intros a H; [reflexivity|].
  destruct H as [Hab Hrest].
  destruct l' as [|c l'']; [reflexivity|].
  change (IterationLimiter.countOscillations (a :: b :: c :: l''))
    with (((if (Qgtb b a && Qgtb b c) || (Qltb b a && Qltb b c) then 1 else 0)
           + IterationLimiter.countOscillations (b :: c :: l''))%nat).
  rewrite (IH b Hrest). destruct Hrest as [Hbc _].
  assert (E1 : Qgtb b c = false) by (apply Qgtb_false; exact Hbc).
  assert (E2 : Qltb b a = false) by (apply Qltb_false; exact Hab).
  rewrite E1, E2, andb_false_r. reflexivity.
Qed.

Lemma countOscillations_nonincreasing (l : list Q) : forall a : Q,
  adjacentFrom (fun x y => y <= x) a l ->
  IterationLimiter.countOscillations (a :: l) = O.
Proof.
  induction l as [|b l' IH]; intros a H; [reflexivity|].
  destruct H as [Hab Hrest].
  destruct l' as [|c l'']; [reflexivity|].
  change (IterationLimiter.countOscillations (a :: b :: c :: l''))
    with (((if (Qgtb b a && Qgtb b c) || (Qltb b a && Qltb b c) then 1 else 0)
           + IterationLimiter.countOscillations (b :: c :: l''))%nat).
  rewrite (IH b Hrest). destruct Hrest as [Hbc _].
  assert (E1 : Qgtb b a = false) by (apply Qgtb_false; exact Hab).
  assert (E2 : Qltb b c = false) by (apply Qltb_false; exact Hbc).
  rewrite E1, E2, andb_false_r. reflexivity.
Qed.

Lemma countOscillations_monotone (l : list Q) :
  adjacent (fun x y => x <= y) l \/ adjacent (fun x y => y <= x) l ->
  IterationLimiter.countOscillations l = O.
Proof.
  destruct l as [|a tl]; [reflexivity|]. simpl adjacent.
  intros [H|H];
    [apply countOscillations_nondecreasing | apply countOscillations_nonincreasing];
    exact H.
Qed.

(** X11. [detectSuspiciousPatterns] warns of nothing on fewer than three
    records. It gives the stagnation warning exactly when the last three
    records report the same positive number of issues, and it never gives
    the oscillation warning when the last four qualities are monotone. *)
Theorem detectSuspiciousPatterns_spec
    (getTime : string -> Q) (state : IterationState) :
  let r := IterationLimiter.detectSuspiciousPatterns getTime state in
  ((List.length (history state) < 3)%nat ->
   warnings r = [] /\ suspicious r = false)
  /\ (In stagnationWarning (warnings r)
      <-> (3 <= List.length (history state))%nat
          /\ exists n : Z,
               (0 < n)%Z
               /\ map record_issuesFound (slice_from (-3) (history state))
                  = [n; n; n])
  /\ (adjacent (fun x y => x <= y)
        (map ConvergenceDetector.qualityOf (slice_from (-4) (history state)))
      \/ adjacent (fun x y => y <= x)
           (map ConvergenceDetector.qualityOf (slice_from (-4) (history state))) ->
      ~ In oscillationWarning (warnings r)).
Proof.
  intros r. subst r. unfold IterationLimiter.detectSuspiciousPatterns.
  cbv zeta. cbn [warnings suspicious].
  split; [|split].
  - intros H.
    assert (E3 : (3 <=? List.length (history state))%nat = false)
      by (apply Nat.leb_gt; lia).
    assert (E4 : (4 <=? List.length (history state))%nat = false)
      by (apply Nat.leb_gt; lia).
    assert (E5 : (5 <=? List.length (history state))%nat = false)
      by (apply Nat.leb_gt; lia).
    rewrite E3, E4, E5. split; reflexivity.
  - rewrite !in_pushIf_guarded. unfold stagnationWarning. split.
    + intros [[[[]|(H3 & Hg & _)]|(_ & _ & Hs)]|(_ & _ & Hs)];
        try discriminate Hs.
      apply Nat.leb_le in H3. split; [exact H3|].
      apply stagnation_guard in Hg; [exact Hg|].
      rewrite length_map.
      pose proof (slice_from_window 3 (history state) ltac:(lia)) as Hw.
      cbn [Z.opp] in Hw. rewrite Hw. lia.
    + intros (H3 & Hn). left. left. right.
      split; [apply Nat.leb_le; exact H3|]. split; [|reflexivity].
      apply stagnation_guard; [|exact Hn].
      rewrite length_map.
      pose proof (slice_from_window 3 (history state) ltac:(lia)) as Hw.
      cbn [Z.opp] in Hw. rewrite Hw. lia.
  - intros Hmono Hin. apply countOscillations_monotone in Hmono.
    rewrite !in_pushIf_guarded in Hin. unfold oscillationWarning in Hin.
    destruct Hin as [[[[]|(_ & _ & Hs)]|(_ & Hg & _)]|(_ & _ & Hs)];
      try discriminate Hs.
    rewrite Hmono in Hg. discriminate Hg.
Qed.

Lemma detectSuspiciousPatterns_spec_witness :
  In stagnationWarning
    (warnings (IterationLimiter.detectSuspiciousPatterns (fun _ => 0)
                 suspiciousSample))
  /\ warnings (IterationLimiter.detectSuspiciousPatterns (fun _ => 0)
                 (sampleState 1 (7 # 10) 1)) = [].
Proof.
  split.
  - apply (detectSuspiciousPatterns_spec (fun _ => 0) suspiciousSample).
    split; [simpl; lia|]. exists 8%Z. split; [lia | reflexivity].
  - apply (detectSuspiciousPatterns_spec (fun _ => 0) (sampleState 1 (7 # 10) 1)).
    simpl. lia.
Defined.

(** ** QualityGates and SecurityChecker *)

Lemma pushIf_length_zero (guard : bool) (l : list string) (r : string) :
  (List.length (MergeDecider.pushIf guard l r) =? 0)%nat
  = negb guard && (List.length l =? 0)%nat.
Proof.
  unfold MergeDecider.pushIf. destruct guard; [|reflexivity].
  rewrite length_app. simpl.
  apply Nat.eqb_neq. lia.
Qed.

Lemma filter_none {A : Type} (p : A -> bool) (l : list A) :
  (0 <? List.length (filter p l))%nat = false
  <-> forall x, In x l -> p x = false.
Proof.
  induction l as [|a tl IH]; simpl.
  - split; [intros _ x [] | reflexivity].
  - destruct (p a) eqn:Ea; simpl.
    + split; [discriminate|]. intros H. specialize (H a (or_introl eq_refl)).
      congruence.
    + rewrite IH. split.
      * intros H x [<-|Hx]; auto.
      * intros H x Hx. apply H. right. exact Hx.
Qed.

Lemma isCriticalOrHigh_false (issue : SecurityIssue) :
  QualityGates.isCriticalOrHigh issue = false
  <-> sec_severity issue <> sec_critical /\ sec_severity issue <> sec_high.
Proof.
  unfold QualityGates.isCriticalOrHigh.
  destruct (sec_severity issue); simpl; intuition congruence.
Qed.

Lemma isError_false (issue : Issue) :
  QualityGates.isError issue = false <-> issue_severity issue <> sev_error.
Proof.
  unfold QualityGates.isError.
  destruct (issue_severity issue); simpl; intuition congruence.
Qed.

(** The five gates of [checkGates], read off its pushes. *)
Lemma checkGates_passed_bool
    (config : MakerCheckerConfig) (review : CodexReviewResult)
    (metrics : QualityMetrics) (ci : CIStatus) :
  passed (QualityGates.checkGates config review metrics ci)
  = CIStatus_beq ci ci_success
    && (negb (0 <? List.length (filter QualityGates.isError
                                  (issuesFound review)))%nat
        && (negb (Qltb (metric_security metrics) (7 # 10))
            && (negb (0 <? List.length
                             (filter QualityGates.isCriticalOrHigh
                                (securityIssues review)))%nat
                && negb (Qltb (overallScore metrics)
                           (qualityThreshold config))))).
Proof.
  unfold QualityGates.checkGates. cbv zeta. cbn [passed].
  rewrite !pushIf_length_zero. cbn [List.length Nat.eqb].
  rewrite negb_involutive, andb_true_r. reflexivity.
Qed.

(** X12. [checkGates] passes exactly when all five gates hold: overall
    score at or above the quality threshold, no critical or high
    security issue, security score at least 0.70, no error-severity
    issue, CI success. The advisory warnings play no part. *)
Theorem checkGates_passed
    (config : MakerCheckerConfig) (review : CodexReviewResult)
    (metrics : QualityMetrics) (ci : CIStatus) :
  passed (QualityGates.checkGates config review metrics ci) = true
  <-> qualityThreshold config <= overallScore metrics
      /\ (forall s, In s (securityIssues review) ->
            sec_severity s <> sec_critical /\ sec_severity s <> sec_high)
      /\ 7 # 10 <= metric_security metrics
      /\ (forall i, In i (issuesFound review) -> issue_severity i <> sev_error)
      /\ ci = ci_success.
Proof.
  rewrite checkGates_passed_bool.
  rewrite !andb_true_iff, !negb_true_iff.
  rewrite !Qltb_false, !filter_none.
  split.
  - intros (Hci & He & Hs & Hsec & Hq).
    repeat split; auto.
    + apply isCriticalOrHigh_false, Hsec, H.
    + apply isCriticalOrHigh_false, Hsec, H.
    + intros i Hi. apply isError_false, He, Hi.
    + destruct ci; try reflexivity; discriminate.
  - intros (Hq & Hsec & Hs & He & Hci). subst ci.
    repeat split; auto.
    + intros i Hi. apply isError_false, He, Hi.
    + intros s Hs'. apply isCriticalOrHigh_false, Hsec, Hs'.
Qed.

Lemma checkGates_passed_witness :
  passed (QualityGates.checkGates MakerCheckerOrchestrator.getDefaultConfig
            (sampleReview status_success [sampleIssue code_quality sev_warning]
               (9 # 10) [sampleSecurityIssue sec_low])
            passingMetrics ci_success) = true.
Proof.
  apply (checkGates_passed MakerCheckerOrchestrator.getDefaultConfig
           (sampleReview status_success [sampleIssue code_quality sev_warning]
              (9 # 10) [sampleSecurityIssue sec_low])
           passingMetrics ci_success).
  repeat split; try (vm_compute; discriminate).
  - destruct H as [<-|[]]. discriminate.
  - destruct H as [<-|[]]. discriminate.
  - intros i [<-|[]]. discriminate.
Defined.

(** X13. When the auto-merge threshold is not below the quality
    threshold, whatever [isAutoMergeSafe] accepts also passes
    [checkGates]. *)
Theorem isAutoMergeSafe_passes_gates
    (config : MakerCheckerConfig) (review : CodexReviewResult)
    (metrics : QualityMetrics) (ci : CIStatus) :
  qualityThreshold config <= autoMergeThreshold config ->
  QualityGates.isAutoMergeSafe config review metrics ci = true ->
  passed (QualityGates.checkGates config review metrics ci) = true.
Proof.
  intros Hth H. unfold QualityGates.isAutoMergeSafe in H. cbv zeta in H.
  apply andb_true_iff in H. destruct H as [H Hci].
  apply andb_true_iff in H. destruct H as [H Herr].
  apply andb_true_iff in H. destruct H as [H Hsec].
  apply andb_true_iff in H. destruct H as [Hscore Hms].
  apply Qgeb_true in Hscore. apply Qgeb_true in Hms.
  apply Nat.eqb_eq in Herr. apply Nat.eqb_eq in Hsec.
  rewrite checkGates_passed_bool, Hci, Herr.
  destruct (securityIssues review) as [|s0 rest]; [|discriminate].
  cbn [filter List.length Nat.ltb Nat.leb negb andb].
  rewrite (proj2 (Qltb_false (metric_security metrics) (7 # 10)))
    by lra.
  rewrite (proj2 (Qltb_false (overallScore metrics) (qualityThreshold config)))
    by lra.
  reflexivity.
Qed.

Lemma isAutoMergeSafe_passes_gates_witness :
  passed (QualityGates.checkGates autoMergeConfig
            (sampleReview status_success [] (95 # 100) [])
            {| overallScore := 95 # 100; codeQuality := 1; metric_security := 1;
               metric_performance := 1; typeSafety := 1; bestPractices := 1 |}
            ci_success) = true.
Proof.
  apply (isAutoMergeSafe_passes_gates autoMergeConfig
           (sampleReview status_success [] (95 # 100) [])
           {| overallScore := 95 # 100; codeQuality := 1; metric_security := 1;
              metric_performance := 1; typeSafety := 1; bestPractices := 1 |}
           ci_success).
  - vm_compute. discriminate.
  - vm_compute. reflexivity.
Defined.

Lemma filter_critical_high_length (l : list SecurityIssue) :
  (List.length
     (filter (fun i => SecuritySeverity_beq (sec_severity i) sec_critical) l)
   + List.length
       (filter (fun i => SecuritySeverity_beq (sec_severity i) sec_high) l))%nat
  = List.length (filter QualityGates.isCriticalOrHigh l).
Proof.
  induction l as [|s tl IH]; [reflexivity|].
  simpl.
  change (QualityGates.isCriticalOrHigh s)
    with (SecuritySeverity_beq (sec_severity s) sec_critical
          || SecuritySeverity_beq (sec_severity s) sec_high).
  destruct (sec_severity s); simpl; lia.
Qed.

(** X14. [shouldBlockMerge] holds exactly when some security issue is
    critical or high, that is when [blockingCount] is positive;
    [blockingCount] is the number of critical-or-high issues that
    [checkGates] counts, so no review that the SecurityChecker blocks
    passes the quality gates. *)
Theorem shouldBlockMerge_spec (review : CodexReviewResult) :
  (SecurityChecker.shouldBlockMerge review = true
   <-> exists s, In s (securityIssues review)
                 /\ (sec_severity s = sec_critical \/ sec_severity s = sec_high))
  /\ (SecurityChecker.shouldBlockMerge review = true
      <-> (0 < blockingCount (SecurityChecker.checkSecurity review))%nat)
  /\ blockingCount (SecurityChecker.checkSecurity review)
     = List.length (filter QualityGates.isCriticalOrHigh (securityIssues review))
  /\ (forall (config : MakerCheckerConfig) (metrics : QualityMetrics)
             (ci : CIStatus),
         passed (QualityGates.checkGates config review metrics ci) = true ->
         SecurityChecker.shouldBlockMerge review = false).
Proof.
  assert (Hcount : SecurityChecker.shouldBlockMerge review = true
                   <-> (0 < blockingCount (SecurityChecker.checkSecurity review))%nat).
  { unfold SecurityChecker.shouldBlockMerge, SecurityChecker.checkSecurity.
    cbv zeta. cbn [hasCriticalIssues hasHighIssues blockingCount].
    rewrite orb_true_iff, !Nat.ltb_lt. lia. }
  assert (Hlen : blockingCount (SecurityChecker.checkSecurity review)
                 = List.length (filter QualityGates.isCriticalOrHigh
                                  (securityIssues review))).
  { unfold SecurityChecker.checkSecurity. cbv zeta. cbn [blockingCount].
    apply filter_critical_high_length. }
  assert (Hex : SecurityChecker.shouldBlockMerge review = true
                <-> exists s, In s (securityIssues review)
                              /\ (sec_severity s = sec_critical
                                  \/ sec_severity s = sec_high)).
  { rewrite Hcount, Hlen. split.
    - intros H.
      destruct (filter QualityGates.isCriticalOrHigh (securityIssues review))
        as [|s tl] eqn:E; [simpl in H; lia|].
      assert (Hin : In s (filter QualityGates.isCriticalOrHigh
                            (securityIssues review)))
        by (rewrite E; left; reflexivity).
      apply filter_In in Hin. destruct Hin as [Hin Hp]. exists s.
      split; [exact Hin|].
      unfold QualityGates.isCriticalOrHigh in Hp.
      destruct (sec_severity s); simpl in Hp; auto; discriminate.
    - intros (s & Hin & Hsev).
      assert (Hf : In s (filter QualityGates.isCriticalOrHigh
                           (securityIssues review))).
      { apply filter_In. split; [exact Hin|].
        unfold QualityGates.isCriticalOrHigh.
        destruct Hsev as [-> | ->]; reflexivity. }
      destruct (filter QualityGates.isCriticalOrHigh (securityIssues review));
        [destruct Hf | simpl; lia]. }
  split; [exact Hex|]. split; [exact Hcount|]. split; [exact Hlen|].
  intros config metrics ci Hpass.
  rewrite checkGates_passed_bool in Hpass.
  apply andb_true_iff in Hpass. destruct Hpass as [_ Hpass].
  apply andb_true_iff in Hpass. destruct Hpass as [_ Hpass].
  apply andb_true_iff in Hpass. destruct Hpass as [_ Hpass].
  apply andb_true_iff in Hpass. destruct Hpass as [Hsec _].
  apply negb_true_iff, Nat.ltb_ge in Hsec.
  apply not_true_is_false. intros E.
  apply Hcount in E. rewrite Hlen in E. lia.
Qed.

Lemma shouldBlockMerge_spec_witness :
  SecurityChecker.shouldBlockMerge
    (sampleReview status_success [] (9 # 10)
       [sampleSecurityIssue sec_low; sampleSecurityIssue sec_high]) = true.
Proof.
  apply (proj1 (shouldBlockMerge_spec
                  (sampleReview status_success [] (9 # 10)
                     [sampleSecurityIssue sec_low; sampleSecurityIssue sec_high]))).
  exists (sampleSecurityIssue sec_high). split; [simpl; auto | right; reflexivity].
Defined.

Lemma pushTo_concat (category : string) (issue : SecurityIssue)
    (categories : list (string * list SecurityIssue)) :
  Permutation (List.concat (map snd (SecurityChecker.pushTo category issue categories)))
    (issue :: List.concat (map snd categories)).
Proof.
  induction categories as [|[key issues] rest IH]; simpl.
  - apply Permutation_refl.
  - destruct (String.eqb key category); simpl.
    + rewrite <- app_assoc. simpl. apply Permutation_sym, Permutation_middle.
    + rewrite IH. apply Permutation_sym, Permutation_middle.
Qed.

Lemma pushTo_keys (category : string) (issue : SecurityIssue)
    (categories : list (string * list SecurityIssue)) (key : string) :
  In key (map fst (SecurityChecker.pushTo category issue categories)) ->
  key = category \/ In key (map fst categories).
Proof.
  induction categories as [|[k issues] rest IH]; simpl.
  - intros [H|[]]. left. auto.
  - destruct (String.eqb k category); simpl; intros [H|H]; auto.
    apply IH in H. destruct H; auto.
Qed.

Lemma pushTo_NoDup (category : string) (issue : SecurityIssue)
    (categories : list (string * list SecurityIssue)) :
  NoDup (map fst categories) ->
  NoDup (map fst (SecurityChecker.pushTo category issue categories)).
Proof.
  induction categories as [|[k issues] rest IH]; simpl; intros H.
  - constructor; [intros [] | constructor].
  - inversion H as [|? ? Hnot Hrest]; subst.
    destruct (String.eqb k category) eqn:E; simpl.
    + exact H.
    + constructor; [|apply IH, Hrest].
      intros Hin. apply pushTo_keys in Hin. destruct Hin as [->|Hin].
      * rewrite String.eqb_refl in E. discriminate.
      * contradiction.
Qed.

Lemma pushTo_sorted (issue : SecurityIssue)
    (categories : list (string * list SecurityIssue)) :
  Forall (fun entry => snd entry <> []
                       /\ Forall (fun i => SecurityChecker.categoryOf i = fst entry)
                            (snd entry)) categories ->
  Forall (fun entry => snd entry <> []
                       /\ Forall (fun i => SecurityChecker.categoryOf i = fst entry)
                            (snd entry))
    (SecurityChecker.pushTo (SecurityChecker.categoryOf issue) issue categories).
Proof.
  induction categories as [|[k issues] rest IH]; simpl; intros H.
  - constructor; [|constructor]. simpl. split; [discriminate|].
    constructor; [reflexivity | constructor].
  - inversion H as [|? ? [Hne Hall] Hrest]; subst. simpl in Hne, Hall.
    destruct (String.eqb k (SecurityChecker.categoryOf issue)) eqn:E.
    + apply String.eqb_eq in E. constructor; [|exact Hrest]. simpl. split.
      * destruct issues; discriminate.
      * apply Forall_app. split; [exact Hall|].
        constructor; [symmetry; exact E | constructor].
    + constructor; [split; assumption | apply IH, Hrest].
Qed.

Lemma categorize_invariant (issues : list SecurityIssue) :
  forall acc : list (string * list SecurityIssue),
    NoDup (map fst acc) ->
    Forall (fun entry => snd entry <> []
                         /\ Forall (fun i => SecurityChecker.categoryOf i = fst entry)
                              (snd entry)) acc ->
    let result :=
      fold_left (fun categories issue =>
                   SecurityChecker.pushTo (SecurityChecker.categoryOf issue)
                     issue categories) issues acc in
    Permutation (List.concat (map snd result)) (List.concat (map snd acc) ++ issues)
    /\ NoDup (map fst result)
    /\ Forall (fun entry => snd entry <> []
                            /\ Forall (fun i => SecurityChecker.categoryOf i = fst entry)
                                 (snd entry)) result.
Proof.
  induction issues as [|x tl IH]; intros acc Hnd Hall; simpl.
  - rewrite app_nil_r. auto.
  - destruct (IH (SecurityChecker.pushTo (SecurityChecker.categoryOf x) x acc)
                (pushTo_NoDup _ _ _ Hnd) (pushTo_sorted _ _ Hall))
      as (Hperm & Hnd' & Hall').
    split; [|split; assumption].
    rewrite Hperm, pushTo_concat. simpl. apply Permutation_middle.
Qed.

(** X15. [categorizeSecurityIssues] partitions its input: the categories
    together hold exactly the given issues, every category name occurs
    once, no category is empty, and every issue sits in the first
    category one of whose patterns it matches (['Other'] when none
    does). *)
Theorem categorizeSecurityIssues_partition (issues : list SecurityIssue) :
  let categories := fst (SecurityChecker.categorizeSecurityIssues issues) in
  Permutation (List.concat (map snd categories)) issues
  /\ NoDup (map fst categories)
  /\ (forall category members, In (category, members) categories ->
        members <> []
        /\ forall i, In i members -> SecurityChecker.categoryOf i = category).
Proof.
  intros categories. subst categories.
  unfold SecurityChecker.categorizeSecurityIssues, SecurityChecker.categorize.
  cbn [fst].
  destruct (categorize_invariant issues [] (NoDup_nil _) (Forall_nil _))
    as (Hperm & Hnd & Hall).
  split; [exact Hperm|]. split; [exact Hnd|].
  intros category members Hin.
  rewrite Forall_forall in Hall. specialize (Hall _ Hin).
  destruct Hall as [Hne Hmem]. split; [exact Hne|].
  rewrite Forall_forall in Hmem. exact Hmem.
Qed.

(** ** StateManager: statistics and state files *)

Lemma Qdiv_mult_cancel (x y : Q) : ~ y == 0 -> (x / y) * y == x.
Proof.
  intros Hy. unfold Qdiv.
  rewrite <- Qmult_assoc, (Qmult_comm (/ y)), Qmult_inv_r; [ring | exact Hy].
Qed.




Lemma readFile_writeFile_same {A : Type} (name : string) (content : option A)
    (dir : Directory A) :
  readFile name (writeFile name content dir) = Some content.
Proof.
  induction dir as [|[file old] rest IH]; simpl.
  - rewrite String.eqb_refl. reflexivity.
  - destruct (String.eqb file name) eqn:E; simpl; rewrite E; auto.
Qed.

Lemma readFile_writeFile_other {A : Type} (name other : string)
    (content : option A) (dir : Directory A) :
  other <> name ->
  readFile other (writeFile name content dir) = readFile other dir.
Proof.
  intros Hne. induction dir as [|[file old] rest IH]; simpl.
  - apply String.eqb_neq in Hne. rewrite String.eqb_sym, Hne. reflexivity.
  - destruct (String.eqb file name) eqn:E; simpl.
    + apply String.eqb_eq in E. subst file.
      assert (E' : String.eqb name other = false)
        by (rewrite String.eqb_sym; apply String.eqb_neq; exact Hne).
      rewrite E'. reflexivity.
    + destruct (String.eqb file other); auto.
Qed.

Lemma readFile_unlink {A : Type} (name : string) (dir : Directory A) :
  readFile name (unlink name dir) = None.
Proof.
  induction dir as [|[file old] rest IH]; simpl; [reflexivity|].
  destruct (String.eqb file name) eqn:E; simpl; [exact IH|].
  rewrite E. exact IH.
Qed.

Lemma in_writeFile {A : Type} (name : string) (content : option A)
    (dir : Directory A) :
  In (name, content) (writeFile name content dir).
Proof.
  induction dir as [|[file old] rest IH]; simpl; [auto|].
  destruct (String.eqb file name) eqn:E; simpl; [|auto].
  apply String.eqb_eq in E. subst file. auto.
Qed.

(** X17. State files round-trip: after [saveState], [getState] for the
    same PR number and any repository with the same sanitised name
    returns the saved state; files with another name are not touched;
    and after [deleteState] there is no state to get. *)
Theorem state_file_round_trip
    (dir : Directory IterationState) (state : IterationState) (now : string) :
  let dir' := fst (StateManager.saveStateFile dir state now) in
  let saved := snd (StateManager.saveStateFile dir state now) in
  saved = StateManager.saveState state now
  /\ (forall repo' : string,
         safeRepo repo' = safeRepo (repository state) ->
         StateManager.getState dir' (prNumber state) repo' = Some saved)
  /\ (forall (pr' : Z) (repo' : string),
         StateManager.getStateFileName pr' repo'
         <> StateManager.getStateFileName (prNumber state) (repository state) ->
         StateManager.getState dir' pr' repo' = StateManager.getState dir pr' repo')
  /\ (forall (pr : Z) (repo : string),
         StateManager.getState (StateManager.deleteState dir pr repo) pr repo
         = None).
Proof.
  intros dir' saved. subst dir' saved. unfold StateManager.saveStateFile.
  cbn [fst snd StateManager.saveState prNumber repository].
  split; [reflexivity|]. split; [|split].
  - intros repo' Hsafe. unfold StateManager.getState, StateManager.getStateFileName.
    rewrite Hsafe, readFile_writeFile_same. reflexivity.
  - intros pr' repo' Hne. unfold StateManager.getState.
    rewrite readFile_writeFile_other by exact Hne. reflexivity.
  - intros pr repo. unfold StateManager.getState, StateManager.deleteState.
    destruct (readFile (StateManager.getStateFileName pr repo) dir) eqn:E.
    + rewrite readFile_unlink. reflexivity.
    + rewrite E. reflexivity.
Qed.

Lemma state_file_round_trip_witness :
  StateManager.getState
    (fst (StateManager.saveStateFile [] (sampleState 1 (7 # 10) 1) "t2"))
    42 "acme_widgets"
  = Some (StateManager.saveState (sampleState 1 (7 # 10) 1) "t2").
Proof.
  apply (state_file_round_trip [] (sampleState 1 (7 # 10) 1) "t2").
  reflexivity.
Defined.

Lemma endsWith_refl (s : string) : endsWith s s = true.
Proof.
  destruct s; [reflexivity|]. cbn [endsWith].
  rewrite String.eqb_refl. reflexivity.
Qed.

Lemma endsWith_append (a b suffix : string) :
  endsWith b suffix = true -> endsWith (a ++ b) suffix = true.
Proof.
  intros H. induction a as [|c a IH]; [exact H|].
  simpl. rewrite IH. apply orb_true_r.
Qed.

Lemma getStateFileName_json (pr : Z) (repo : string) :
  endsWith (StateManager.getStateFileName pr repo) ".json" = true.
Proof.
  unfold StateManager.getStateFileName.
  repeat apply endsWith_append. apply endsWith_refl.
Qed.

Lemma listActiveStates_in (dir : Directory IterationState) (state : IterationState) :
  In state (StateManager.listActiveStates dir)
  <-> exists file, In (file, Some state) dir
                   /\ endsWith file ".json" = true
                   /\ isActivePhase (currentPhase state) = true.
Proof.
  induction dir as [|[file content] rest IH].
  - simpl. split; [intros [] | intros (f & [] & _)].
  - cbn [StateManager.listActiveStates].
    destruct (endsWith file ".json") eqn:Ej.
    + destruct content as [s|].
      * destruct (isActivePhase (currentPhase s)) eqn:Ea.
        -- simpl. rewrite IH. split.
           ++ intros [<-|(f & Hin & Hj & Ha)].
              ** exists file. auto.
              ** exists f. auto.
           ++ intros (f & [Heq|Hin] & Hj & Ha).
              ** injection Heq as <- <-. auto.
              ** right. exists f. auto.
        -- rewrite IH. split.
           ++ intros (f & Hin & Hj & Ha). exists f. simpl. auto.
           ++ intros (f & [Heq|Hin] & Hj & Ha).
              ** injection Heq as <- <-. congruence.
              ** exists f. auto.
      * rewrite IH. split.
        -- intros (f & Hin & Hj & Ha). exists f. simpl. auto.
        -- intros (f & [Heq|Hin] & Hj & Ha); [discriminate|]. exists f. auto.
    + rewrite IH. split.
      * intros (f & Hin & Hj & Ha). exists f. simpl. auto.
      * intros (f & [Heq|Hin] & Hj & Ha).
        -- injection Heq as <- _. congruence.
        -- exists f. auto.
Qed.

(** X18. [listActiveStates] never lists a state whose phase is complete
    or failed, and a state just saved is listed exactly when its phase is
    neither. *)
Theorem listActiveStates_saved
    (dir : Directory IterationState) (state : IterationState) (now : string) :
  (forall s, In s (StateManager.listActiveStates dir) ->
     currentPhase s <> complete /\ currentPhase s <> failed)
  /\ (In (snd (StateManager.saveStateFile dir state now))
        (StateManager.listActiveStates
           (fst (StateManager.saveStateFile dir state now)))
      <-> currentPhase state <> complete /\ currentPhase state <> failed).
Proof.
  assert (Hactive : forall p, isActivePhase p = true <-> p <> complete /\ p <> failed).
  { intros p. unfold isActivePhase. destruct p; simpl; intuition congruence. }
  split.
  - intros s Hin. apply listActiveStates_in in Hin.
    destruct Hin as (f & _ & _ & Ha). apply Hactive, Ha.
  - rewrite listActiveStates_in. unfold StateManager.saveStateFile.
    cbn [fst snd]. split.
    + intros (f & _ & _ & Ha). apply Hactive in Ha. exact Ha.
    + intros Hp. eexists. split; [apply in_writeFile|].
      split; [apply getStateFileName_json|].
      apply Hactive. exact Hp.
Qed.

(** ** CostTracker *)

Lemma orElse_zero (x : Q) : orElse (Some x) 0 == x.
Proof.
  unfold orElse, truthy. destruct (Qeq_bool x 0) eqn:E; simpl; [|reflexivity].
  apply Qeq_bool_iff in E. rewrite E. reflexivity.
Qed.

Section CostTrackerFacts.

Variable monthKey : string -> string.

Lemma readLog_appendLine_same (logFile : string) (line : option CostTracking)
    (logs : list (string * list (option CostTracking))) :
  CostTracker.readLog logFile (CostTracker.appendLine logFile line logs)
  = Some (match CostTracker.readLog logFile logs with
          | Some lines => lines ++ [line]
          | None => [line]
          end).
Proof.
  induction logs as [|[file lines] rest IH]; simpl.
  - rewrite String.eqb_refl. reflexivity.
  - destruct (String.eqb file logFile) eqn:E; simpl; rewrite E; auto.
Qed.

Lemma readLog_appendLine_other (logFile other : string)
    (line : option CostTracking)
    (logs : list (string * list (option CostTracking))) :
  other <> logFile ->
  CostTracker.readLog other (CostTracker.appendLine logFile line logs)
  = CostTracker.readLog other logs.
Proof.
  intros Hne. induction logs as [|[file lines] rest IH]; simpl.
  - apply String.eqb_neq in Hne. rewrite String.eqb_sym, Hne. reflexivity.
  - destruct (String.eqb file logFile) eqn:E; simpl.
    + apply String.eqb_eq in E. subst file.
      assert (E' : String.eqb logFile other = false)
        by (rewrite String.eqb_sym; apply String.eqb_neq; exact Hne).
      rewrite E'. reflexivity.
    + destruct (String.eqb file other); auto.
Qed.

(** X19. [recordCost] adds the cost of the two agents to the PR's total
    and to the total of the current month, and leaves the totals of PRs
    kept in other files and of other months as they were. *)
Theorem recordCost_accumulates
    (files : CostFiles) (prNumber : Z) (repository : string)
    (claudeCost codexCost : Q) (now : string) :
  let files' :=
    CostTracker.recordCost monthKey files prNumber repository
      claudeCost codexCost now in
  CostTracker.getPRCost files' prNumber repository
  == CostTracker.getPRCost files prNumber repository + (claudeCost + codexCost)
  /\ CostTracker.getMonthlyCost monthKey files' now
     = CostTracker.getMonthlyCost monthKey files now + (claudeCost + codexCost)
  /\ (forall (pr' : Z) (repo' : string),
         CostTracker.getPRTrackingPath pr' repo'
         <> CostTracker.getPRTrackingPath prNumber repository ->
         CostTracker.getPRCost files' pr' repo'
         = CostTracker.getPRCost files pr' repo')
  /\ (forall t : string,
         monthKey t <> monthKey now ->
         CostTracker.getMonthlyCost monthKey files' t
         = CostTracker.getMonthlyCost monthKey files t).
Proof.
  intros files'. subst files'.
  unfold CostTracker.recordCost, CostTracker.updatePRTracking,
    CostTracker.appendToDailyLog. cbv zeta.
  cbn [prFiles monthlyLogs ct_prNumber ct_repository ct_totalCost ct_timestamp].
  split; [|split; [|split]].
  - unfold CostTracker.getPRCost, CostTracker.getPRTracking. cbn [prFiles].
    rewrite readFile_writeFile_same.
    destruct (readFile (CostTracker.getPRTrackingPath prNumber repository)
                (prFiles files)) as [[existing|]|];
      cbn [option_map ct_totalCost]; rewrite !orElse_zero; simpl; lra.
  - unfold CostTracker.getMonthlyCost. cbn [monthlyLogs].
    rewrite readLog_appendLine_same.
    destruct (CostTracker.readLog (monthKey now) (monthlyLogs files)).
    + rewrite fold_left_app. reflexivity.
    + reflexivity.
  - intros pr' repo' Hne.
    unfold CostTracker.getPRCost, CostTracker.getPRTracking. cbn [prFiles].
    rewrite readFile_writeFile_other by exact Hne. reflexivity.
  - intros t Hne. unfold CostTracker.getMonthlyCost. cbn [monthlyLogs].
    rewrite readLog_appendLine_other by exact Hne. reflexivity.
Qed.

(** X20. With a positive monthly cap, [checkMonthlyLimit] reports
    exceeded exactly when the month's cost has reached the cap and a
    warning exactly when it has reached 75 percent of the cap; so an
    exceeded cap always carries the warning. *)
Theorem checkMonthlyLimit_spec
    (config : MakerCheckerConfig) (files : CostFiles) (now : string) :
  0 < monthlyCostCap config ->
  let r := CostTracker.checkMonthlyLimit monthKey config files now in
  (exceeded r = true
   <-> monthlyCostCap config <= CostTracker.getMonthlyCost monthKey files now)
  /\ (limit_warning r = true
      <-> (75 # 100) * monthlyCostCap config
          <= CostTracker.getMonthlyCost monthKey files now)
  /\ (exceeded r = true -> limit_warning r = true).
Proof.
  intros Hcap r. subst r. unfold CostTracker.checkMonthlyLimit. cbv zeta.
  cbn [exceeded limit_warning].
  set (m := CostTracker.getMonthlyCost monthKey files now).
  assert (Hpct : (m / monthlyCostCap config) * monthlyCostCap config == m)
    by (apply Qdiv_mult_cancel; lra).
  assert (Hw : Qgeb (m / monthlyCostCap config * 100) 75 = true
               <-> (75 # 100) * monthlyCostCap config <= m).
  { rewrite Qgeb_true. split; intros H.
    - rewrite <- Hpct.
      assert (H' : 75 # 100 <= m / monthlyCostCap config) by lra.
      rewrite (Qmult_comm (75 # 100)), (Qmult_comm (m / monthlyCostCap config)).
      apply Qmult_le_l; [exact Hcap | exact H'].
    - assert (H' : 75 # 100 <= m / monthlyCostCap config).
      { apply Qle_shift_div_l; [exact Hcap | exact H]. }
      lra. }
  split; [apply Qgeb_true|]. split; [exact Hw|].
  intros H. apply Qgeb_true in H. apply Hw. lra.
Qed.

End CostTrackerFacts.

(** ** Orchestrator loop: invariants of a run *)

(** Case analysis on the ways one pass through the loop body can end. *)
Ltac body_cases env state :=
  unfold MakerCheckerOrchestrator.iterationBody; cbv zeta;
  cbn [StateManager.startIteration StateManager.saveState currentIteration];
  destruct (review_status (reviewCode env (currentIteration state + 1)))
    eqn:Ereview;
  [ destruct (QualityAnalyzer.meetsThreshold _ _) eqn:Emeets;
    [ destruct (decision_shouldMerge _) eqn:Edecision;
      [ destruct (negb _ && _) eqn:Eauto | ]
    | destruct (List.length (issuesFound _) =? 0)%nat eqn:Eissues;
        [ | cbn [StateManager.updatePhase StateManager.setPhase
                   StateManager.saveState currentIteration];
            destruct (response_status _) eqn:Eresponse;
            [ destruct (negb _ && _) eqn:Estagnant;
              [ | destruct (Qgeb _ _) eqn:Ecost ]
            | ] ] ]
  | ].

Section LoopRule.

Variable config : MakerCheckerConfig.
Variable env : Collaborators.

(** A rule for the [while] loop: [Inv] holds at the head of the loop,
    [Post] of the state the loop is left with, [Ev] of every event. *)
Lemma runIterations_rule
    (Inv Post : IterationState -> Prop) (Ev : Event -> Prop) :
  (forall state, Inv state ->
     (currentIteration state < maxIterations state)%Z ->
     match MakerCheckerOrchestrator.iterationBody config env state with
     | Break state' events => Post state' /\ Forall Ev events
     | Continue state' events => Inv state' /\ Forall Ev events
     end) ->
  (forall state, Inv state ->
     (maxIterations state <= currentIteration state)%Z -> Post state) ->
  (forall k, Ev (CommentPosted k MaxIterationsComment)) ->
  Ev (LabelAdded AttentionLabel) ->
  forall (fuel : nat) (state state' : IterationState) (trace trace' : list Event),
    Inv state ->
    MakerCheckerOrchestrator.runIterations config env fuel state trace
    = Some (state', trace') ->
    Post state' /\ exists events, trace' = trace ++ events /\ Forall Ev events.
Proof.
  intros Hbody Hexit Hnotice Hlabel.
  assert (Hfinal : forall s tr s' tr',
             MakerCheckerOrchestrator.finalState s tr = (s', tr') ->
             s' = s /\ exists tail, tr' = tr ++ tail /\ Forall Ev tail).
  { intros s tr s' tr' E.
    pose proof (finalState_fst s tr) as E1.
    destruct (finalState_snd s tr) as (tail & E2 & Htail).
    rewrite E in E1, E2. simpl in E1, E2. split; [exact E1|].
    exists tail. split; [exact E2|]. apply Forall_forall.
    intros e He. destruct (Htail e He) as [-> | ->]; auto. }
  induction fuel as [|fuel IH]; intros state state' trace trace' Hinv Hrun;
    simpl in Hrun;
    destruct (currentIteration state <? maxIterations state)%Z eqn:Elt.
  - discriminate.
  - apply Z.ltb_ge in Elt. injection Hrun as Hrun.
    apply Hfinal in Hrun. destruct Hrun as (-> & tail & -> & Htail).
    split; [apply Hexit; assumption|]. exists tail. auto.
  - apply Z.ltb_lt in Elt. specialize (Hbody state Hinv Elt).
    destruct (MakerCheckerOrchestrator.iterationBody config env state)
      as [s1 events | s1 events].
    + destruct Hbody as [Hpost Hev]. injection Hrun as Hrun.
      apply Hfinal in Hrun. destruct Hrun as (-> & tail & -> & Htail).
      split; [exact Hpost|]. exists (events ++ tail).
      split; [rewrite app_assoc; reflexivity|].
      apply Forall_app. auto.
    + destruct Hbody as [Hinv1 Hev].
      apply (IH _ _ _ _ Hinv1) in Hrun.
      destruct Hrun as (Hpost & rest & -> & Hrest).
      split; [exact Hpost|]. exists (events ++ rest).
      split; [rewrite app_assoc; reflexivity|].
      apply Forall_app. auto.
  - apply Z.ltb_ge in Elt. injection Hrun as Hrun.
    apply Hfinal in Hrun. destruct Hrun as (-> & tail & -> & Htail).
    split; [apply Hexit; assumption|]. exists tail. auto.
Qed.

(** X21. A run of the loop keeps the cost invariant: if [totalCost] is
    the sum of the history costs before, it is so after; and when no
    collaborator reports a negative cost, the run does not lower
    [totalCost]. *)
Theorem run_keeps_cost_invariant
    (state state' : IterationState) (trace' : list Event) :
  MakerCheckerOrchestrator.run config env state = Some (state', trace') ->
  (totalCost state = sumCosts (history state) ->
   totalCost state' = sumCosts (history state'))
  /\ ((forall k, 0 <= review_cost (reviewCode env k)) ->
      (forall k issues a, 0 <= response_cost (respondToFeedback env k issues a)) ->
      totalCost state <= totalCost state').
Proof.
  intros Hrun. unfold MakerCheckerOrchestrator.run in Hrun. split.
  - intros Hinit.
    apply (runIterations_rule
             (fun s => totalCost s = sumCosts (history s))
             (fun s => totalCost s = sumCosts (history s))
             (fun _ => True)) in Hrun; auto; [tauto|].
    clear. intros state Hinv _.
    body_cases env state; simpl;
      rewrite ?sumCosts_snoc, ?Hinv; split; auto;
      repeat constructor.
  - intros Hreview Hresponse.
    apply (runIterations_rule
             (fun s => totalCost state <= totalCost s)
             (fun s => totalCost state <= totalCost s)
             (fun _ => True)) in Hrun; auto; [tauto | | lra].
    clear Hrun. intros s Hinv _.
    body_cases env s; simpl; split; repeat constructor;
      try (pose proof (Hreview (currentIteration s + 1)%Z));
      try (pose proof (Hresponse (currentIteration s + 1)%Z
                         (issuesFound (reviewCode env (currentIteration s + 1)))
                         (currentIteration s + 1 - 1)%Z));
      lra.
Qed.


(** X22. A run keeps the counters in step: started with the iteration
    counter within the maximum and one history record per iteration, it
    ends with the counter within the maximum and the history as long as
    the counter, or one shorter when the last pass ended in a terminal
    phase without a record. *)
Theorem run_keeps_counters
    (state state' : IterationState) (trace' : list Event) :
  MakerCheckerOrchestrator.run config env state = Some (state', trace') ->
  (currentIteration state <= maxIterations state)%Z ->
  Z.of_nat (List.length (history state)) = currentIteration state ->
  (currentIteration state' <= maxIterations state')%Z
  /\ (Z.of_nat (List.length (history state')) = currentIteration state'
      \/ (Z.of_nat (List.length (history state')) = (currentIteration state' - 1)%Z
          /\ terminal (currentPhase state'))).
Proof.
  intros Hrun Hmax Hlen. unfold MakerCheckerOrchestrator.run in Hrun.
  apply (runIterations_rule
           (fun s => (currentIteration s <= maxIterations s)%Z
                     /\ Z.of_nat (List.length (history s)) = currentIteration s)
           (fun s => (currentIteration s <= maxIterations s)%Z
                     /\ (Z.of_nat (List.length (history s)) = currentIteration s
                         \/ (Z.of_nat (List.length (history s))
                             = (currentIteration s - 1)%Z
                             /\ terminal (currentPhase s))))
           (fun _ => True)) in Hrun; auto; [tauto | | tauto].
  clear. intros state [Hmax Hlen] Hlt.
  body_cases env state; simpl; rewrite ?length_app; simpl;
    unfold terminal;
    (split; [split; [lia|]; try lia; try (left; lia); try (right; split; [lia|auto])
            | repeat constructor]).
Qed.

(** X23. The loop stops by the third iteration: started with one history
    record per iteration, a run never calls the Checker for an iteration
    beyond the third (or beyond the one it starts with, if that is
    later), whatever the maximum. The history records carry no
    [qualityScore], so from the second record on the loop never sees an
    improvement. *)
Theorem run_stops_by_third_iteration
    (state state' : IterationState) (trace' : list Event) :
  MakerCheckerOrchestrator.run config env state = Some (state', trace') ->
  Z.of_nat (List.length (history state)) = currentIteration state ->
  (currentIteration state' <= Z.max 3 (currentIteration state + 1))%Z
  /\ (forall k, In (CodexReviewCalled k) trace' ->
        (k <= Z.max 3 (currentIteration state + 1))%Z).
Proof.
  intros Hrun Hlen. unfold MakerCheckerOrchestrator.run in Hrun.
  set (c0 := currentIteration state) in *.
  apply (runIterations_rule
           (fun s => Z.of_nat (List.length (history s)) = currentIteration s
                     /\ (currentIteration s = c0 \/ (currentIteration s <= 2)%Z))
           (fun s => (currentIteration s <= Z.max 3 (c0 + 1))%Z)
           (fun e => match e with
                     | CodexReviewCalled k => (k <= Z.max 3 (c0 + 1))%Z
                     | _ => True
                     end)) in Hrun; auto.
  - destruct Hrun as (Hpost & events & E & Hev). split; [exact Hpost|].
    simpl in E. subst trace'. intros k Hin.
    rewrite Forall_forall in Hev. apply (Hev _ Hin).
  - clear Hrun Hlen. intros s [Hlen Hcur] Hlt.
    body_cases env s;
      try rewrite isImproving_without_scores in Estagnant;
      simpl; simpl in *; rewrite ?length_app in *; simpl in *;
      (split; [| repeat constructor; lia]); try lia.
    split; [lia|].
    apply andb_false_iff in Estagnant.
    destruct Estagnant as [E|E].
    + apply negb_false_iff, Nat.ltb_lt in E. lia.
    + rewrite Z.geb_leb in E. apply Z.leb_gt in E. lia.
  - intros s [_ Hcur] _. lia.
Qed.

(** X24. The Maker is called only after a successful review whose score
    is below the quality threshold and which lists at least one issue,
    and it is told the number of earlier iterations. *)
Theorem maker_called_only_when_needed
    (state state' : IterationState) (trace' : list Event) (k a : Z) :
  MakerCheckerOrchestrator.run config env state = Some (state', trace') ->
  In (ClaudeFixCalled k a) trace' ->
  a = (k - 1)%Z
  /\ review_status (reviewCode env k) = status_success
  /\ QualityAnalyzer.calculateQualityScore (reviewCode env k)
     < qualityThreshold config
  /\ issuesFound (reviewCode env k) <> [].
Proof.
  intros Hrun Hin. unfold MakerCheckerOrchestrator.run in Hrun.
  apply (runIterations_rule (fun _ => True) (fun _ => True)
           (fun e => match e with
                     | ClaudeFixCalled j b =>
                         b = (j - 1)%Z
                         /\ review_status (reviewCode env j) = status_success
                         /\ QualityAnalyzer.calculateQualityScore (reviewCode env j)
                            < qualityThreshold config
                         /\ issuesFound (reviewCode env j) <> []
                     | _ => True
                     end)) in Hrun; auto.
  - destruct Hrun as (_ & events & E & Hev). simpl in E. subst trace'.
    rewrite Forall_forall in Hev. apply (Hev _ Hin).
  - clear. intros s _ _.
    assert (Hneed : QualityAnalyzer.meetsThreshold
                      (QualityAnalyzer.calculateQualityScore
                         (reviewCode env (currentIteration s + 1)))
                      (qualityThreshold config) = false ->
                    (List.length (issuesFound
                                    (reviewCode env (currentIteration s + 1)))
                     =? 0)%nat = false ->
                    QualityAnalyzer.calculateQualityScore
                      (reviewCode env (currentIteration s + 1))
                    < qualityThreshold config
                    /\ issuesFound (reviewCode env (currentIteration s + 1)) <> []).
    { intros Hm Hi. split; [apply Qgeb_false; exact Hm|].
      intros E. rewrite E in Hi. discriminate. }
    body_cases env s; simpl; (split; [exact I|]);
      repeat constructor; auto; try apply Hneed; auto.
Qed.

(** X25. The loop merges only on the auto-merge path: a merge in the
    trace means that auto-merge is enabled and that in some iteration the
    review succeeded, CI reported success, the score reached both the
    quality and the auto-merge threshold, and the review held no
    security issue of severity error. *)
Theorem merge_only_when_safe
    (state state' : IterationState) (trace' : list Event) :
  MakerCheckerOrchestrator.run config env state = Some (state', trace') ->
  In PRMerged trace' ->
  autoMergeEnabled config = true
  /\ exists k : Z,
       review_status (reviewCode env k) = status_success
       /\ getCIStatus env k = ci_success
       /\ qualityThreshold config
          <= QualityAnalyzer.calculateQualityScore (reviewCode env k)
       /\ autoMergeThreshold config
          <= QualityAnalyzer.calculateQualityScore (reviewCode env k)
       /\ (forall i, In i (issuesFound (reviewCode env k)) ->
             ~ (issue_type i = security /\ issue_severity i = sev_error)).
Proof.
  intros Hrun Hin. unfold MakerCheckerOrchestrator.run in Hrun.
  apply (runIterations_rule (fun _ => True) (fun _ => True)
           (fun e => match e with
                     | PRMerged =>
                         autoMergeEnabled config = true
                         /\ exists k : Z,
                              review_status (reviewCode env k) = status_success
                              /\ getCIStatus env k = ci_success
                              /\ qualityThreshold config
                                 <= QualityAnalyzer.calculateQualityScore
                                      (reviewCode env k)
                              /\ autoMergeThreshold config
                                 <= QualityAnalyzer.calculateQualityScore
                                      (reviewCode env k)
                              /\ (forall i, In i (issuesFound (reviewCode env k)) ->
                                    ~ (issue_type i = security
                                       /\ issue_severity i = sev_error))
                     | _ => True
                     end)) in Hrun; auto.
  - destruct Hrun as (_ & events & E & Hev). simpl in E. subst trace'.
    rewrite Forall_forall in Hev. apply (Hev _ Hin).
  - clear. intros s _ _.
    body_cases env s; try (simpl; split; [exact I|]; repeat constructor; fail).
    split; [exact I|].
    apply andb_true_iff in Eauto. destruct Eauto as [Hno Henabled].
    apply negb_true_iff in Hno.
    apply auto_merge_conditions in Hno.
    destruct Hno as (_ & _ & Hq & Ha & _ & Hb & Hci & _).
    simpl in Hq, Ha.
    repeat constructor; auto.
    exists (currentIteration s + 1)%Z. repeat split; auto.
    intros i Hi Hblock.
    assert (Hf : In i (filter MergeDecider.isBlocking
                         (issuesFound (reviewCode env (currentIteration s + 1))))).
    { apply filter_In. split; [exact Hi|]. apply isBlocking_true. exact Hblock. }
    rewrite Hb in Hf. destruct Hf.
Qed.

End LoopRule.

Lemma checkMonthlyLimit_spec_witness :
  0 < monthlyCostCap MakerCheckerOrchestrator.getDefaultConfig
  /\ limit_warning
       (CostTracker.checkMonthlyLimit sampleMonthKey
          MakerCheckerOrchestrator.getDefaultConfig sampleCostFiles
          "2025-01-20T08:00:00.000Z") = true
  /\ exceeded
       (CostTracker.checkMonthlyLimit sampleMonthKey
          MakerCheckerOrchestrator.getDefaultConfig sampleCostFiles
          "2025-01-20T08:00:00.000Z") = false.
Proof.
  assert (Hcap : 0 < monthlyCostCap MakerCheckerOrchestrator.getDefaultConfig)
    by (vm_compute; reflexivity).
  destruct (checkMonthlyLimit_spec sampleMonthKey
              MakerCheckerOrchestrator.getDefaultConfig sampleCostFiles
              "2025-01-20T08:00:00.000Z" Hcap) as (He & Hw & _).
  split; [exact Hcap|]. split.
  - apply Hw. vm_compute. discriminate.
  - apply not_true_is_false. intros E. apply He in E. vm_compute in E.
    apply E. reflexivity.
Defined.

Lemma run_keeps_cost_invariant_witness :
  totalCost (fst sampleOutcome) = sumCosts (history (fst sampleOutcome)).
Proof.
  apply (proj1 (run_keeps_cost_invariant
                  MakerCheckerOrchestrator.getDefaultConfig sampleEnv
                  (StateManager.initializeState 42 "acme/widgets"
                     MakerCheckerOrchestrator.getDefaultConfig "t0")
                  (fst sampleOutcome) (snd sampleOutcome)
                  ltac:(vm_compute; reflexivity))).
  reflexivity.
Defined.

Lemma run_keeps_counters_witness :
  (currentIteration (fst sampleOutcome) <= maxIterations (fst sampleOutcome))%Z
  /\ (Z.of_nat (List.length (history (fst sampleOutcome)))
      = currentIteration (fst sampleOutcome)
      \/ (Z.of_nat (List.length (history (fst sampleOutcome)))
          = (currentIteration (fst sampleOutcome) - 1)%Z
          /\ terminal (currentPhase (fst sampleOutcome)))).
Proof.
  apply (run_keeps_counters
           MakerCheckerOrchestrator.getDefaultConfig sampleEnv
           (StateManager.initializeState 42 "acme/widgets"
              MakerCheckerOrchestrator.getDefaultConfig "t0")
           (fst sampleOutcome) (snd sampleOutcome)
           ltac:(vm_compute; reflexivity));
    [vm_compute; discriminate | reflexivity].
Defined.

Lemma run_stops_by_third_iteration_witness :
  (currentIteration (fst stubbornOutcome) <= 3)%Z
  /\ (forall k, In (CodexReviewCalled k) (snd stubbornOutcome) -> (k <= 3)%Z).
Proof.
  apply (run_stops_by_third_iteration
           MakerCheckerOrchestrator.getDefaultConfig stubbornEnv
           (StateManager.initializeState 42 "acme/widgets"
              MakerCheckerOrchestrator.getDefaultConfig "t0")
           (fst stubbornOutcome) (snd stubbornOutcome)
           ltac:(vm_compute; reflexivity)).
  reflexivity.
Defined.

Lemma maker_called_only_when_needed_witness :
  0%Z = (1 - 1)%Z
  /\ review_status (reviewCode sampleEnv 1) = status_success
  /\ QualityAnalyzer.calculateQualityScore (reviewCode sampleEnv 1)
     < qualityThreshold MakerCheckerOrchestrator.getDefaultConfig
  /\ issuesFound (reviewCode sampleEnv 1) <> [].
Proof.
  apply (maker_called_only_when_needed
           MakerCheckerOrchestrator.getDefaultConfig sampleEnv
           (StateManager.initializeState 42 "acme/widgets"
              MakerCheckerOrchestrator.getDefaultConfig "t0")
           (fst sampleOutcome) (snd sampleOutcome) 1%Z 0%Z
           ltac:(vm_compute; reflexivity)).
  vm_compute. intuition.
Defined.

Lemma merge_only_when_safe_witness :
  In PRMerged (snd mergedOutcome)
  /\ autoMergeEnabled autoMergeConfig = true
  /\ exists k : Z,
       review_status (reviewCode mergingEnv k) = status_success
       /\ getCIStatus mergingEnv k = ci_success
       /\ qualityThreshold autoMergeConfig
          <= QualityAnalyzer.calculateQualityScore (reviewCode mergingEnv k)
       /\ autoMergeThreshold autoMergeConfig
          <= QualityAnalyzer.calculateQualityScore (reviewCode mergingEnv k)
       /\ (forall i, In i (issuesFound (reviewCode mergingEnv k)) ->
             ~ (issue_type i = security /\ issue_severity i = sev_error)).
Proof.
  assert (Hin : In PRMerged (snd mergedOutcome)) by (vm_compute; intuition).
  split; [exact Hin|].
  apply (merge_only_when_safe autoMergeConfig mergingEnv
           (StateManager.initializeState 42 "acme/widgets" autoMergeConfig "t0")
           (fst mergedOutcome) (snd mergedOutcome)
           ltac:(vm_compute; reflexivity) Hin).
Defined.

(** ** ConvergenceDetector: the trailing window *)

Lemma slice_from_app {A : Type} (n : Z) (old recent : list A) :
  (0 < n)%Z -> List.length recent = Z.to_nat n ->
  slice_from (- n) (old ++ recent) = recent.
Proof.
  intros Hn Hlen. unfold slice_from.
  assert (E : (- n <? 0)%Z = true) by (apply Z.ltb_lt; lia).
  rewrite E, length_app.
  replace (Z.to_nat (Z.max (Z.of_nat (List.length old + List.length recent) + - n) 0))
    with (List.length old + 0)%nat by lia.
  rewrite skipn_app, Nat.add_comm, Nat.add_sub.
  rewrite skipn_all2 by lia. reflexivity.
Qed.

(** X26. [detectConvergence] looks at the trailing window only: with a
    threshold of at least two, the records older than the last
    [stagnationThreshold] ones do not change the result. *)
Theorem detectConvergence_window
    (stagnationThreshold : Z) (older : list IterationRecord)
    (state recent : IterationState) :
  (2 <= stagnationThreshold)%Z ->
  List.length (history recent) = Z.to_nat stagnationThreshold ->
  history state = older ++ history recent ->
  ConvergenceDetector.detectConvergence stagnationThreshold state
  = ConvergenceDetector.detectConvergence stagnationThreshold recent.
Proof.
  intros Ht Hlen Hhist. unfold ConvergenceDetector.detectConvergence.
  assert (E1 : (List.length (history state) <? 2)%nat = false)
    by (apply Nat.ltb_ge; rewrite Hhist, length_app; lia).
  assert (E2 : (List.length (history recent) <? 2)%nat = false)
    by (apply Nat.ltb_ge; lia).
  rewrite E1, E2, Hhist, slice_from_app by (try lia; exact Hlen).
  pose proof (slice_from_app stagnationThreshold [] (history recent)
                ltac:(lia) Hlen) as Hrecent.
  cbn [app] in Hrecent. rewrite Hrecent. reflexivity.
Qed.

Lemma detectConvergence_window_witness :
  ConvergenceDetector.detectConvergence 2
    (stateAfter (5 # 10) (6 # 10) (7 # 10) 5 4 3 5)
  = ConvergenceDetector.detectConvergence 2
      {| prNumber := 42; repository := "acme/widgets";
         currentIteration := 3; maxIterations := 5;
         history := [sampleHistoryRecord 2 (6 # 10) 4;
                     sampleHistoryRecord 3 (7 # 10) 3];
         currentPhase := claude_response; qualityScore := 7 # 10;
         convergenceStatus := conv_improving; totalCost := 3 # 10;
         createdAt := "t0"; updatedAt := "t3" |}.
Proof.
  apply (detectConvergence_window 2 [sampleHistoryRecord 1 (5 # 10) 5]);
    [lia | reflexivity | reflexivity].
Defined.

(** X27. Degenerate windows. With a stagnation threshold of 1 the window
    holds one record and no step, so from two records on the verdict is
    always stagnant, with confidence 0.85; with a threshold of 0 the
    window is the whole history. *)
Theorem detectConvergence_degenerate_windows (state : IterationState) :
  (2 <= List.length (history state))%nat ->
  detection_status (ConvergenceDetector.detectConvergence 1 state) = stagnant
  /\ detection_confidence (ConvergenceDetector.detectConvergence 1 state)
     = 85 # 100
  /\ ConvergenceDetector.detectConvergence 0 state
     = ConvergenceDetector.detectConvergence
         (Z.of_nat (List.length (history state))) state.
Proof.
  intros Hlen.
  assert (E : (List.length (history state) <? 2)%nat = false)
    by (apply Nat.ltb_ge; exact Hlen).
  unfold ConvergenceDetector.detectConvergence. rewrite E.
  pose proof (slice_from_window 1 (history state) ltac:(lia)) as Hw.
  assert (H0 : slice_from (- 0) (history state) = history state).
  { unfold slice_from. cbn [Z.opp Z.ltb Z.compare].
    replace (Z.to_nat (Z.min 0 (Z.of_nat (List.length (history state)))))
      with 0%nat by lia.
    reflexivity. }
  assert (Hall : slice_from (- Z.of_nat (List.length (history state)))
                   (history state) = history state).
  { apply (slice_from_app _ [] (history state)); lia. }
  rewrite H0, Hall.
  destruct (slice_from (- (1)) (history state)) as [|r [|r' tl]];
    simpl in Hw; try lia.
  repeat split; reflexivity.
Qed.

Lemma detectConvergence_degenerate_windows_witness :
  detection_status
    (ConvergenceDetector.detectConvergence 1
       (stateAfter (5 # 10) (7 # 10) (9 # 10) 5 3 1 5)) = stagnant.
Proof.
  apply (detectConvergence_degenerate_windows
           (stateAfter (5 # 10) (7 # 10) (9 # 10) 5 3 1 5)).
  simpl. lia.
Defined.

(** X28. With a positive cap per PR, [hasExceededPRLimit] holds exactly
    when the cost recorded for the PR has reached the cap; a PR without
    a readable tracking file has cost 0 and has not exceeded it. *)
Theorem hasExceededPRLimit_spec
    (config : MakerCheckerConfig) (files : CostFiles)
    (prNumber : Z) (repository : string) :
  0 < maxCostPerPR config ->
  (CostTracker.hasExceededPRLimit config files prNumber repository = true
   <-> maxCostPerPR config <= CostTracker.getPRCost files prNumber repository)
  /\ (CostTracker.getPRTracking files prNumber repository = None ->
      CostTracker.getPRCost files prNumber repository = 0
      /\ CostTracker.hasExceededPRLimit config files prNumber repository = false).
Proof.
  intros Hcap. unfold CostTracker.hasExceededPRLimit, CostTracker.getPRCost.
  destruct (CostTracker.getPRTracking files prNumber repository) as [tracking|];
    cbn [option_map].
  - split; [|discriminate]. rewrite orElse_zero, Qgeb_true. tauto.
  - split; [|auto]. split; [discriminate|].
    intros H. exfalso. unfold orElse in H. simpl in H. lra.
Qed.

Lemma hasExceededPRLimit_spec_witness :
  CostTracker.hasExceededPRLimit MakerCheckerOrchestrator.getDefaultConfig
    sampleCostFiles 42 "acme/widgets" = true.
Proof.
  apply (proj1 (hasExceededPRLimit_spec
                  MakerCheckerOrchestrator.getDefaultConfig sampleCostFiles
                  42 "acme/widgets" ltac:(vm_compute; reflexivity))).
  vm_compute. discriminate.
Defined.

(** ** QualityGates: the effort estimate *)

(** X29. [estimateEffortToPass] rates as low whatever [isAutoMergeSafe]
    accepts (when the auto-merge threshold is not below the quality
    threshold), and further findings never lower the rating. *)
Theorem estimateEffortToPass_spec
    (config : MakerCheckerConfig) (metrics : QualityMetrics)
    (review : CodexReviewResult) (ci : CIStatus)
    (issues : list Issue) (secs : list SecurityIssue)
    (perfs : list PerformanceIssue) :
  (qualityThreshold config <= autoMergeThreshold config ->
   QualityGates.isAutoMergeSafe config review metrics ci = true ->
   effort (QualityGates.estimateEffortToPass config metrics review) = effort_low)
  /\ (effortRank (effort (QualityGates.estimateEffortToPass config metrics review))
      <= effortRank
           (effort (QualityGates.estimateEffortToPass config metrics
                      (addFindings review issues secs perfs))))%nat.
Proof.
  unfold QualityGates.estimateEffortToPass, QualityGates.isAutoMergeSafe.
  cbv zeta. cbn [addFindings issuesFound securityIssues].
  rewrite filter_app, !length_app.
  set (gap := qualityThreshold config - overallScore metrics).
  set (e := List.length (filter QualityGates.isError (issuesFound review))).
  set (e' := List.length (filter QualityGates.isError issues)).
  set (n := List.length (securityIssues review)).
  set (n' := List.length secs).
  split.
  - intros Hthr Hsafe.
    apply andb_true_iff in Hsafe. destruct Hsafe as [Hsafe _].
    apply andb_true_iff in Hsafe. destruct Hsafe as [Hsafe He].
    apply andb_true_iff in Hsafe. destruct Hsafe as [Hsafe Hn].
    apply andb_true_iff in Hsafe. destruct Hsafe as [Hscore _].
    apply Qgeb_true in Hscore.
    apply Nat.eqb_eq in He. apply Nat.eqb_eq in Hn. fold e in He. fold n in Hn.
    rewrite He, Hn.
    assert (E2 : Qgtb gap (2 # 10) = false)
      by (apply Qgtb_false; subst gap; lra).
    assert (E1 : Qgtb gap (1 # 10) = false)
      by (apply Qgtb_false; subst gap; lra).
    rewrite E2, E1. reflexivity.
  - destruct (Qgtb gap (2 # 10)); destruct (Qgtb gap (1 # 10));
      cbn [orb];
      repeat match goal with
             | |- context [(?a <? ?b)%nat] => destruct (Nat.ltb_spec a b)
             end;
      cbn [orb effort effortRank]; lia.
Qed.
